(** * Shihan supervision core: a shallow embedding and its properties

    The development embeds the text engines (log sentinel, creed audit), the
    plan critic, the pager and the watchdog agent of [shihan_mcp], and proves
    the properties stated about them.

    Conventions.
    - Python [str] values are [string]s; a character is an [ascii], read as the
      code point of the same number (the Latin-1 range).  Character classes
      ([str.isspace], [\s], [\w], [\d], [str.lower]) follow CPython's tables
      restricted to that range.
    - Everything the code obtains from the operating system ([subprocess],
      [os], [open], [requests], [glob], [datetime.now]) is an oracle of the
      environment [Env]; an oracle answers from the history of the effects
      performed so far, so that a file written by the pager can be seen by a
      later directory listing.
    - Code that may raise runs in the monad [M]: a result, or a raised
      exception carrying its message, together with the trace of effects. *)

From Stdlib Require Import Bool Arith ZArith Lia List Sorted Ascii String.
Import ListNotations.
Open Scope string_scope.
Open Scope nat_scope.

Set Implicit Arguments.

(* ===================================================================== *)
(** ** Python string primitives *)
(* ===================================================================== *)

Module Py.

Definition code (a : ascii) : nat := nat_of_ascii a.

(** [str.isspace] on one character (also the class [\s] of [re]). *)
Definition isspace (a : ascii) : bool :=
  let n := code a in
  ((9 <=? n) && (n <=? 13)) || ((28 <=? n) && (n <=? 32))
  || (n =? 133) || (n =? 160).

(** The class [\d] of [re] for [str] patterns: decimal digits. *)
Definition isdigit (a : ascii) : bool :=
  let n := code a in (48 <=? n) && (n <=? 57).

(** The class [\w] of [re]: [str.isalnum] or the underscore. *)
Definition isword (a : ascii) : bool :=
  let n := code a in
  ((48 <=? n) && (n <=? 57)) || ((65 <=? n) && (n <=? 90)) || (n =? 95)
  || ((97 <=? n) && (n <=? 122))
  || (n =? 170) || (n =? 178) || (n =? 179) || (n =? 181) || (n =? 185)
  || (n =? 186) || ((188 <=? n) && (n <=? 190))
  || ((192 <=? n) && (n <=? 214)) || ((216 <=? n) && (n <=? 246))
  || (248 <=? n).

(** [str.lower] on one character. *)
Definition lower_char (a : ascii) : ascii :=
  let n := code a in
  if ((65 <=? n) && (n <=? 90))
     || ((192 <=? n) && (n <=? 214)) || ((216 <=? n) && (n <=? 222))
  then ascii_of_nat (n + 32) else a.

Fixpoint lower (s : string) : string :=
  match s with
  | EmptyString => EmptyString
  | String a s' => String (lower_char a) (lower s')
  end.

(** [s.startswith(p)] *)
Fixpoint startswith (p s : string) : bool :=
  match p with
  | EmptyString => true
  | String a p' =>
      match s with
      | String b s' => Ascii.eqb a b && startswith p' s'
      | EmptyString => false
      end
  end.

(** [s[n:]] *)
Fixpoint drop (n : nat) (s : string) : string :=
  match n with
  | 0 => s
  | S n' => match s with String _ s' => drop n' s' | EmptyString => EmptyString end
  end.

(** [s[:n]] *)
Fixpoint take (n : nat) (s : string) : string :=
  match n with
  | 0 => EmptyString
  | S n' =>
      match s with
      | String a s' => String a (take n' s')
      | EmptyString => EmptyString
      end
  end.

(** [s[i:i+n]] *)
Definition slice (i n : nat) (s : string) : string := take n (drop i s).

(** [s.endswith(p)] *)
Definition endswith (p s : string) : bool :=
  (String.length p <=? String.length s)
  && String.eqb (drop (String.length s - String.length p) s) p.

(** [p in s] *)
Fixpoint contains (p s : string) : bool :=
  startswith p s
  || match s with String _ s' => contains p s' | EmptyString => false end.

(** [s.count(p)] for a non-empty [p]: occurrences that do not overlap,
    found left to right.  [skip] characters of a found occurrence are still
    to be passed over. *)
Fixpoint count_from (p s : string) (skip : nat) : nat :=
  match skip with
  | S k => match s with String _ s' => count_from p s' k | EmptyString => 0 end
  | 0 =>
      match s with
      | EmptyString => 0
      | String _ s' =>
          if startswith p s
          then S (count_from p s' (String.length p - 1))
          else count_from p s' 0
      end
  end.

Definition count (p s : string) : nat := count_from p s 0.

(** [s.lstrip()], [s.rstrip()] and [s.strip()]: whitespace removed. *)
Fixpoint lstrip (s : string) : string :=
  match s with
  | String a s' => if isspace a then lstrip s' else s
  | EmptyString => EmptyString
  end.

Fixpoint rstrip (s : string) : string :=
  match s with
  | EmptyString => EmptyString
  | String a s' =>
      match rstrip s' with
      | EmptyString => if isspace a then EmptyString else String a EmptyString
      | r => String a r
      end
  end.

Definition strip (s : string) : string := rstrip (lstrip s).

(** [s.split(sep)] for a separator of one character: always at least one
    field. *)
Fixpoint split (sep : ascii) (s : string) : list string :=
  match s with
  | EmptyString => [EmptyString]
  | String a s' =>
      if Ascii.eqb a sep then EmptyString :: split sep s'
      else match split sep s' with
           | f :: fs => String a f :: fs
           | [] => [String a EmptyString]
           end
  end.

(** [sep.join(l)] *)
Fixpoint join (sep : string) (l : list string) : string :=
  match l with
  | [] => EmptyString
  | [x] => x
  | x :: l' => x ++ sep ++ join sep l'
  end.

(** [s.replace(a, r)] for a pattern of one character. *)
Fixpoint replace_char (a : ascii) (r : string) (s : string) : string :=
  match s with
  | EmptyString => EmptyString
  | String b s' =>
      (if Ascii.eqb a b then r else String b EmptyString) ++ replace_char a r s'
  end.

(** [str(n)] for a natural number, in decimal. *)
Definition digit_char (d : nat) : ascii := ascii_of_nat (48 + d).

Fixpoint str_of_nat_fuel (fuel n : nat) (acc : string) : string :=
  match fuel with
  | 0 => acc
  | S f =>
      let acc' := String (digit_char (n mod 10)) acc in
      if n <? 10 then acc' else str_of_nat_fuel f (n / 10) acc'
  end.

Definition str_of_nat (n : nat) : string := str_of_nat_fuel (S n) n EmptyString.

(** [str(z)] for an integer. *)
Definition str_of_Z (z : Z) : string :=
  match z with
  | Zneg p => String "-"%char (str_of_nat (Pos.to_nat p))
  | _ => str_of_nat (Z.to_nat z)
  end.

Definition nl : string := String (ascii_of_nat 10) EmptyString.

End Py.

(* ===================================================================== *)
(** ** The fragment of [re] the sources use

    A backtracking matcher with the priorities of CPython's [re]: the first
    alternative first, a greedy repetition longest first, a lazy one shortest
    first, the leftmost start position first.  Repetition is over one
    character class, which is all the patterns of the sources need. *)
(* ===================================================================== *)

Module Re.

Inductive cclass : Type :=
| CLit (c : ascii)        (* a literal character *)
| CDot (dotall : bool)    (* [.]: any character, a newline only with DOTALL *)
| CSpace                  (* [\s] *)
| CNotSpace               (* [\S] *)
| CDigit.                 (* [\d] *)

Inductive regex : Type :=
| REps
| RChar (c : cclass)
| RSeq (r1 r2 : regex)
| RAlt (r1 r2 : regex)
| RStar (greedy : bool) (c : cclass)   (* [c*] and [c*?] *)
| RWordB                               (* [\b] *)
| REndZ                                (* [\Z] *)
| RLook (positive : bool) (r : regex). (* [(?=r)] and [(?!r)] *)

Definition cmatch (c : cclass) (a : ascii) : bool :=
  match c with
  | CLit b => Ascii.eqb b a
  | CDot dotall => dotall || negb (Ascii.eqb a (ascii_of_nat 10))
  | CSpace => Py.isspace a
  | CNotSpace => negb (Py.isspace a)
  | CDigit => Py.isdigit a
  end.

(** A literal string. *)
Fixpoint lit (s : string) : regex :=
  match s with
  | EmptyString => REps
  | String a EmptyString => RChar (CLit a)
  | String a s' => RSeq (RChar (CLit a)) (lit s')
  end.

(** [c+] and [c+?] *)
Definition plus (greedy : bool) (c : cclass) : regex :=
  RSeq (RChar c) (RStar greedy c).

(** [r{n}] *)
Fixpoint rep (n : nat) (r : regex) : regex :=
  match n with
  | 0 => REps
  | 1 => r
  | S n' => RSeq r (rep n' r)
  end.

Fixpoint seq (rs : list regex) : regex :=
  match rs with
  | [] => REps
  | [r] => r
  | r :: rs' => RSeq r (seq rs')
  end.

(** A position in the subject: the character before it, if any, and the
    text from it on. The continuation receives the position reached and the
    number of characters consumed. *)
Definition cont : Type := option ascii -> string -> nat -> option nat.

Definition orelse (x y : option nat) : option nat :=
  match x with Some _ => x | None => y end.

Fixpoint star_greedy (c : cclass) (k : cont)
         (prev : option ascii) (s : string) (n : nat) : option nat :=
  match s with
  | String a s' =>
      if cmatch c a
      then orelse (star_greedy c k (Some a) s' (S n)) (k prev s n)
      else k prev s n
  | EmptyString => k prev s n
  end.

Fixpoint star_lazy (c : cclass) (k : cont)
         (prev : option ascii) (s : string) (n : nat) : option nat :=
  match k prev s n with
  | Some r => Some r
  | None =>
      match s with
      | String a s' =>
          if cmatch c a then star_lazy c k (Some a) s' (S n) else None
      | EmptyString => None
      end
  end.

Definition is_word_opt (o : option ascii) : bool :=
  match o with Some a => Py.isword a | None => false end.

Definition head (s : string) : option ascii :=
  match s with String a _ => Some a | EmptyString => None end.

Fixpoint exec (r : regex) (k : cont)
         (prev : option ascii) (s : string) (n : nat) : option nat :=
  match r with
  | REps => k prev s n
  | RChar c =>
      match s with
      | String a s' => if cmatch c a then k (Some a) s' (S n) else None
      | EmptyString => None
      end
  | RSeq r1 r2 => exec r1 (exec r2 k) prev s n
  | RAlt r1 r2 => orelse (exec r1 k prev s n) (exec r2 k prev s n)
  | RStar true c => star_greedy c k prev s n
  | RStar false c => star_lazy c k prev s n
  | RWordB =>
      if xorb (is_word_opt prev) (is_word_opt (head s)) then k prev s n else None
  | REndZ => match s with EmptyString => k prev s n | _ => None end
  | RLook positive r1 =>
      match exec r1 (fun _ _ m => Some m) prev s n with
      | Some _ => if positive then k prev s n else None
      | None => if positive then None else k prev s n
      end
  end.

(** The match that starts at this position, as its length. *)
Definition match_here (r : regex) (prev : option ascii) (s : string) : option nat :=
  exec r (fun _ _ m => Some m) prev s 0.

(** [pattern.search(s)], as a truth value. *)
Fixpoint search_from (r : regex) (prev : option ascii) (s : string) : bool :=
  match match_here r prev s with
  | Some _ => true
  | None =>
      match s with
      | String a s' => search_from r (Some a) s'
      | EmptyString => false
      end
  end.

Definition search (r : regex) (s : string) : bool := search_from r None s.

(** The spans (start, length) of [re.finditer]: matches that do not
    overlap, leftmost first.  [skip] characters of the match found last are
    still to be passed over; [off] is the index of the position. *)
Fixpoint spans_from (r : regex) (prev : option ascii) (s : string)
         (skip off : nat) : list (nat * nat) :=
  match skip with
  | S skip' =>
      match s with
      | String a s' => spans_from r (Some a) s' skip' (S off)
      | EmptyString => []
      end
  | 0 =>
      match match_here r prev s with
      | Some len =>
          (off, len) ::
          match s with
          | String a s' => spans_from r (Some a) s' (pred len) (S off)
          | EmptyString => []
          end
      | None =>
          match s with
          | String a s' => spans_from r (Some a) s' 0 (S off)
          | EmptyString => []
          end
      end
  end.

Definition spans (r : regex) (s : string) : list (nat * nat) :=
  spans_from r None s 0 0.

Definition span_text (s : string) (sp : nat * nat) : string :=
  Py.slice (fst sp) (snd sp) s.

Definition span_end (sp : nat * nat) : nat := fst sp + snd sp.

(** [[m.group(0) for m in re.finditer(r, s)]], which is also
    [re.findall(r, s)] for a pattern without groups. *)
Definition findall (r : regex) (s : string) : list string :=
  map (span_text s) (spans r s).

End Re.

(* ===================================================================== *)
(** ** The environment, the trace of effects and the monad of the code *)
(* ===================================================================== *)

Module Sys.

(** [tools/pager.py], [PagerInput] and [PagerOutput]. *)
Record PagerInput : Type := mkPagerInput {
  title : string;
  body : string;
  priority : Z
}.

Record PagerOutput : Type := mkPagerOutput {
  pager_status : string;
  pager_method : string
}.

(** The form fields of the request to the push service. *)
Record PostData : Type := mkPostData {
  post_token : string;
  post_user : string;
  post_title : string;
  post_message : string;
  post_priority : Z;
  post_sound : string
}.

(** What happened during a run, oldest first: the tools entered through
    [BaseTool.run], and the effects on the outside world. *)
Inductive Event : Type :=
| EvLogSentinel (tail_lines : Z)               (* [log_sentinel.run] entered *)
| EvCreedAudit (files : list string)           (* [creed_audit.run] entered *)
| EvPlanCritic (scroll_path : string)          (* [plan_critic.run] entered *)
| EvPager (i : PagerInput) (o : PagerOutput)   (* [pager.run] and what it returned *)
| EvPost (d : PostData)                        (* [requests.post] *)
| EvMakedirs (path : string)                   (* [os.makedirs] *)
| EvWrite (path content : string).             (* [open(path, "w")] and [write] *)

Definition Trace : Type := list Event.

(** [subprocess.run(["tail", ...], check=True)] *)
Inductive TailOutcome : Type :=
| TailStdout (out : string)
| TailCalledProcessError
| TailFileNotFoundError
| TailOtherException (msg : string).

(** [subprocess.run(["git", "diff", "--name-only", "HEAD"])] *)
Inductive GitOutcome : Type :=
| GitCompleted (returncode : Z) (stdout : string)
| GitException.

(** [open(path, 'r').read()] *)
Inductive ReadOutcome : Type :=
| ReadText (content : string)
| ReadException (msg : string).

(** [requests.post(...)] *)
Inductive PostOutcome : Type :=
| PostResponse (status_code : Z)
| PostException.

(** Arguments as the protocol layer hands them over. *)
Inductive PyVal : Type :=
| PyNone
| PyStr (s : string)
| PyInt (z : Z)
| PyBool (b : bool).

Definition Args : Type := list (string * PyVal).

Record Env : Type := mkEnv {
  subprocess_tail : Trace -> Z -> string -> TailOutcome;
  subprocess_git_diff : Trace -> GitOutcome;
  os_path_exists : Trace -> string -> bool;
  open_read : Trace -> string -> ReadOutcome;
  os_getenv : Trace -> string -> option string;
  requests_post : Trace -> PostData -> PostOutcome;
  (* [false]: the call raised *)
  os_makedirs : Trace -> string -> bool;
  (* [datetime.now().strftime("%m-%d-%H%M")] *)
  now_stamp : Trace -> string;
  (* [false]: [open] or [write] raised *)
  open_write : Trace -> string -> string -> bool;
  (* [None]: the call raised *)
  glob_glob : Trace -> string -> option (list string);
  os_path_getmtime : Trace -> string -> option Z;
  (* [str(e)] of pydantic's [ValidationError] for rejected arguments *)
  validation_message : Args -> string
}.

Inductive Result (A : Type) : Type :=
| Ok (a : A) (t : Trace)
| Raise (msg : string) (t : Trace).

Arguments Ok {A} a t.
Arguments Raise {A} msg t.

Definition M (A : Type) : Type := Trace -> Result A.

Definition ret {A} (a : A) : M A := fun t => Ok a t.

Definition bind {A B} (c : M A) (k : A -> M B) : M B :=
  fun t => match c t with
           | Ok a t' => k a t'
           | Raise msg t' => Raise msg t'
           end.

Definition raise {A} (msg : string) : M A := fun t => Raise msg t.

(** An answer of the environment, given the history so far. *)
Definition ask {A} (f : Trace -> A) : M A := fun t => Ok (f t) t.

Definition emit (e : Event) : M unit := fun t => Ok tt (t ++ [e])%list.

(** [try: c except Exception: h(str(e))] *)
Definition try_except {A} (c : M A) (h : string -> M A) : M A :=
  fun t => match c t with
           | Ok a t' => Ok a t'
           | Raise msg t' => h msg t'
           end.

Definition trace_of {A} (r : Result A) : Trace :=
  match r with Ok _ t => t | Raise _ t => t end.

Definition value_of {A} (r : Result A) : option A :=
  match r with Ok a _ => Some a | Raise _ _ => None end.

End Sys.

Module MNotations.
Notation "x <- c ;; k" := (Sys.bind c (fun x => k))
  (at level 61, c at next level, right associativity).
Notation "c ;;; k" := (Sys.bind c (fun _ => k))
  (at level 61, right associativity).
End MNotations.

(* ===================================================================== *)
(** ** [config.py] *)
(* ===================================================================== *)

Module Paths.
Definition LOG : string := "training.log".
Definition SCROLLS : string := "./.scrolls".
End Paths.

(* ===================================================================== *)
(** ** [tools/log_tail.py]: the log sentinel *)
(* ===================================================================== *)

Module LogTail.
Import Sys MNotations.

Record LogSentinelOutput : Type := mkLogSentinelOutput {
  summary : string;
  last_error : option string;
  elapsed : string
}.

(** [.*?(?=\n\n|\Z)] with DOTALL *)
Definition upto_blank : Re.regex :=
  Re.RSeq (Re.RStar false (Re.CDot true))
          (Re.RLook true (Re.RAlt (Re.lit (Py.nl ++ Py.nl)) Re.REndZ)).

(** The list [error_patterns] of [_find_last_error], in its order. *)
Definition error_patterns : list Re.regex :=
  [ Re.RSeq (Re.lit "Traceback (most recent call last):") upto_blank;
    Re.RSeq (Re.lit "RuntimeError:") upto_blank;
    Re.RSeq (Re.lit "AssertionError:") upto_blank;
    Re.RSeq (Re.lit "Error:") upto_blank ].

(** The list [errors] that [_find_last_error] collects. *)
Definition collect_errors (log_content : string) : list string :=
  flat_map (fun pattern => Re.findall pattern log_content) error_patterns.

(** [errors[-1]] when [errors] is not empty. *)
Definition last_opt {A} (l : list A) : option A :=
  match l with
  | [] => None
  | x :: l' => Some (last l' x)
  end.

Definition _find_last_error (log_content : string) : option string :=
  last_opt (collect_errors log_content).

(** [\d{4}-\d{2}-\d{2} \d{2}:\d{2}:\d{2}] *)
Definition timestamp_pattern : Re.regex :=
  let d := Re.RChar Re.CDigit in
  Re.seq [ Re.rep 4 d; Re.lit "-"; Re.rep 2 d; Re.lit "-"; Re.rep 2 d;
           Re.lit " "; Re.rep 2 d; Re.lit ":"; Re.rep 2 d; Re.lit ":";
           Re.rep 2 d ].

(** [int(s)] for a string of decimal digits. *)
Fixpoint int_of_digits (s : string) (acc : nat) : nat :=
  match s with
  | EmptyString => acc
  | String a s' => int_of_digits s' (10 * acc + (Py.code a - 48))
  end.

Definition field (i n : nat) (s : string) : nat :=
  int_of_digits (Py.slice i n s) 0.

Record datetime : Type := mkDatetime {
  year : nat; month : nat; day : nat;
  hour : nat; minute : nat; second : nat
}.

Definition is_leap (y : nat) : bool :=
  (y mod 4 =? 0) && (negb (y mod 100 =? 0) || (y mod 400 =? 0)).

Definition days_in_month (y m : nat) : nat :=
  match m with
  | 2 => if is_leap y then 29 else 28
  | 4 | 6 | 9 | 11 => 30
  | _ => 31
  end.

(** [datetime.strptime(s, '%Y-%m-%d %H:%M:%S')] on a string of the shape of
    [timestamp_pattern]; [None] stands for the [ValueError]. *)
Definition strptime (s : string) : option datetime :=
  let y := field 0 4 s in
  let m := field 5 2 s in
  let d := field 8 2 s in
  let h := field 11 2 s in
  let mi := field 14 2 s in
  let sec := field 17 2 s in
  if (1 <=? y) && (1 <=? m) && (m <=? 12) && (1 <=? d)
     && (d <=? days_in_month y m) && (h <=? 23) && (mi <=? 59) && (sec <=? 59)
  then Some (mkDatetime y m d h mi sec)
  else None.

Fixpoint days_before_month (y m : nat) : nat :=
  match m with
  | 0 => 0
  | S m' => match m' with
            | 0 => 0
            | _ => days_before_month y m' + days_in_month y m'
            end
  end.

Definition days_before_year (y : nat) : nat :=
  let p := y - 1 in p * 365 + p / 4 - p / 100 + p / 400.

(** The proleptic Gregorian ordinal of the date. *)
Definition toordinal (t : datetime) : nat :=
  days_before_year (year t) + days_before_month (year t) (month t) + day t.

(** Seconds since the start of day one. *)
Definition total_seconds (t : datetime) : Z :=
  (Z.of_nat (toordinal t) * 86400
   + Z.of_nat (hour t) * 3600 + Z.of_nat (minute t) * 60
   + Z.of_nat (second t))%Z.

(** [last_time - first_time]: a [timedelta], as its normalised fields
    [days] and [seconds]. *)
Definition timedelta (last_time first_time : datetime) : Z * Z :=
  let d := (total_seconds last_time - total_seconds first_time)%Z in
  ((d / 86400)%Z, (d mod 86400)%Z).

Definition _compute_runtime (log_content : string) : string :=
  let timestamps := Re.findall timestamp_pattern log_content in
  match timestamps with
  | [] | [_] => "Unknown (insufficient timestamps)"
  | first :: rest =>
      match strptime first with
      | None => "Unknown (invalid timestamps)"
      | Some first_time =>
          match strptime (last rest first) with
          | None => "Unknown (invalid timestamps)"
          | Some last_time =>
              let (days, secs) := timedelta last_time first_time in
              let hours := (secs / 3600)%Z in
              let remainder := (secs mod 3600)%Z in
              let minutes := (remainder / 60)%Z in
              let seconds := (remainder mod 60)%Z in
              if (0 <? days)%Z then
                Py.str_of_Z days ++ "d " ++ Py.str_of_Z hours ++ "h "
                ++ Py.str_of_Z minutes ++ "m " ++ Py.str_of_Z seconds ++ "s"
              else if (0 <? hours)%Z then
                Py.str_of_Z hours ++ "h " ++ Py.str_of_Z minutes ++ "m "
                ++ Py.str_of_Z seconds ++ "s"
              else if (0 <? minutes)%Z then
                Py.str_of_Z minutes ++ "m " ++ Py.str_of_Z seconds ++ "s"
              else Py.str_of_Z seconds ++ "s"
          end
      end
  end.

(** The copy of the last error that goes into the summary. *)
Definition truncate_error (last_error : string) : string :=
  if 500 <? String.length last_error
  then Py.take 497 last_error ++ "..."
  else last_error.

(** A string is true when it is not empty. *)
Definition truthy (s : string) : bool :=
  match s with EmptyString => false | _ => true end.

Definition truthy_opt (o : option string) : bool :=
  match o with Some s => truthy s | None => false end.

Definition last_error_line (last_error : option string) : string :=
  match last_error with
  | Some e =>
      if truthy e then "- Last error: " ++ truncate_error e
      else "- No errors detected"
  | None => "- No errors detected"
  end.

Definition _generate_summary (log_content : string)
           (last_error : option string) (elapsed : string) : string :=
  let line_count := Py.count Py.nl log_content + 1 in
  let warning_count := Py.count "warning" (Py.lower log_content) in
  let error_count :=
    Py.count "error" (Py.lower log_content)
    + Py.count "Traceback" log_content
    + Py.count "Exception" log_content in
  Py.join Py.nl
    [ "Log Summary (" ++ Py.str_of_nat line_count ++ " lines, runtime: "
        ++ elapsed ++ "):";
      "- Warnings: " ++ Py.str_of_nat warning_count;
      "- Errors: " ++ Py.str_of_nat error_count;
      last_error_line last_error ].

Section WithEnv.
Variable E : Env.

Definition _tail_log (tail_lines : Z) : M string :=
  o <- ask (fun t => subprocess_tail E t tail_lines Paths.LOG) ;;
  match o with
  | TailStdout out => ret out
  | TailCalledProcessError =>
      ret ("Error: Could not tail log file " ++ Paths.LOG)
  | TailFileNotFoundError =>
      ret ("Error: Log file " ++ Paths.LOG ++ " not found")
  | TailOtherException msg => raise msg
  end.

Definition _run (tail_lines : Z) : M LogSentinelOutput :=
  log_content <- _tail_log tail_lines ;;
  let last_error := _find_last_error log_content in
  let elapsed := _compute_runtime log_content in
  let summary := _generate_summary log_content last_error elapsed in
  ret (mkLogSentinelOutput summary last_error elapsed).

(** [BaseTool.run] for this tool. *)
Definition run (tail_lines : Z) : M LogSentinelOutput :=
  emit (EvLogSentinel tail_lines) ;;; _run tail_lines.

End WithEnv.

End LogTail.

(* ===================================================================== *)
(** ** [tools/creed_audit.py]: the creed audit *)
(* ===================================================================== *)

Module CreedAudit.
Import Sys MNotations.

Definition sp_plus : Re.regex := Re.plus true Re.CSpace.     (* [\s+] *)
Definition sp_star : Re.regex := Re.RStar true Re.CSpace.    (* [\s*] *)
Definition lazy_any : Re.regex := Re.RStar false (Re.CDot false). (* [.*?] *)
Definition word (w : string) : Re.regex :=
  Re.seq [Re.RWordB; Re.lit w; Re.RWordB].

(** The table [forbidden_patterns], in the order of the dictionary. *)
Definition forbidden_patterns : list (string * Re.regex) :=
  [ ("is_none",
      (* "\bis\s+None\b" *)
      Re.seq [Re.RWordB; Re.lit "is"; sp_plus; Re.lit "None"; Re.RWordB]);
    ("is_not_none",
      (* "\bis\s+not\s+None\b" *)
      Re.seq [Re.RWordB; Re.lit "is"; sp_plus; Re.lit "not"; sp_plus;
              Re.lit "None"; Re.RWordB]);
    ("kwargs",
      (* "\*\*kwargs" *)
      Re.lit "**kwargs");
    ("mock",
      (* "\bmock\b|\bMagicMock\b" *)
      Re.RAlt (word "mock") (word "MagicMock"));
    ("if_none_fallback",
      (* "if\s+.*?is\s+None" *)
      Re.seq [Re.lit "if"; sp_plus; lazy_any; Re.lit "is"; sp_plus;
              Re.lit "None"]);
    ("hasattr",
      (* "\bhasattr\b" *)
      word "hasattr");
    ("silent_exception",
      (* "except.*?:", the group "\s*" in parentheses, "pass" *)
      Re.seq [Re.lit "except"; lazy_any; Re.lit ":"; sp_star; Re.lit "pass"]);
    ("unused_tensor",
      (* "torch\.tensor\(.*?\).*?(?!\S)" *)
      Re.seq [Re.lit "torch.tensor("; lazy_any; Re.lit ")"; lazy_any;
              Re.RLook false (Re.RChar Re.CNotSpace)]);
    ("fallback_pattern",
      (* "if\s+.*?:\s*.*?\s*else\s*.*?return\s+0" *)
      Re.seq [Re.lit "if"; sp_plus; lazy_any; Re.lit ":"; sp_star; lazy_any;
              sp_star; Re.lit "else"; sp_star; lazy_any; Re.lit "return";
              sp_plus; Re.lit "0"]) ].

(** The dictionary [pattern_descriptions] of [_format_violation]. *)
Definition pattern_descriptions : list (string * string) :=
  [ ("is_none", "Using 'is None' check (forbidden by Creed)");
    ("is_not_none", "Using 'is not None' check (forbidden by Creed)");
    ("kwargs", "Using '**kwargs' (forbidden by Creed)");
    ("mock", "Using mock objects (forbidden by Creed)");
    ("if_none_fallback", "Using None fallback pattern (forbidden by Creed)");
    ("hasattr", "Using hasattr() (forbidden by Creed)");
    ("silent_exception", "Silent exception handling (forbidden by Creed)");
    ("unused_tensor", "Potentially unused tensor (forbidden by Creed)");
    ("fallback_pattern", "Using fallback pattern (forbidden by Creed)") ].

(** [d.get(key, default)] *)
Fixpoint dict_get {V} (d : list (string * V)) (key : string) (default : V) : V :=
  match d with
  | [] => default
  | (k, v) :: d' => if String.eqb k key then v else dict_get d' key default
  end.

Definition _format_violation (file_path : string) (line_num : nat)
           (line pattern_name : string) : string :=
  let line :=
    if 50 <? String.length line then Py.take 47 line ++ "..." else line in
  let description :=
    dict_get pattern_descriptions pattern_name
             ("Violation of " ++ pattern_name) in
  file_path ++ ":" ++ Py.str_of_nat line_num ++ ": " ++ description
  ++ Py.nl ++ "  " ++ Py.strip line.

(** [enumerate(lines)] *)
Definition enumerate {A} (l : list A) : list (nat * A) :=
  combine (List.seq 0 (List.length l)) l.

(** [line.strip().startswith('#')] *)
Definition is_comment (line : string) : bool :=
  Py.startswith "#" (Py.strip line).

Definition newline : ascii := ascii_of_nat 10.

Definition _check_violations (file_path content : string) : list string :=
  let lines := Py.split newline content in
  flat_map
    (fun rule : string * Re.regex =>
       let (pattern_name, pattern) := rule in
       flat_map
         (fun il : nat * string =>
            let (i, line) := il in
            if Re.search pattern line then
              if is_comment line then []
              else [_format_violation file_path (i + 1) line pattern_name]
            else [])
         (enumerate lines))
    forbidden_patterns.

(** The data of one violation; the tool reports its [message]. *)
Record ViolationRecord : Type := mkViolation {
  v_file : string;
  v_line : nat;
  v_rule : string;
  v_message : string
}.

(** The scan of [_check_violations], keeping for each message the file,
    line and rule it was made from. *)
Definition violation_records (file_path content : string)
  : list ViolationRecord :=
  let lines := Py.split newline content in
  flat_map
    (fun rule : string * Re.regex =>
       let (pattern_name, pattern) := rule in
       flat_map
         (fun il : nat * string =>
            let (i, line) := il in
            if Re.search pattern line then
              if is_comment line then []
              else [mkViolation file_path (i + 1) pattern_name
                      (_format_violation file_path (i + 1) line pattern_name)]
            else [])
         (enumerate lines))
    forbidden_patterns.

(** The position of a rule in the table. *)
Fixpoint index_of {V} (d : list (string * V)) (key : string) : nat :=
  match d with
  | [] => 0
  | (k, _) :: d' => if String.eqb k key then 0 else S (index_of d' key)
  end.

Definition rule_index (rule : string) : nat :=
  index_of forbidden_patterns rule.

(** [file_path.endswith(('.py', '.pyx', '.pyi'))] *)
Definition is_python_file (file_path : string) : bool :=
  Py.endswith ".py" file_path || Py.endswith ".pyx" file_path
  || Py.endswith ".pyi" file_path.

Section WithEnv.
Variable E : Env.

(** The body of the loop of [_run] for one file. *)
Definition audit_file (file_path : string) : M (list string) :=
  ex <- ask (fun t => os_path_exists E t file_path) ;;
  if negb ex then ret ["File not found: " ++ file_path]
  else if negb (is_python_file file_path) then ret []
  else
    r <- ask (fun t => open_read E t file_path) ;;
    match r with
    | ReadException msg =>
        ret ["Error reading " ++ file_path ++ ": " ++ msg]
    | ReadText content => ret (_check_violations file_path content)
    end.

Fixpoint audit_files (files : list string) : M (list string) :=
  match files with
  | [] => ret []
  | file_path :: rest =>
      vs <- audit_file file_path ;;
      ws <- audit_files rest ;;
      ret (vs ++ ws)%list
  end.

Definition _run (files : list string) : M (list string) :=
  audit_files files.

Definition run (files : list string) : M (list string) :=
  emit (EvCreedAudit files) ;;; _run files.

End WithEnv.

End CreedAudit.

(* ===================================================================== *)
(** ** [tools/plan_critic.py]: the plan critic *)
(* ===================================================================== *)

Module PlanCritic.
Import Sys MNotations.

Record PlanCriticOutput : Type := mkPlanCriticOutput {
  score : Z;
  issues : list string
}.

Definition _critique_with_llm (scroll_content : string) : PlanCriticOutput :=
  let low := Py.lower scroll_content in
  if Py.contains "multiple issues" low || Py.contains "several issues" low
  then
    mkPlanCriticOutput 45
      [ "The plan attempts to fix multiple unrelated issues at once instead of focusing on one specific problem";
        "The diagnosis lacks specific details about how each issue was identified";
        "No evidence or logs are provided to support the diagnosis";
        "The relationship between the issues is not explained - are they connected or independent?";
        "Addressing multiple issues at once increases complexity and risk";
        "No explanation for why the learning rate should be 0.001 instead of 0.1";
        "The memory leak fix assumes 'del batch' is sufficient without investigating root cause";
        "Testing plan is extremely vague - just 'run the script and check'";
        "No specific metrics or criteria for determining if fixes worked";
        "No separate tests for each individual issue";
        "No consideration of edge cases";
        "No regression testing plan to ensure other functionality isn't broken";
        "The plan violates the single responsibility principle by tackling multiple issues at once";
        "Lacks detailed analysis of each problem before proposing solutions";
        "Testing approach is inadequate and lacks specificity";
        "No explanation of how to verify each fix independently";
        "No rollback strategy if any of the changes cause new problems" ]
  else if Py.contains "cuda out of memory" low || Py.contains "oom" low
  then
    mkPlanCriticOutput 85
      [ "Could provide more specific metrics to verify the fix works";
        "Consider adding a test for edge cases with very large inputs";
        "Consider explaining why gradient accumulation is better than other approaches" ]
  else
    mkPlanCriticOutput 70
      [ "The plan could be more specific about the problem being addressed";
        "Testing methodology could be more comprehensive";
        "Consider adding more details about how to verify the fix works" ].

Section WithEnv.
Variable E : Env.

Definition _run (scroll_path : string) : M PlanCriticOutput :=
  ex <- ask (fun t => os_path_exists E t scroll_path) ;;
  if negb ex
  then ret (mkPlanCriticOutput 0 ["Scroll not found: " ++ scroll_path])
  else
    r <- ask (fun t => open_read E t scroll_path) ;;
    match r with
    | ReadException msg =>
        ret (mkPlanCriticOutput 0 ["Error reading scroll: " ++ msg])
    | ReadText scroll_content =>
        let critique_result := _critique_with_llm scroll_content in
        ret (mkPlanCriticOutput (score critique_result)
                                (issues critique_result))
    end.

Definition run (scroll_path : string) : M PlanCriticOutput :=
  emit (EvPlanCritic scroll_path) ;;; _run scroll_path.

End WithEnv.

End PlanCritic.

(* ===================================================================== *)
(** ** [tools/pager.py]: the pager *)
(* ===================================================================== *)

Module Pager.
Import Sys MNotations.

(** [not value] for the result of [os.getenv]. *)
Definition missing (o : option string) : bool :=
  negb (LogTail.truthy_opt o).

Definition or_empty (o : option string) : string :=
  match o with Some s => s | None => EmptyString end.

Definition safe_title (title : string) : string :=
  Py.replace_char "\"%char "-"
    (Py.replace_char "/"%char "-"
       (Py.replace_char ":"%char EmptyString
          (Py.replace_char " "%char "-" (Py.lower title)))).

Definition scroll_content (title body : string) : string :=
  "# " ++ title ++ Py.nl ++ Py.nl ++ body ++ Py.nl ++ Py.nl
  ++ "**Priority: HIGH**" ++ Py.nl ++ Py.nl
  ++ "*This is a page alert from Shihan.*".

Section WithEnv.
Variable E : Env.

Definition _send_pushover (title message : string) (priority : Z) : M bool :=
  user_key <- ask (fun t => os_getenv E t "PUSHOVER_USER_KEY") ;;
  api_token <- ask (fun t => os_getenv E t "PUSHOVER_API_TOKEN") ;;
  if missing user_key || missing api_token then ret false
  else
    let data :=
      mkPostData (or_empty api_token) (or_empty user_key) title message
                 priority
                 (if (1 <=? priority)%Z then "siren" else "pushover") in
    response <- ask (fun t => requests_post E t data) ;;
    emit (EvPost data) ;;;
    match response with
    | PostResponse status_code => ret (status_code =? 200)%Z
    | PostException => ret false
    end.

Definition _create_ninjascroll (title body : string) : M bool :=
  made <- ask (fun t => os_makedirs E t ".scrolls") ;;
  emit (EvMakedirs ".scrolls") ;;;
  if negb made then ret false
  else
    timestamp <- ask (now_stamp E) ;;
    let scroll_path :=
      ".scrolls/" ++ timestamp ++ "-page-" ++ safe_title title ++ ".md" in
    let content := scroll_content title body in
    written <- ask (fun t => open_write E t scroll_path content) ;;
    emit (EvWrite scroll_path content) ;;;
    ret written.

Definition _run (i : PagerInput) : M PagerOutput :=
  pushover_result <- _send_pushover (title i) (body i) (priority i) ;;
  if (pushover_result : bool) then ret (mkPagerOutput "success" "pushover")
  else
    ninjascroll_result <- _create_ninjascroll (title i) (body i) ;;
    if (ninjascroll_result : bool)
    then ret (mkPagerOutput "success" "ninjascroll")
    else ret (mkPagerOutput "failure" "none").

Definition run (i : PagerInput) : M PagerOutput :=
  o <- _run i ;;
  emit (EvPager i o) ;;;
  ret o.

End WithEnv.

End Pager.

(* ===================================================================== *)
(** ** [agents/watchdog_agent.py]: the watchdog agent *)
(* ===================================================================== *)

Module Watchdog.
Import Sys MNotations.

Inductive EventKind : Type := cycle_end | manual_check | scroll_committed.

Record WatchInput : Type := mkWatchInput {
  event : EventKind;
  scroll_path : option string
}.

Record WatchOutput : Type := mkWatchOutput {
  status : string;
  actions_taken : list string;
  issues_found : list string;
  paged : bool
}.

(** The dictionary that the handlers return. *)
Record Handled : Type := mkHandled {
  h_actions_taken : list string;
  h_issues_found : list string;
  h_paged : bool
}.

(** [l.append(x)] *)
Definition snoc {A} (l : list A) (x : A) : list A := List.app l [x].

(** [f"{value}"] for an optional string. *)
Definition fmt_opt (o : option string) : string :=
  match o with Some s => s | None => "None" end.

(** Sorting by a key, largest first, equal keys in their first order:
    [list.sort(key=..., reverse=True)]. *)
Fixpoint insert_desc {A} (key : A -> Z) (x : A) (l : list A) : list A :=
  match l with
  | [] => [x]
  | y :: l' =>
      if (key y <=? key x)%Z then x :: y :: l'
      else y :: insert_desc key x l'
  end.

Fixpoint sort_desc {A} (key : A -> Z) (l : list A) : list A :=
  match l with
  | [] => []
  | x :: l' => insert_desc key x (sort_desc key l')
  end.

(** The keys of all elements, or [None] when computing one of them raised. *)
Fixpoint with_keys {A} (key : A -> option Z) (l : list A)
  : option (list (A * Z)) :=
  match l with
  | [] => Some []
  | x :: l' =>
      match key x, with_keys key l' with
      | Some k, Some r => Some ((x, k) :: r)
      | _, _ => None
      end
  end.

Section WithEnv.
Variable E : Env.

Definition _get_changed_files : M (list string) :=
  o <- ask (subprocess_git_diff E) ;;
  match o with
  | GitException => ret []
  | GitCompleted returncode stdout =>
      if (returncode =? 0)%Z
      then ret (filter
                  (fun file => LogTail.truthy file
                               && CreedAudit.is_python_file file)
                  (Py.split CreedAudit.newline (Py.strip stdout)))
      else ret []
  end.

Definition _get_latest_scroll : M (option string) :=
  let scrolls_dir := Paths.SCROLLS in
  ex <- ask (fun t => os_path_exists E t scrolls_dir) ;;
  if negb ex then ret None
  else
    g <- ask (fun t => glob_glob E t (scrolls_dir ++ "/" ++ "*.md")) ;;
    match g with
    | None => ret None
    | Some [] => ret None
    | Some scrolls =>
        keyed <- ask (fun t => with_keys (os_path_getmtime E t) scrolls) ;;
        match keyed with
        | None => ret None
        | Some ks =>
            match sort_desc snd ks with
            | (x, _) :: _ => ret (Some x)
            | [] => ret None
            end
        end
    end.

(** The common end of the paging branches. *)
Definition after_page (actions_taken issues_found : list string)
           (page_result : PagerOutput) : Handled :=
  if String.eqb (pager_status page_result) "success"
  then mkHandled
         (snoc actions_taken
               ("Paged successfully via " ++ pager_method page_result))
         issues_found true
  else mkHandled actions_taken
                 (snoc issues_found "Failed to page Hayato") false.

Definition _handle_cycle_end : M Handled :=
  let actions_taken := ["Checking log for errors"] in
  log_result <- LogTail.run E 500 ;;
  if LogTail.truthy_opt (LogTail.last_error log_result) then
    let issues_found :=
      ["Error found in log: " ++ fmt_opt (LogTail.last_error log_result)] in
    let actions_taken :=
      snoc actions_taken "Paging Hayato about log error" in
    page_result <-
      Pager.run E
        (mkPagerInput
           "Error detected in training log"
           ("Shihan has detected an error in the training log:"
              ++ Py.nl ++ Py.nl ++ fmt_opt (LogTail.last_error log_result))
           1) ;;
    ret (after_page actions_taken issues_found page_result)
  else
    let actions_taken :=
      snoc actions_taken
           "No errors found in log, checking for changed files" in
    changed_files <- _get_changed_files ;;
    match changed_files with
    | _ :: _ =>
        let actions_taken :=
          snoc actions_taken
               ("Auditing " ++ Py.str_of_nat (List.length changed_files)
                  ++ " changed files") in
        violations <- CreedAudit.run E changed_files ;;
        match violations with
        | _ :: _ =>
            let issues_found := violations in
            let actions_taken :=
              snoc actions_taken "Paging Hayato about creed violations" in
            page_result <-
              Pager.run E
                (mkPagerInput
                   "Creed violations detected"
                   ("Shihan has detected "
                      ++ Py.str_of_nat (List.length violations)
                      ++ " creed violations:" ++ Py.nl ++ Py.nl
                      ++ Py.join Py.nl violations)
                   1) ;;
            ret (after_page actions_taken issues_found page_result)
        | [] =>
            ret (mkHandled
                   (snoc actions_taken "No creed violations found")
                   [] false)
        end
    | [] =>
        ret (mkHandled (snoc actions_taken "No changed files found")
                       [] false)
    end.

Definition _handle_scroll_committed (scroll_path : string) : M Handled :=
  let actions_taken := ["Critiquing plan: " ++ scroll_path] in
  critique_result <- PlanCritic.run E scroll_path ;;
  let score := PlanCritic.score critique_result in
  if (score <? 80)%Z then
    let issues_found :=
      ("Plan score is below threshold: " ++ Py.str_of_Z score ++ "/100")
        :: PlanCritic.issues critique_result in
    let actions_taken :=
      snoc actions_taken "Paging Hayato about low plan score" in
    page_result <-
      Pager.run E
        (mkPagerInput
           ("Plan critique: " ++ Py.str_of_Z score ++ "/100")
           ("Shihan has critiqued your plan and found issues:"
              ++ Py.nl ++ Py.nl
              ++ Py.join Py.nl (PlanCritic.issues critique_result))
           1) ;;
    ret (after_page actions_taken issues_found page_result)
  else
    ret (mkHandled
           (snoc actions_taken
                 ("Plan score is acceptable: " ++ Py.str_of_Z score
                    ++ "/100"))
           [] false).

Definition _handle_manual_check : M Handled :=
  log_result <- _handle_cycle_end ;;
  latest_scroll <- _get_latest_scroll ;;
  if LogTail.truthy_opt latest_scroll then
    let found := "Found latest scroll: " ++ fmt_opt latest_scroll in
    scroll_result <- _handle_scroll_committed (fmt_opt latest_scroll) ;;
    ret (mkHandled
           (List.app (snoc (h_actions_taken log_result) found)
                     (h_actions_taken scroll_result))
           (List.app (h_issues_found log_result)
                     (h_issues_found scroll_result))
           (h_paged log_result || h_paged scroll_result))
  else
    ret (mkHandled
           (snoc (h_actions_taken log_result) "No recent scrolls found")
           (h_issues_found log_result)
           (h_paged log_result)).

Definition completed (r : Handled) : WatchOutput :=
  mkWatchOutput "completed" (h_actions_taken r) (h_issues_found r)
                (h_paged r).

Definition run (input_obj : WatchInput) : M WatchOutput :=
  match event input_obj with
  | cycle_end =>
      result <- _handle_cycle_end ;; ret (completed result)
  | scroll_committed =>
      if LogTail.truthy_opt (scroll_path input_obj) then
        result <- _handle_scroll_committed (fmt_opt (scroll_path input_obj)) ;;
        ret (completed result)
      else ret (mkWatchOutput "completed" [] [] false)
  | manual_check =>
      result <- _handle_manual_check ;; ret (completed result)
  end.

End WithEnv.

End Watchdog.

(* ===================================================================== *)
(** ** [server.py]: the entry point [supervise_cycle] *)
(* ===================================================================== *)

Module Server.
Import Sys MNotations Watchdog.

(** [args.get(key)] *)
Fixpoint lookup (args : Args) (key : string) : option PyVal :=
  match args with
  | [] => None
  | (k, v) :: args' => if String.eqb k key then Some v else lookup args' key
  end.

(** The field [event]: required, one of the three literals. *)
Definition parse_event (args : Args) : option EventKind :=
  match lookup args "event" with
  | Some (PyStr s) =>
      if String.eqb s "cycle_end" then Some cycle_end
      else if String.eqb s "manual_check" then Some manual_check
      else if String.eqb s "scroll_committed" then Some scroll_committed
      else None
  | _ => None
  end.

(** The field [scroll_path]: optional, a string or [None]. The outer
    [None] is a rejected value. *)
Definition parse_scroll_path (args : Args) : option (option string) :=
  match lookup args "scroll_path" with
  | None => Some None
  | Some PyNone => Some None
  | Some (PyStr s) => Some (Some s)
  | Some _ => None
  end.

(** What the function returns: the JSON text of the report, or the
    dictionary built by the handler of exceptions. *)
Inductive Reply : Type :=
| ReplyJson (o : WatchOutput)
| ReplyDict (error : string) (o : WatchOutput).

Definition report_of (r : Reply) : WatchOutput :=
  match r with ReplyJson o => o | ReplyDict _ o => o end.

Section WithEnv.
Variable E : Env.

(** The constructor of [WatchInput] applied to the arguments. *)
Definition validate (args : Args) : M WatchInput :=
  match parse_event args, parse_scroll_path args with
  | Some ev, Some sp => ret (mkWatchInput ev sp)
  | _, _ => raise (validation_message E args)
  end.

(** The body of the [try]. *)
Definition supervise_body (args : Args) : M Reply :=
  watch_input <- validate args ;;
  result <- Watchdog.run E watch_input ;;
  ret (ReplyJson result).

Definition supervise_cycle (args : Args) : M Reply :=
  try_except (supervise_body args)
    (fun msg =>
       ret (ReplyDict msg
              (mkWatchOutput "error" [] ["Internal error: " ++ msg] false))).

End WithEnv.

End Server.

(* ===================================================================== *)
(** ** Observations on traces and records, and sample environments *)
(* ===================================================================== *)

Module Observe.
Import Sys.

(** A notification was delivered when the pager reports success. *)
Definition delivered (o : PagerOutput) : bool :=
  String.eqb (pager_status o) "success".

(** The calls of the pager recorded in a trace, with what they returned. *)
Fixpoint pager_calls (t : Trace) : list (PagerInput * PagerOutput) :=
  match t with
  | [] => []
  | EvPager i o :: t' => (i, o) :: pager_calls t'
  | _ :: t' => pager_calls t'
  end.

(** Some call of the pager recorded in the trace was delivered. *)
Definition delivered_in (new : Trace) : bool :=
  existsb (fun c => delivered (snd c)) (pager_calls new).

(** The calls of the creed audit recorded in a trace. *)
Fixpoint audit_calls (t : Trace) : list (list string) :=
  match t with
  | [] => []
  | EvCreedAudit files :: t' => files :: audit_calls t'
  | _ :: t' => audit_calls t'
  end.

(** The tools entered, whatever the tool: none of them in an empty list. *)
Fixpoint tool_calls (t : Trace) : nat :=
  match t with
  | [] => 0
  | (EvLogSentinel _ | EvCreedAudit _ | EvPlanCritic _ | EvPager _ _) :: t' =>
      S (tool_calls t')
  | _ :: t' => tool_calls t'
  end.

(** Rule-major, then line-ascending. *)
Definition record_key (v : CreedAudit.ViolationRecord) : nat * nat :=
  (CreedAudit.rule_index (CreedAudit.v_rule v), CreedAudit.v_line v).

Definition lex_lt (a b : nat * nat) : Prop :=
  fst a < fst b \/ (fst a = fst b /\ snd a < snd b).

Definition key_before (v w : CreedAudit.ViolationRecord) : Prop :=
  lex_lt (record_key v) (record_key w).

Definition same_key (k : nat * nat) (v : CreedAudit.ViolationRecord) : bool :=
  (fst (record_key v) =? fst k) && (snd (record_key v) =? snd k).

(** [e] is the text of a match of the pattern [p] in [log] that ends at
    least as late as every match of the patterns [ps]. *)
Definition ends_latest_among (ps : list Re.regex) (log : string)
           (p : Re.regex) (sp : nat * nat) : Prop :=
  In sp (Re.spans p log)
  /\ forall q sq, In q ps -> In sq (Re.spans q log) ->
                  Re.span_end sq <= Re.span_end sp.

(** An environment in which nothing is configured and nothing fails: the
    log is [log], no file exists, there are no credentials, the scroll
    directory can be written. *)
Definition plain_env (log : string) : Env :=
  mkEnv (fun _ _ _ => TailStdout log)
        (fun _ => GitCompleted 0 EmptyString)
        (fun _ _ => false)
        (fun _ _ => ReadException "No such file")
        (fun _ _ => None)
        (fun _ _ => PostException)
        (fun _ _ => true)
        (fun _ => "01-01-0000")
        (fun _ _ _ => true)
        (fun _ _ => None)
        (fun _ _ => None)
        (fun _ => "validation error").

(** The same with an unusable file system under the scroll directory. *)
Definition readonly_env (log : string) : Env :=
  mkEnv (fun _ _ _ => TailStdout log)
        (fun _ => GitCompleted 0 EmptyString)
        (fun _ _ => false)
        (fun _ _ => ReadException "No such file")
        (fun _ _ => None)
        (fun _ _ => PostException)
        (fun _ _ => false)
        (fun _ => "01-01-0000")
        (fun _ _ _ => false)
        (fun _ _ => None)
        (fun _ _ => None)
        (fun _ => "validation error").

(** An environment whose [tail] fails with an exception the tool does not
    handle. *)
Definition broken_tail_env : Env :=
  mkEnv (fun _ _ _ => TailOtherException "'utf-8' codec can't decode byte")
        (fun _ => GitException)
        (fun _ _ => false)
        (fun _ _ => ReadException "No such file")
        (fun _ _ => None)
        (fun _ _ => PostException)
        (fun _ _ => true)
        (fun _ => "01-01-0000")
        (fun _ _ _ => true)
        (fun _ _ => None)
        (fun _ _ => None)
        (fun _ => "validation error").

(** An environment with one changed file [changed.py] of content [src], a
    quiet log, and no credentials. *)
Definition changed_env (src : string) : Env :=
  mkEnv (fun _ _ _ => TailStdout "all good")
        (fun _ => GitCompleted 0 ("changed.py" ++ Py.nl))
        (fun _ p => String.eqb p "changed.py")
        (fun _ p => if String.eqb p "changed.py" then ReadText src
                    else ReadException "No such file")
        (fun _ _ => None)
        (fun _ _ => PostException)
        (fun _ _ => true)
        (fun _ => "01-01-0000")
        (fun _ _ _ => true)
        (fun _ _ => None)
        (fun _ _ => None)
        (fun _ => "validation error").

Definition two_errors_log : string :=
  "Error: a" ++ Py.nl ++ Py.nl
  ++ "Traceback (most recent call last):" ++ Py.nl ++ "KeyboardInterrupt".

Fixpoint repeat_char (a : ascii) (n : nat) : string :=
  match n with 0 => EmptyString | S n' => String a (repeat_char a n') end.

Definition long_error_log : string := "Error:" ++ repeat_char "a" 600.

Definition five_lines (line5 : string) : string :=
  "import os" ++ Py.nl ++ "x = 1" ++ Py.nl ++ Py.nl ++ "def f(x):" ++ Py.nl
  ++ line5 ++ Py.nl ++ "    return x".

End Observe.

(* ===================================================================== *)
(** ** [agents/lint_agent.py]: the lint agent *)
(* ===================================================================== *)

Module LintAgent.
Import Sys MNotations.

Record LintInput : Type := mkLintInput {
  file_path : string;
  code : option string
}.

Record LintIssue : Type := mkLintIssue {
  line : Z;
  column : option Z;
  message : string;
  severity : string
}.

Record LintOutput : Type := mkLintOutput {
  issues : list LintIssue;
  summary : string
}.

(** The part of [run] after the code to lint has been obtained. *)
Definition lint_code (file_path code : string) : LintOutput :=
  if negb (Py.endswith ".py" file_path) then
    mkLintOutput [] "Not a Python file, skipping lint"
  else if negb (Py.contains "torch" code)
          && negb (Py.contains "tensorflow" code)
          && negb (Py.contains "np.array" code) then
    mkLintOutput [] "No tensor operations found, skipping lint"
  else
    mkLintOutput []
      "LintAgent is a placeholder for a future extension. It will use an LLM to catch subtle tensor mishandling.".

Section WithEnv.
Variable E : Env.

Definition run (input_obj : LintInput) : M LintOutput :=
  match code input_obj with
  | Some code => ret (lint_code (file_path input_obj) code)
  | None =>
      r <- ask (fun t => open_read E t (file_path input_obj)) ;;
      match r with
      | ReadException msg =>
          ret (mkLintOutput [] ("Error reading file: " ++ msg))
      | ReadText code => ret (lint_code (file_path input_obj) code)
      end
  end.

End WithEnv.

End LintAgent.

(* ===================================================================== *)
(** ** Further observations on traces *)
(* ===================================================================== *)

Module Effects.
Import Sys.

(** The requests sent to the push service. *)
Fixpoint posts (t : Trace) : list PostData :=
  match t with
  | [] => []
  | EvPost d :: t' => d :: posts t'
  | _ :: t' => posts t'
  end.

(** The files written, with their content. *)
Fixpoint writes (t : Trace) : list (string * string) :=
  match t with
  | [] => []
  | EvWrite path content :: t' => (path, content) :: writes t'
  | _ :: t' => writes t'
  end.

(** The directories created. *)
Fixpoint makedirs (t : Trace) : list string :=
  match t with
  | [] => []
  | EvMakedirs path :: t' => path :: makedirs t'
  | _ :: t' => makedirs t'
  end.

(** The characters of a string. *)
Fixpoint chars (s : string) : list ascii :=
  match s with
  | EmptyString => []
  | String a s' => a :: chars s'
  end.

(** An environment whose [tail] fails because the program is not found. *)
Definition no_tail_env : Env :=
  mkEnv (fun _ _ _ => TailFileNotFoundError)
        (fun _ => GitException)
        (fun _ _ => false)
        (fun _ _ => ReadException "No such file")
        (fun _ _ => None)
        (fun _ _ => PostException)
        (fun _ _ => true)
        (fun _ => "01-01-0000")
        (fun _ _ _ => true)
        (fun _ _ => None)
        (fun _ _ => None)
        (fun _ => "validation error").

(** An environment with credentials and a push service that accepts. *)
Definition push_env : Env :=
  mkEnv (fun _ _ _ => TailStdout "all good")
        (fun _ => GitException)
        (fun _ _ => false)
        (fun _ _ => ReadException "No such file")
        (fun _ _ => Some "secret")
        (fun _ _ => PostResponse 200)
        (fun _ _ => true)
        (fun _ => "01-01-0000")
        (fun _ _ _ => true)
        (fun _ _ => None)
        (fun _ _ => None)
        (fun _ => "validation error").

(** An environment with three scrolls, the second and third the newest, and
    a scroll that can be read. *)
Definition scrolls_env (content : string) : Env :=
  mkEnv (fun _ _ _ => TailStdout "all good")
        (fun _ => GitCompleted 0 ("gone.py" ++ Py.nl ++ "notes.txt" ++ Py.nl))
        (fun _ p => negb (String.eqb p "gone.py"))
        (fun _ _ => ReadText content)
        (fun _ _ => None)
        (fun _ _ => PostException)
        (fun _ _ => true)
        (fun _ => "01-01-0000")
        (fun _ _ _ => true)
        (fun _ _ => Some ["./.scrolls/a.md"; "./.scrolls/b.md"; "./.scrolls/c.md"])
        (fun _ p => if String.eqb p "./.scrolls/a.md" then Some 10%Z
                    else Some 20%Z)
        (fun _ => "validation error").

(** How a handler accounts for its pages: it has issues exactly when it
    called the pager; a page that failed is among the issues, and a page
    that was delivered is among the actions, with its channel. *)
Definition well_reported (actions issues : list string) (new : Trace) : Prop :=
  (issues = [] <-> Observe.pager_calls new = [])
  /\ (forall i o, In (i, o) (Observe.pager_calls new) ->
                  Observe.delivered o = false ->
                  In "Failed to page Hayato" issues)
  /\ (forall i o, In (i, o) (Observe.pager_calls new) ->
                  Observe.delivered o = true ->
                  In ("Paged successfully via " ++ pager_method o) actions).

(** A time of day in seconds as [_compute_runtime] writes it when no day is
    counted: the coarsest unit that is not zero first. *)
Definition hms (secs : Z) : string :=
  let hours := (secs / 3600)%Z in
  let minutes := ((secs mod 3600) / 60)%Z in
  let seconds := ((secs mod 3600) mod 60)%Z in
  if (0 <? hours)%Z then
    Py.str_of_Z hours ++ "h " ++ Py.str_of_Z minutes ++ "m "
    ++ Py.str_of_Z seconds ++ "s"
  else if (0 <? minutes)%Z then
    Py.str_of_Z minutes ++ "m " ++ Py.str_of_Z seconds ++ "s"
  else Py.str_of_Z seconds ++ "s".

End Effects.

(* ===================================================================== *)
(** ** Properties *)
(* ===================================================================== *)

Import Sys.

(** *** Unfolding the monad *)

Ltac unfold_m :=
  unfold Sys.bind, Sys.ret, Sys.ask, Sys.emit, Sys.raise, Sys.try_except in *.

Lemma snoc_app {A} (t : list A) (new : list A) (e : A) :
  ((t ++ new) ++ [e] = t ++ (new ++ [e]))%list.
Proof. now rewrite <- app_assoc. Qed.

Lemma snoc_start {A} (t : list A) (e : A) : (t ++ [e] = t ++ ([] ++ [e]))%list.
Proof. reflexivity. Qed.

(** *** Strings *)

Lemma startswith_refl (p s : string) : Py.startswith p (p ++ s) = true.
Proof.
  induction p as [|a p IH]; simpl; [reflexivity|].
  now rewrite Ascii.eqb_refl, IH.
Qed.

Lemma contains_append (q p : string) : Py.contains p (q ++ p) = true.
Proof.
  induction q as [|a q IH]; simpl.
  - destruct p as [|b p]; simpl; [reflexivity|].
    rewrite Ascii.eqb_refl.
    replace p with (p ++ EmptyString) at 2.
    + now rewrite startswith_refl.
    + clear. induction p; simpl; congruence.
  - rewrite IH. apply orb_true_r.
Qed.

Lemma take_length (n : nat) (s : string) :
  String.length (Py.take n s) = Nat.min n (String.length s).
Proof.
  revert s; induction n as [|n IH]; intros [|a s]; simpl; auto.
Qed.

Lemma append_length (s u : string) :
  String.length (s ++ u) = String.length s + String.length u.
Proof. induction s; simpl; auto. Qed.

Lemma append_assoc (s u v : string) : (s ++ u) ++ v = s ++ (u ++ v).
Proof. induction s; simpl; congruence. Qed.

(** *** The entry point *)

(** Under the entry point, a run that ends normally ends with the status
    "completed". *)
Lemma run_status E (input_obj : Watchdog.WatchInput) (t : Trace) out t' :
  Watchdog.run E input_obj t = Ok out t' ->
  Watchdog.status out = "completed".
Proof.
  unfold Watchdog.run. destruct (Watchdog.event input_obj).
  - unfold_m. destruct (Watchdog._handle_cycle_end E t); intros H;
      inversion H; reflexivity.
  - unfold_m. destruct (Watchdog._handle_manual_check E t); intros H;
      inversion H; reflexivity.
  - destruct (LogTail.truthy_opt _).
    + unfold_m. destruct (Watchdog._handle_scroll_committed E _ t); intros H;
        inversion H; reflexivity.
    + unfold_m. intros H; inversion H; reflexivity.
Qed.

(** C1. [supervise_cycle] returns a report for every argument dictionary and
    every behaviour of the environment, and never raises: when the body of
    its [try] ends normally the report is the one of the agent, with status
    "completed"; when anything in it raises, the report has status "error",
    no action, [paged] false, and one issue, which contains the message of
    the exception. *)
Theorem supervise_cycle_never_raises :
  forall (E : Env) (args : Args) (t : Trace),
  exists reply t',
    Server.supervise_cycle E args t = Ok reply t'
    /\ match Server.supervise_body E args t with
       | Ok r _ =>
           reply = r
           /\ Watchdog.status (Server.report_of reply) = "completed"
       | Raise msg _ =>
           reply = Server.ReplyDict msg
                     (Watchdog.mkWatchOutput "error" []
                        ["Internal error: " ++ msg] false)
           /\ Watchdog.status (Server.report_of reply) = "error"
           /\ exists issue,
               Watchdog.issues_found (Server.report_of reply) = [issue]
               /\ Py.contains msg issue = true
       end.
Proof.
  intros E args t. unfold Server.supervise_cycle, Sys.try_except.
  destruct (Server.supervise_body E args t) as [r t1|msg t1] eqn:Hbody.
  - exists r, t1. split; [reflexivity|]. split; [reflexivity|].
    unfold Server.supervise_body in Hbody. unfold_m.
    destruct (Server.validate E args t) as [wi t2|m t2]; [|discriminate].
    destruct (Watchdog.run E wi t2) as [out t3|m t3] eqn:Hrun; [|discriminate].
    inversion Hbody; subst. simpl. eapply run_status; eassumption.
  - eexists _, t1. unfold Sys.ret. split; [reflexivity|].
    split; [reflexivity|]. split; [reflexivity|].
    eexists. split; [reflexivity|]. apply contains_append.
Qed.

(** Both outcomes occur: arguments that the input schema rejects, and a
    [tail] that fails in a way the log sentinel does not handle, end in the
    error report. *)
Lemma supervise_cycle_error_reports :
  Server.supervise_cycle (Observe.plain_env "") [("event", PyStr "cycle_start")] []
  = Ok (Server.ReplyDict "validation error"
          (Watchdog.mkWatchOutput "error" []
             ["Internal error: validation error"] false)) []
  /\ Server.supervise_cycle Observe.broken_tail_env [("event", PyStr "cycle_end")] []
     = Ok (Server.ReplyDict "'utf-8' codec can't decode byte"
             (Watchdog.mkWatchOutput "error" []
                ["Internal error: 'utf-8' codec can't decode byte"] false))
          [EvLogSentinel 500].
Proof. split; reflexivity. Qed.

(** C10. A [scroll_committed] event without a scroll path (none, or an empty
    one) runs no tool and has no effect: the trace is unchanged, and the
    report is "completed" with no action, no issue and [paged] false. *)
Theorem scroll_committed_without_path :
  forall (E : Env) (t : Trace),
    let empty_report := Watchdog.mkWatchOutput "completed" [] [] false in
    Watchdog.run E (Watchdog.mkWatchInput Watchdog.scroll_committed None) t
    = Ok empty_report t
    /\ Watchdog.run E
         (Watchdog.mkWatchInput Watchdog.scroll_committed (Some EmptyString)) t
       = Ok empty_report t
    /\ Server.supervise_cycle E [("event", PyStr "scroll_committed")] t
       = Ok (Server.ReplyJson empty_report) t
    /\ Server.supervise_cycle E
         [("event", PyStr "scroll_committed"); ("scroll_path", PyNone)] t
       = Ok (Server.ReplyJson empty_report) t.
Proof.
  intros E t. repeat split; reflexivity.
Qed.

(** *** The pager *)

Open Scope list_scope.

Ltac case_step :=
  match goal with
  | |- context [if ?b then _ else _] => destruct b eqn:?
  | |- context [match ?x with _ => _ end] => destruct x eqn:?
  end; simpl.

Ltac normalise_trace := rewrite <- ?app_assoc; simpl.

Lemma pager_calls_app (t u : Trace) :
  Observe.pager_calls (t ++ u) = Observe.pager_calls t ++ Observe.pager_calls u.
Proof.
  induction t as [|e t IH]; simpl; [reflexivity|].
  destruct e; simpl; rewrite IH; reflexivity.
Qed.

Lemma audit_calls_app (t u : Trace) :
  Observe.audit_calls (t ++ u) = Observe.audit_calls t ++ Observe.audit_calls u.
Proof.
  induction t as [|e t IH]; simpl; [reflexivity|].
  destruct e; simpl; rewrite IH; reflexivity.
Qed.

(** The primary channel never raises and calls no tool. *)
Lemma send_pushover_total E title message priority t :
  exists (sent : bool) new,
    Pager._send_pushover E title message priority t = Ok sent (t ++ new)
    /\ Observe.pager_calls new = [] /\ Observe.audit_calls new = []
    /\ ((Pager.missing (os_getenv E t "PUSHOVER_USER_KEY")
         || Pager.missing (os_getenv E t "PUSHOVER_API_TOKEN")) = true ->
        sent = false /\ new = []).
Proof.
  unfold Pager._send_pushover. unfold_m.
  destruct (Pager.missing (os_getenv E t "PUSHOVER_USER_KEY")
            || Pager.missing (os_getenv E t "PUSHOVER_API_TOKEN")) eqn:Hm.
  - exists false, []. rewrite app_nil_r. auto.
  - destruct (requests_post E t _);
      eexists _, [_]; (split; [reflexivity|]);
      repeat split; try reflexivity; discriminate.
Qed.

(** The fallback channel never raises and calls no tool. *)
Lemma create_ninjascroll_total E title body t :
  exists (written : bool) new,
    Pager._create_ninjascroll E title body t = Ok written (t ++ new)
    /\ Observe.pager_calls new = [] /\ Observe.audit_calls new = [].
Proof.
  unfold Pager._create_ninjascroll. unfold_m.
  destruct (os_makedirs E t ".scrolls"); simpl.
  - normalise_trace. eexists _, [_; _]. repeat split; reflexivity.
  - eexists _, [_]. repeat split; reflexivity.
Qed.

(** What a call of the pager returns, from the results of its two channels. *)
Lemma pager_run_channels E i t :
  exists (sent written : bool) new1 new2,
    Pager._send_pushover E (title i) (body i) (priority i) t = Ok sent (t ++ new1)
    /\ (sent = false ->
        Pager._create_ninjascroll E (title i) (body i) (t ++ new1)
        = Ok written ((t ++ new1) ++ new2))
    /\ (sent = true -> new2 = [])
    /\ Observe.pager_calls new1 = [] /\ Observe.audit_calls new1 = []
    /\ Observe.pager_calls new2 = [] /\ Observe.audit_calls new2 = []
    /\ ((Pager.missing (os_getenv E t "PUSHOVER_USER_KEY")
         || Pager.missing (os_getenv E t "PUSHOVER_API_TOKEN")) = true ->
        sent = false)
    /\ let o :=
         if sent then mkPagerOutput "success" "pushover"
         else if written then mkPagerOutput "success" "ninjascroll"
              else mkPagerOutput "failure" "none" in
       Pager.run E i t = Ok o (t ++ (new1 ++ new2 ++ [EvPager i o])).
Proof.
  destruct (send_pushover_total E (title i) (body i) (priority i) t)
    as (sent & new1 & Hs & Hp1 & Ha1 & Hmiss).
  unfold Pager.run, Pager._run. unfold_m. rewrite Hs.
  destruct sent.
  - exists true, false, new1, []. repeat split; auto; try discriminate.
    + intros Hm. apply Hmiss in Hm. destruct Hm; discriminate.
    + simpl. now rewrite <- app_assoc.
  - destruct (create_ninjascroll_total E (title i) (body i) (t ++ new1))
      as (written & new2 & Hw & Hp2 & Ha2).
    rewrite Hw.
    exists false, written, new1, new2. repeat split; auto; try discriminate.
    destruct written; simpl; now rewrite <- !app_assoc.
Qed.

(** A call of the pager never raises; it adds to the trace one record of the
    call, with what it returned, and no call of the audit. *)
Lemma pager_run_total E i t :
  exists o new,
    Pager.run E i t = Ok o (t ++ new)
    /\ Observe.pager_calls new = [(i, o)]
    /\ Observe.audit_calls new = []
    /\ (o = mkPagerOutput "success" "pushover"
        \/ o = mkPagerOutput "success" "ninjascroll"
        \/ o = mkPagerOutput "failure" "none").
Proof.
  destruct (pager_run_channels E i t)
    as (sent & written & new1 & new2 & _ & _ & _ & Hp1 & Ha1 & Hp2 & Ha2 & _ & Hrun).
  simpl in Hrun. eexists _, _. split; [exact Hrun|].
  rewrite !pager_calls_app, !audit_calls_app, Hp1, Hp2, Ha1, Ha2. simpl.
  repeat split. destruct sent; [|destruct written]; auto.
Qed.

(** C4, as stated, fails: without credentials and with a scroll directory
    that cannot be written, the channel is "none", not the fallback. *)
Lemma no_credentials_channel_can_be_none :
  exists o t,
    Pager.missing (os_getenv (Observe.readonly_env "") [] "PUSHOVER_USER_KEY") = true
    /\ Pager.missing (os_getenv (Observe.readonly_env "") [] "PUSHOVER_API_TOKEN") = true
    /\ Pager.run (Observe.readonly_env "") (mkPagerInput "title" "body" 1) []
       = Ok o t
    /\ pager_method o <> "ninjascroll".
Proof.
  eexists _, _. repeat split; try reflexivity. simpl. discriminate.
Qed.

(** C4, amended. Without credentials for the primary channel the outcome is
    never "pushover": the pager goes to the fallback at once, and the channel
    is "ninjascroll" with success when the scroll is written and "none" with
    failure when it is not.  Whatever the credentials, the channel is "none"
    exactly when the outcome is a failure, and exactly when both channels
    failed. *)
Theorem pager_channel_by_credentials :
  forall (E : Env) (i : PagerInput) (t : Trace),
  exists o t',
    Pager.run E i t = Ok o t'
    /\ ((Pager.missing (os_getenv E t "PUSHOVER_USER_KEY")
         || Pager.missing (os_getenv E t "PUSHOVER_API_TOKEN")) = true ->
        pager_method o <> "pushover"
        /\ exists written t1,
            Pager._create_ninjascroll E (title i) (body i) t = Ok written t1
            /\ o = if (written : bool) then mkPagerOutput "success" "ninjascroll"
                   else mkPagerOutput "failure" "none")
    /\ (pager_method o = "none" <-> Observe.delivered o = false)
    /\ (pager_method o = "none" <->
        exists t1 t2,
          Pager._send_pushover E (title i) (body i) (priority i) t = Ok false t1
          /\ Pager._create_ninjascroll E (title i) (body i) t1 = Ok false t2).
Proof.
  intros E i t.
  destruct (pager_run_channels E i t)
    as (sent & written & new1 & new2 & Hs & Hw & _ & _ & _ & _ & _ & Hmiss & Hrun).
  simpl in Hrun. eexists _, _. split; [exact Hrun|].
  split; [|split].
  - intros Hm.
    destruct (send_pushover_total E (title i) (body i) (priority i) t)
      as (sent' & new1' & Hs' & _ & _ & Hmiss').
    destruct (Hmiss' Hm) as [-> ->]. rewrite Hs' in Hs.
    inversion Hs as [[Hsent Ht]]. subst sent.
    apply app_inv_head in Ht. subst new1.
    rewrite app_nil_r in Hw.
    split.
    + destruct written; simpl; discriminate.
    + exists written, (t ++ new2). split; [now apply Hw|reflexivity].
  - destruct sent; [|destruct written]; simpl; split; intros H;
      try discriminate; reflexivity.
  - split.
    + intros Hnone. destruct sent; [discriminate|].
      destruct written; [discriminate|].
      eexists _, _. split; [exact Hs|]. now apply Hw.
    + intros (t1 & t2 & Hs2 & Hw2). rewrite Hs2 in Hs. inversion Hs; subst.
      rewrite (Hw eq_refl) in Hw2. inversion Hw2; subst. reflexivity.
Qed.

(** The amended property at work: with no credentials, the scroll written. *)
Lemma pager_channel_by_credentials_witness :
  exists o t',
    Pager.run (Observe.plain_env "") (mkPagerInput "Disk full" "body" 1) [] = Ok o t'
    /\ pager_method o = "ninjascroll" /\ Observe.delivered o = true.
Proof.
  destruct (pager_channel_by_credentials (Observe.plain_env "")
              (mkPagerInput "Disk full" "body" 1) [])
    as (o & t' & Hrun & Hmiss & _).
  exists o, t'. split; [exact Hrun|].
  destruct (Hmiss eq_refl) as (_ & written & t1 & Hw & Ho).
  vm_compute in Hw. inversion Hw; subst. split; reflexivity.
Defined.

(** *** The plan critic *)

Lemma critique_scores (scroll_content : string) :
  let s := PlanCritic.score (PlanCritic._critique_with_llm scroll_content) in
  (s = 45 \/ s = 85 \/ s = 70)%Z.
Proof.
  unfold PlanCritic._critique_with_llm.
  repeat case_step; auto.
Qed.

(** The critic never raises and has no effect but the record of its call. *)
Lemma plan_critic_run_total E scroll_path t :
  exists r,
    PlanCritic.run E scroll_path t = Ok r (t ++ [EvPlanCritic scroll_path])
    /\ (0 <= PlanCritic.score r <= 100)%Z.
Proof.
  unfold PlanCritic.run, PlanCritic._run. unfold_m.
  destruct (os_path_exists E _ scroll_path); simpl.
  - destruct (open_read E _ scroll_path); simpl.
    + eexists. split; [reflexivity|]. simpl.
      pose proof (critique_scores content) as H. simpl in H. lia.
    + eexists. split; [reflexivity|]. simpl. lia.
  - eexists. split; [reflexivity|]. simpl. lia.
Qed.

(** The handler of [scroll_committed] never raises; it pages exactly when the
    score is below 80, and then once. *)
Lemma handle_scroll_committed_total E scroll_path t :
  exists r h new,
    PlanCritic.run E scroll_path t = Ok r (t ++ [EvPlanCritic scroll_path])
    /\ Watchdog._handle_scroll_committed E scroll_path t = Ok h (t ++ new)
    /\ Observe.audit_calls new = []
    /\ Watchdog.h_paged h
       = existsb (fun c => Observe.delivered (snd c)) (Observe.pager_calls new)
    /\ (if (PlanCritic.score r <? 80)%Z
        then Datatypes.length (Observe.pager_calls new) = 1
             /\ Watchdog.h_issues_found h <> []
        else Observe.pager_calls new = []
             /\ Watchdog.h_issues_found h = []
             /\ Watchdog.h_paged h = false).
Proof.
  destruct (plan_critic_run_total E scroll_path t) as (r & Hr & _).
  unfold Watchdog._handle_scroll_committed. unfold_m. rewrite Hr.
  destruct (PlanCritic.score r <? 80)%Z eqn:Hlow.
  - match goal with |- context [Pager.run E ?i ?u] =>
      destruct (pager_run_total E i u) as (o & new & Hp & Hcalls & Haud & Ho);
      rewrite Hp
    end.
    exists r. eexists _, ([EvPlanCritic scroll_path] ++ new).
    rewrite Hlow.
    split; [reflexivity|]. rewrite <- app_assoc. split; [reflexivity|].
    simpl. rewrite Hcalls, Haud. simpl.
    split; [reflexivity|].
    unfold Watchdog.after_page, Observe.delivered.
    destruct Ho as [-> | [-> | ->]]; simpl; repeat split;
      try reflexivity; discriminate.
  - exists r. eexists _, [EvPlanCritic scroll_path]. rewrite Hlow.
    repeat split; reflexivity.
Qed.

(** C5. For every scroll path the critic returns a score between 0 and 100:
    0 with the single issue "Scroll not found: ..." when the scroll does not
    exist, 0 with the single issue "Error reading scroll: ..." when reading
    it fails.  The handler of [scroll_committed], run on the same path,
    records a non-empty list of issues exactly when that score is below 80. *)
Theorem critic_score_and_threshold :
  forall (E : Env) (scroll_path : string) (t : Trace),
  exists r t1 h t2,
    PlanCritic.run E scroll_path t = Ok r t1
    /\ (0 <= PlanCritic.score r <= 100)%Z
    /\ (os_path_exists E t1 scroll_path = false ->
        r = PlanCritic.mkPlanCriticOutput 0
              [("Scroll not found: " ++ scroll_path)%string])
    /\ (forall msg,
          os_path_exists E t1 scroll_path = true ->
          open_read E t1 scroll_path = ReadException msg ->
          r = PlanCritic.mkPlanCriticOutput 0
                [("Error reading scroll: " ++ msg)%string])
    /\ Watchdog._handle_scroll_committed E scroll_path t = Ok h t2
    /\ ((PlanCritic.score r < 80)%Z <-> Watchdog.h_issues_found h <> []).
Proof.
  intros E scroll_path t.
  destruct (handle_scroll_committed_total E scroll_path t)
    as (r & h & new & Hr & Hh & _ & _ & Hcase).
  destruct (plan_critic_run_total E scroll_path t) as (r' & Hr' & Hrange).
  rewrite Hr in Hr'. inversion Hr'; subst r'.
  exists r, (t ++ [EvPlanCritic scroll_path]), h, (t ++ new).
  split; [exact Hr|]. split; [exact Hrange|].
  split; [|split; [|split; [exact Hh|]]].
  - intros Hex. revert Hr. unfold PlanCritic.run, PlanCritic._run. unfold_m.
    rewrite Hex. simpl. intros H; inversion H; reflexivity.
  - intros msg Hex Hread. revert Hr.
    unfold PlanCritic.run, PlanCritic._run. unfold_m.
    rewrite Hex. simpl. rewrite Hread. simpl.
    intros H; inversion H; reflexivity.
  - destruct (PlanCritic.score r <? 80)%Z eqn:Hlow.
    + apply Z.ltb_lt in Hlow. tauto.
    + apply Z.ltb_ge in Hlow. destruct Hcase as (_ & Hnil & _).
      split; [lia|]. intros Hne. now rewrite Hnil in Hne.
Qed.

(** The three canned scores occur, and with them both sides of the
    threshold. *)
Lemma critic_scores_examples :
  PlanCritic.score (PlanCritic._critique_with_llm "We found Several Issues.") = 45%Z
  /\ PlanCritic.score (PlanCritic._critique_with_llm "CUDA out of memory in step 3") = 85%Z
  /\ PlanCritic.score (PlanCritic._critique_with_llm "Raise the batch size") = 70%Z.
Proof. repeat split; vm_compute; reflexivity. Qed.

(** *** The log sentinel and the audit as the agent sees them *)

(** The log sentinel records its call and has no other effect, whether it
    returns or raises. *)
Lemma log_run_trace E n t :
  trace_of (LogTail.run E n t) = t ++ [EvLogSentinel n].
Proof.
  unfold LogTail.run, LogTail._run, LogTail._tail_log. unfold_m.
  destruct (subprocess_tail E _ n Paths.LOG); reflexivity.
Qed.

(** On a log that [tail] delivers, the log sentinel returns the three fields
    computed from it. *)
Lemma log_run_stdout E n t log :
  subprocess_tail E (t ++ [EvLogSentinel n]) n Paths.LOG = TailStdout log ->
  LogTail.run E n t
  = Ok (LogTail.mkLogSentinelOutput
          (LogTail._generate_summary log (LogTail._find_last_error log)
             (LogTail._compute_runtime log))
          (LogTail._find_last_error log)
          (LogTail._compute_runtime log))
       (t ++ [EvLogSentinel n]).
Proof.
  intros H. unfold LogTail.run, LogTail._run, LogTail._tail_log. unfold_m.
  rewrite H. reflexivity.
Qed.

Lemma get_changed_files_total E t :
  exists files, Watchdog._get_changed_files E t = Ok files t.
Proof.
  unfold Watchdog._get_changed_files. unfold_m.
  destruct (subprocess_git_diff E t) as [rc out|]; [|eexists; reflexivity].
  destruct (rc =? 0)%Z; eexists; reflexivity.
Qed.

Lemma get_latest_scroll_total E t :
  exists latest, Watchdog._get_latest_scroll E t = Ok latest t.
Proof.
  unfold Watchdog._get_latest_scroll. unfold_m.
  repeat case_step; eexists; reflexivity.
Qed.

Lemma audit_file_total E file_path t :
  exists vs, CreedAudit.audit_file E file_path t = Ok vs t.
Proof.
  unfold CreedAudit.audit_file. unfold_m.
  repeat case_step; eexists; reflexivity.
Qed.

Lemma audit_files_total E files t :
  exists vs, CreedAudit.audit_files E files t = Ok vs t.
Proof.
  induction files as [|f files IH]; simpl.
  - eexists; reflexivity.
  - unfold_m. destruct (audit_file_total E f t) as (vs & ->).
    destruct IH as (ws & ->). eexists; reflexivity.
Qed.

Lemma audit_run_total E files t :
  exists vs, CreedAudit.run E files t = Ok vs (t ++ [EvCreedAudit files]).
Proof.
  unfold CreedAudit.run, CreedAudit._run. unfold_m.
  apply audit_files_total.
Qed.

(** *** The handlers of the agent *)

Lemma delivered_in_app (t u : Trace) :
  Observe.delivered_in (t ++ u) = Observe.delivered_in t || Observe.delivered_in u.
Proof. unfold Observe.delivered_in. now rewrite pager_calls_app, existsb_app. Qed.

(** What [_handle_cycle_end] does, by the outcome of each step. *)
Lemma handle_cycle_end_cases E t :
  let t1 := t ++ [EvLogSentinel 500] in
  match LogTail.run E 500 t with
  | Raise msg _ => Watchdog._handle_cycle_end E t = Raise msg t1
  | Ok log_result _ =>
      exists h new,
        Watchdog._handle_cycle_end E t = Ok h (t ++ new)
        /\ Watchdog.h_paged h = Observe.delivered_in new
        /\ In "Checking log for errors"%string (Watchdog.h_actions_taken h)
        /\ if LogTail.truthy_opt (LogTail.last_error log_result) then
             Observe.audit_calls new = []
             /\ exists o,
                 Observe.pager_calls new
                 = [(mkPagerInput
                       "Error detected in training log"
                       ("Shihan has detected an error in the training log:"
                          ++ Py.nl ++ Py.nl
                          ++ Watchdog.fmt_opt (LogTail.last_error log_result))
                       1, o)]
           else
             exists files,
               Watchdog._get_changed_files E t1 = Ok files t1
               /\ match files with
                  | [] =>
                      Observe.pager_calls new = []
                      /\ Observe.audit_calls new = []
                  | _ :: _ =>
                      exists violations,
                        CreedAudit.run E files t1
                        = Ok violations (t1 ++ [EvCreedAudit files])
                        /\ Observe.audit_calls new = [files]
                        /\ Watchdog.h_issues_found h
                           = violations
                               ++ (if Watchdog.h_paged h then []
                                   else match violations with
                                        | [] => []
                                        | _ => ["Failed to page Hayato"%string]
                                        end)
                        /\ match violations with
                           | [] => Observe.pager_calls new = []
                           | _ :: _ =>
                               exists o,
                                 Observe.pager_calls new
                                 = [(mkPagerInput
                                       "Creed violations detected"
                                       ("Shihan has detected "
                                          ++ Py.str_of_nat
                                               (Datatypes.length violations)
                                          ++ " creed violations:"
                                          ++ Py.nl ++ Py.nl
                                          ++ Py.join Py.nl violations)
                                       1, o)]
                           end
                  end
  end.
Proof.
  intros t1. pose proof (log_run_trace E 500 t) as Htr.
  unfold Watchdog._handle_cycle_end. unfold_m.
  destruct (LogTail.run E 500 t) as [lr t1'|msg t1'] eqn:Hlog;
    simpl in Htr; subst t1'; [|reflexivity].
  fold t1.
  destruct (LogTail.truthy_opt (LogTail.last_error lr)) eqn:Herr.
  - match goal with |- context [Pager.run E ?i ?u] =>
      destruct (pager_run_total E i u) as (o & new & Hp & Hcalls & Haud & Ho);
      rewrite Hp
    end.
    eexists _, ([EvLogSentinel 500] ++ new). unfold t1.
    rewrite <- app_assoc. split; [reflexivity|].
    unfold Observe.delivered_in. simpl. rewrite Hcalls, Haud. simpl.
    split; [|split; [|split; [reflexivity|exists o; reflexivity]]].
    + unfold Watchdog.after_page, Observe.delivered.
      destruct Ho as [-> | [-> | ->]]; reflexivity.
    + unfold Watchdog.after_page.
      destruct (String.eqb (pager_status o) "success"); simpl; auto.
  - destruct (get_changed_files_total E t1) as (files & Hfiles).
    rewrite Hfiles.
    destruct files as [|f files].
    + exists (Watchdog.mkHandled
                (Watchdog.snoc
                   (Watchdog.snoc ["Checking log for errors"%string]
                      "No errors found in log, checking for changed files")
                   "No changed files found") [] false).
      exists [EvLogSentinel 500]. split; [reflexivity|].
      split; [reflexivity|]. split; [simpl; auto|].
      exists []. split; [reflexivity|]. split; reflexivity.
    + destruct (audit_run_total E (f :: files) t1) as (vs & Hvs).
      rewrite Hvs.
      destruct vs as [|v vs].
      * eexists _, ([EvLogSentinel 500] ++ [EvCreedAudit (f :: files)]).
        unfold t1. rewrite <- app_assoc. split; [reflexivity|].
        split; [reflexivity|]. split; [simpl; auto|].
        exists (f :: files). split; [reflexivity|].
        exists []. fold t1. repeat split; try reflexivity. exact Hvs.
      * match goal with |- context [Pager.run E ?i ?u] =>
          destruct (pager_run_total E i u) as (o & new & Hp & Hcalls & Haud & Ho);
          rewrite Hp
        end.
        eexists _, ([EvLogSentinel 500] ++ [EvCreedAudit (f :: files)] ++ new).
        unfold t1. rewrite <- !app_assoc. split; [reflexivity|].
        unfold Observe.delivered_in. simpl. rewrite Hcalls, Haud. simpl.
        split; [|split].
        -- unfold Watchdog.after_page, Observe.delivered.
           destruct Ho as [-> | [-> | ->]]; reflexivity.
        -- unfold Watchdog.after_page.
           destruct (String.eqb (pager_status o) "success"); simpl; auto.
        -- exists (f :: files). split; [reflexivity|].
           exists (v :: vs). fold t1. split; [exact Hvs|].
           split; [reflexivity|]. split; [|exists o; reflexivity].
           unfold Watchdog.after_page, Watchdog.snoc.
           destruct (String.eqb (pager_status o) "success"); simpl;
             [now rewrite app_nil_r|reflexivity].
Qed.

(** [_handle_cycle_end] either raises before any call of the pager, or
    returns with [paged] telling whether a call of the pager was delivered;
    it calls the pager at most once. *)
Lemma handle_cycle_end_paged E t :
  (exists msg new,
      Watchdog._handle_cycle_end E t = Raise msg (t ++ new)
      /\ Observe.pager_calls new = [])
  \/ (exists h new,
         Watchdog._handle_cycle_end E t = Ok h (t ++ new)
         /\ Watchdog.h_paged h = Observe.delivered_in new
         /\ Datatypes.length (Observe.pager_calls new) <= 1).
Proof.
  pose proof (handle_cycle_end_cases E t) as H. simpl in H.
  destruct (LogTail.run E 500 t) as [lr t1|msg t1].
  - right. destruct H as (h & new & Hrun & Hpaged & _ & Hcase).
    exists h, new. split; [exact Hrun|]. split; [exact Hpaged|].
    destruct (LogTail.truthy_opt (LogTail.last_error lr)).
    + destruct Hcase as (_ & o & ->). simpl. lia.
    + destruct Hcase as (files & _ & Hfiles).
      destruct files as [|f files].
      * destruct Hfiles as (-> & _). simpl. lia.
      * destruct Hfiles as (vs & _ & _ & _ & Hvs).
        destruct vs as [|v vs].
        -- rewrite Hvs. simpl. lia.
        -- destruct Hvs as (o & ->). simpl. lia.
  - left. exists msg, [EvLogSentinel 500]. split; [exact H|reflexivity].
Qed.

(** What [_handle_manual_check] is made of. *)
Lemma handle_manual_check_cases E t :
  match Watchdog._handle_cycle_end E t with
  | Raise msg t1 => Watchdog._handle_manual_check E t = Raise msg t1
  | Ok h1 t1 =>
      exists latest,
        Watchdog._get_latest_scroll E t1 = Ok latest t1
        /\ if LogTail.truthy_opt latest then
             exists h2 new2,
               Watchdog._handle_scroll_committed E (Watchdog.fmt_opt latest) t1
               = Ok h2 (t1 ++ new2)
               /\ Watchdog.h_paged h2 = Observe.delivered_in new2
               /\ exists h,
                   Watchdog._handle_manual_check E t = Ok h (t1 ++ new2)
                   /\ Watchdog.h_paged h
                      = Watchdog.h_paged h1 || Watchdog.h_paged h2
           else
             exists h,
               Watchdog._handle_manual_check E t = Ok h t1
               /\ Watchdog.h_paged h = Watchdog.h_paged h1
  end.
Proof.
  unfold Watchdog._handle_manual_check. unfold_m.
  destruct (Watchdog._handle_cycle_end E t) as [h1 t1|msg t1]; [|reflexivity].
  destruct (get_latest_scroll_total E t1) as (latest & Hlatest).
  rewrite Hlatest. exists latest. split; [reflexivity|].
  destruct (LogTail.truthy_opt latest).
  - destruct (handle_scroll_committed_total E (Watchdog.fmt_opt latest) t1)
      as (r & h2 & new2 & _ & Hh2 & _ & Hpaged & _).
    rewrite Hh2. exists h2, new2. split; [reflexivity|].
    split; [exact Hpaged|]. eexists. split; reflexivity.
  - eexists. split; reflexivity.
Qed.

Lemma handle_manual_check_paged E t :
  (exists msg new,
      Watchdog._handle_manual_check E t = Raise msg (t ++ new)
      /\ Observe.pager_calls new = [])
  \/ (exists h new,
         Watchdog._handle_manual_check E t = Ok h (t ++ new)
         /\ Watchdog.h_paged h = Observe.delivered_in new).
Proof.
  pose proof (handle_manual_check_cases E t) as H.
  destruct (handle_cycle_end_paged E t)
    as [(msg & new & Hrun & Hnone) | (h1 & new1 & Hrun & Hpaged1 & _)];
    rewrite Hrun in H.
  - left. exists msg, new. split; assumption.
  - right. destruct H as (latest & _ & Hcase).
    destruct (LogTail.truthy_opt latest).
    + destruct Hcase as (h2 & new2 & _ & Hpaged2 & h & Hh & Hpaged).
      exists h, (new1 ++ new2). rewrite app_assoc. split; [exact Hh|].
      now rewrite delivered_in_app, Hpaged, Hpaged1, Hpaged2.
    + destruct Hcase as (h & Hh & Hpaged).
      exists h, new1. split; [exact Hh|]. now rewrite Hpaged.
Qed.

(** The same for the agent, whatever the event. *)
Lemma run_paged E input_obj t :
  (exists msg new,
      Watchdog.run E input_obj t = Raise msg (t ++ new)
      /\ Observe.pager_calls new = [])
  \/ (exists out new,
         Watchdog.run E input_obj t = Ok out (t ++ new)
         /\ Watchdog.paged out = Observe.delivered_in new).
Proof.
  unfold Watchdog.run. destruct (Watchdog.event input_obj).
  - unfold_m.
    destruct (handle_cycle_end_paged E t)
      as [(msg & new & -> & Hnone) | (h & new & -> & Hpaged & _)].
    + left. exists msg, new. auto.
    + right. eexists _, new. split; [reflexivity|exact Hpaged].
  - unfold_m.
    destruct (handle_manual_check_paged E t)
      as [(msg & new & -> & Hnone) | (h & new & -> & Hpaged)].
    + left. exists msg, new. auto.
    + right. eexists _, new. split; [reflexivity|exact Hpaged].
  - right. destruct (LogTail.truthy_opt (Watchdog.scroll_path input_obj)).
    + unfold_m.
      destruct (handle_scroll_committed_total E
                  (Watchdog.fmt_opt (Watchdog.scroll_path input_obj)) t)
        as (r & h & new & _ & -> & _ & Hpaged & _).
      eexists _, new. split; [reflexivity|exact Hpaged].
    + unfold_m. eexists _, []. rewrite app_nil_r. split; reflexivity.
Qed.

Lemma delivered_in_spec (new : Trace) :
  Observe.delivered_in new = true
  <-> exists i o, In (EvPager i o) new /\ Observe.delivered o = true.
Proof.
  unfold Observe.delivered_in. rewrite existsb_exists. split.
  - intros ((i, o) & Hin & Hd). exists i, o. split; [|exact Hd].
    clear Hd. induction new as [|e new IH]; simpl in *; [contradiction|].
    destruct e; simpl in *; auto.
    destruct Hin as [Heq|Hin]; [inversion Heq; auto|auto].
  - intros (i & o & Hin & Hd). exists (i, o). split; [|exact Hd].
    clear Hd. induction new as [|e new IH]; simpl in *; [contradiction|].
    destruct Hin as [->|Hin]; [simpl; auto|].
    destruct e; simpl; auto.
Qed.

(** C2. For every argument dictionary and every behaviour of the
    environment, the report that [supervise_cycle] returns has [paged] true
    exactly when some call of the pager made during the run returned
    "success".  In [_handle_manual_check], [paged] is the disjunction of the
    [paged] of [_handle_cycle_end] and of the [paged] of
    [_handle_scroll_committed] on the latest scroll, when there is one. *)
Theorem paged_iff_some_page_delivered :
  forall (E : Env) (args : Args) (t : Trace),
    (exists reply new,
        Server.supervise_cycle E args t = Ok reply (t ++ new)
        /\ (Watchdog.paged (Server.report_of reply) = true
            <-> exists i o,
                In (EvPager i o) new /\ pager_status o = "success"%string))
    /\ match Watchdog._handle_cycle_end E t with
       | Raise msg t1 => Watchdog._handle_manual_check E t = Raise msg t1
       | Ok h1 t1 =>
           exists latest h t2,
             Watchdog._get_latest_scroll E t1 = Ok latest t1
             /\ Watchdog._handle_manual_check E t = Ok h t2
             /\ if LogTail.truthy_opt latest then
                  exists h2,
                    Watchdog._handle_scroll_committed E
                      (Watchdog.fmt_opt latest) t1 = Ok h2 t2
                    /\ Watchdog.h_paged h
                       = Watchdog.h_paged h1 || Watchdog.h_paged h2
                else Watchdog.h_paged h = Watchdog.h_paged h1
       end.
Proof.
  intros E args t. split.
  - assert (Hd : forall new,
               (exists i o, In (EvPager i o) new /\ Observe.delivered o = true)
               <-> (exists i o, In (EvPager i o) new
                                /\ pager_status o = "success"%string)).
    { intros new. unfold Observe.delivered.
      split; intros (i & o & Hin & H); exists i, o; split; auto;
        now apply String.eqb_eq. }
    unfold Server.supervise_cycle, Server.supervise_body, Server.validate.
    unfold_m.
    destruct (Server.parse_event args) as [ev|];
      [destruct (Server.parse_scroll_path args) as [sp|]|].
    + destruct (run_paged E (Watchdog.mkWatchInput ev sp) t)
        as [(msg & new & -> & Hnone) | (out & new & -> & Hpaged)].
      * eexists _, new. split; [reflexivity|]. simpl.
        rewrite <- Hd, <- delivered_in_spec. unfold Observe.delivered_in.
        rewrite Hnone. simpl. tauto.
      * eexists _, new. split; [reflexivity|]. simpl.
        rewrite <- Hd, <- delivered_in_spec, Hpaged. tauto.
    + eexists _, []. rewrite app_nil_r. split; [reflexivity|]. simpl.
      split; [discriminate|]. intros (i & o & [] & _).
    + eexists _, []. rewrite app_nil_r. split; [reflexivity|]. simpl.
      split; [discriminate|]. intros (i & o & [] & _).
  - pose proof (handle_manual_check_cases E t) as H.
    destruct (Watchdog._handle_cycle_end E t) as [h1 t1|msg t1]; [|exact H].
    destruct H as (latest & Hlatest & Hcase). exists latest.
    destruct (LogTail.truthy_opt latest).
    + destruct Hcase as (h2 & new2 & Hh2 & _ & h & Hh & Hpaged).
      exists h, (t1 ++ new2). split; [exact Hlatest|]. split; [exact Hh|].
      exists h2. split; assumption.
    + destruct Hcase as (h & Hh & Hpaged).
      exists h, t1. split; [exact Hlatest|]. split; assumption.
Qed.

(** C6. In a [cycle_end] run the pager is called at most once.  When the log
    sentinel reports a last error, it is called exactly once, with priority 1
    and the error in the body, and the creed audit is not run.  Otherwise the
    changed files, if any, are audited in one call, and the pager is called
    exactly once, with all violations joined in one body, when the audit
    found any, and not at all when it found none or no file had changed. *)
Theorem cycle_end_pages_at_most_once :
  forall (E : Env) (t : Trace),
    let t1 := t ++ [EvLogSentinel 500] in
    match LogTail.run E 500 t with
    | Raise msg _ => Watchdog._handle_cycle_end E t = Raise msg t1
    | Ok log_result _ =>
        exists h new,
          Watchdog._handle_cycle_end E t = Ok h (t ++ new)
          /\ Datatypes.length (Observe.pager_calls new) <= 1
          /\ if LogTail.truthy_opt (LogTail.last_error log_result) then
               Observe.audit_calls new = []
               /\ exists o,
                   Observe.pager_calls new
                   = [(mkPagerInput
                         "Error detected in training log"
                         ("Shihan has detected an error in the training log:"
                            ++ Py.nl ++ Py.nl
                            ++ Watchdog.fmt_opt (LogTail.last_error log_result))
                         1, o)]
             else
               exists files,
                 Watchdog._get_changed_files E t1 = Ok files t1
                 /\ match files with
                    | [] =>
                        Observe.pager_calls new = []
                        /\ Observe.audit_calls new = []
                    | _ :: _ =>
                        exists violations,
                          CreedAudit.run E files t1
                          = Ok violations (t1 ++ [EvCreedAudit files])
                          /\ Observe.audit_calls new = [files]
                          /\ match violations with
                             | [] => Observe.pager_calls new = []
                             | _ :: _ =>
                                 exists o,
                                   Observe.pager_calls new
                                   = [(mkPagerInput
                                         "Creed violations detected"
                                         ("Shihan has detected "
                                            ++ Py.str_of_nat
                                                 (Datatypes.length violations)
                                            ++ " creed violations:"
                                            ++ Py.nl ++ Py.nl
                                            ++ Py.join Py.nl violations)
                                         1, o)]
                             end
                    end
    end.
Proof.
  intros E t t1. pose proof (handle_cycle_end_cases E t) as H. simpl in H.
  pose proof (handle_cycle_end_paged E t) as Hp.
  destruct (LogTail.run E 500 t) as [lr t1'|msg t1']; [|exact H].
  destruct H as (h & new & Hrun & _ & _ & Hcase).
  exists h, new. split; [exact Hrun|]. split.
  - destruct Hp as [(msg & new' & Hr & _) | (h' & new' & Hr & _ & Hlen)];
      rewrite Hrun in Hr; [discriminate|].
    inversion Hr as [[Hh Ht]]. apply app_inv_head in Ht. now subst new'.
  - destruct (LogTail.truthy_opt (LogTail.last_error lr)); [exact Hcase|].
    destruct Hcase as (files & Hfiles & Hcase). exists files.
    split; [exact Hfiles|]. destruct files as [|f files]; [exact Hcase|].
    destruct Hcase as (vs & Hvs & Haud & _ & Hpages). exists vs. auto.
Qed.

(** Three runs of [_handle_cycle_end]: a log with an error (one page, of
    priority 1, delivered by the fallback), a changed file with two
    violations (one page for both), and nothing to report (no page). *)
Lemma cycle_end_examples :
  (exists h t,
      Watchdog._handle_cycle_end (Observe.plain_env "ValueError: bad input") []
      = Ok h t
      /\ map (fun c => priority (fst c)) (Observe.pager_calls t) = [1%Z]
      /\ Watchdog.h_paged h = true
      /\ Watchdog.h_actions_taken h
         = ["Checking log for errors"; "Paging Hayato about log error";
            "Paged successfully via ninjascroll"]%string)
  /\ (exists h t,
         Watchdog._handle_cycle_end
           (Observe.changed_env
              ("if x is None:" ++ Py.nl ++ "def f(**kwargs): pass")%string) []
         = Ok h t
         /\ Datatypes.length (Watchdog.h_issues_found h) = 3
         /\ Datatypes.length (Observe.pager_calls t) = 1
         /\ Watchdog.h_paged h = true)
  /\ (exists h t,
         Watchdog._handle_cycle_end (Observe.plain_env "all good") [] = Ok h t
         /\ Observe.pager_calls t = []
         /\ Watchdog.h_issues_found h = []
         /\ Watchdog.h_paged h = false).
Proof.
  split; [|split]; eexists _, _; (split; [vm_compute; reflexivity|]);
    repeat split.
Qed.

(** *** The matcher *)

(** A match always ends by calling the continuation, further on in the
    text. *)
Lemma star_greedy_reaches c k : forall s prev n m,
  Re.star_greedy c k prev s n = Some m ->
  exists prev' s' n', n <= n' /\ k prev' s' n' = Some m.
Proof.
  induction s as [|a s IH]; intros prev n m; simpl.
  - intros H. eauto.
  - destruct (Re.cmatch c a); [|intros H; eauto].
    destruct (Re.star_greedy c k (Some a) s (S n)) as [r|] eqn:Hrec; simpl.
    + intros H. inversion H; subst r.
      destruct (IH _ _ _ Hrec) as (p' & s' & n' & Hle & Hk).
      exists p', s', n'. split; [lia|exact Hk].
    + intros H. eauto.
Qed.

Lemma star_lazy_reaches c k : forall s prev n m,
  Re.star_lazy c k prev s n = Some m ->
  exists prev' s' n', n <= n' /\ k prev' s' n' = Some m.
Proof.
  induction s as [|a s IH]; intros prev n m; simpl.
  - destruct (k prev EmptyString n) eqn:Hk; [|discriminate].
    intros H; inversion H; subst. eauto.
  - destruct (k prev (String a s) n) eqn:Hk.
    + intros H; inversion H; subst. eauto.
    + destruct (Re.cmatch c a); [|discriminate].
      intros H. destruct (IH _ _ _ H) as (p' & s' & n' & Hle & Hk').
      exists p', s', n'. split; [lia|exact Hk'].
Qed.

Lemma exec_reaches r : forall k prev s n m,
  Re.exec r k prev s n = Some m ->
  exists prev' s' n', n <= n' /\ k prev' s' n' = Some m.
Proof.
  induction r as [|c|r1 IH1 r2 IH2|r1 IH1 r2 IH2|g c| | |positive r IH];
    intros k prev s n m; simpl.
  - eauto.
  - destruct s as [|a s]; [discriminate|].
    destruct (Re.cmatch c a); [|discriminate]. intros H.
    exists (Some a), s, (S n). split; [lia|exact H].
  - intros H. destruct (IH1 _ _ _ _ _ H) as (p1 & s1 & n1 & Hle1 & H1).
    destruct (IH2 _ _ _ _ _ H1) as (p2 & s2 & n2 & Hle2 & H2).
    exists p2, s2, n2. split; [lia|exact H2].
  - destruct (Re.exec r1 k prev s n) eqn:H1; simpl.
    + intros H; inversion H; subst. eapply IH1; eassumption.
    + intros H. eapply IH2; eassumption.
  - destruct g; [apply star_greedy_reaches|apply star_lazy_reaches].
  - destruct (xorb _ _); [|discriminate]. eauto.
  - destruct s; [|discriminate]. eauto.
  - destruct (Re.exec r _ prev s n); destruct positive;
      try discriminate; eauto.
Qed.

(** A pattern that begins with a literal character matches only where that
    character stands, and consumes it. *)
Lemma match_here_literal_first a rest r prev s len :
  Re.match_here (Re.RSeq (Re.lit (String a rest)) r) prev s = Some len ->
  exists s', s = String a s' /\ 1 <= len.
Proof.
  unfold Re.match_here.
  assert (Hfirst : forall k m,
             Re.exec (Re.lit (String a rest)) k prev s 0 = Some m ->
             exists s' p' s'' n', s = String a s' /\ 1 <= n'
                                   /\ k p' s'' n' = Some m).
  { intros k m. simpl. destruct rest as [|b rest]; simpl.
    - destruct s as [|c s]; [discriminate|].
      destruct (Ascii.eqb a c) eqn:Hc; [|discriminate].
      apply Ascii.eqb_eq in Hc. subst c. intros H.
      exists s, (Some a), s, 1. auto.
    - destruct s as [|c s]; [discriminate|].
      destruct (Ascii.eqb a c) eqn:Hc; [|discriminate].
      apply Ascii.eqb_eq in Hc. subst c. intros H.
      apply exec_reaches in H. destruct H as (p' & s' & n' & Hle & Hk).
      exists s, p', s', n'. auto. }
  simpl. intros H. apply Hfirst in H.
  destruct H as (s' & p' & s'' & n' & -> & Hle & Hk).
  apply exec_reaches in Hk. destruct Hk as (p2 & s2 & n2 & Hle2 & Hk).
  inversion Hk; subst. exists s'. split; [reflexivity|lia].
Qed.

(** The spans of [finditer]: each is a match at its position, and each ends
    before the next begins. *)
Lemma spans_from_spec r : forall s prev skip off,
  (forall sp, In sp (Re.spans_from r prev s skip off) ->
              off + skip <= fst sp
              /\ exists prev',
                  Re.match_here r prev' (Py.drop (fst sp - off) s)
                  = Some (snd sp))
  /\ StronglySorted (fun a b => Re.span_end a <= fst b)
                    (Re.spans_from r prev s skip off).
Proof.
  induction s as [|a s IH]; intros prev skip off.
  - destruct skip as [|skip]; simpl.
    + destruct (Re.match_here r prev EmptyString) as [len|] eqn:Hm; simpl.
      * split.
        -- intros sp [<-|[]]. simpl. split; [lia|].
           exists prev. now rewrite Nat.sub_diag.
        -- repeat constructor.
      * split; [intros sp []|constructor].
    + split; [intros sp []|constructor].
  - assert (Hshift : forall skip' sp,
               In sp (Re.spans_from r (Some a) s skip' (S off)) ->
               S off + skip' <= fst sp
               /\ exists prev',
                   Re.match_here r prev' (Py.drop (fst sp - off) (String a s))
                   = Some (snd sp)).
    { intros skip' sp Hin.
      destruct (IH (Some a) skip' (S off)) as (Hin' & _).
      destruct (Hin' sp Hin) as (Hle & prev' & Hm). split; [exact Hle|].
      exists prev'. replace (fst sp - off) with (S (fst sp - S off)) by lia.
      exact Hm. }
    destruct skip as [|skip]; simpl.
    + destruct (Re.match_here r prev (String a s)) as [len|] eqn:Hm; simpl.
      * split.
        -- intros sp [<-|Hin].
           ++ simpl. split; [lia|]. exists prev. now rewrite Nat.sub_diag.
           ++ destruct (Hshift _ _ Hin) as (Hle & Hex). split; [lia|exact Hex].
        -- constructor; [apply IH|].
           apply Forall_forall. intros sp Hin.
           destruct (Hshift _ _ Hin) as (Hle & _).
           unfold Re.span_end. simpl. lia.
      * split; [|apply IH].
        intros sp Hin. destruct (Hshift _ _ Hin) as (Hle & Hex).
        split; [lia|exact Hex].
    + split; [|apply IH].
      intros sp Hin. destruct (Hshift _ _ Hin) as (Hle & Hex).
      split; [lia|exact Hex].
Qed.

Lemma last_cons_default {A} (l : list A) : forall a b,
  last (b :: l) a = last l b.
Proof.
  induction l as [|c l IH]; intros a b; [reflexivity|].
  change (last (b :: c :: l) a) with (last (c :: l) a).
  now rewrite (IH a c), (IH b c).
Qed.

Lemma last_opt_cons {A} (a : A) (l : list A) :
  LogTail.last_opt (a :: l)
  = match LogTail.last_opt l with Some y => Some y | None => Some a end.
Proof.
  destruct l as [|b l]; [reflexivity|].
  unfold LogTail.last_opt. now rewrite last_cons_default.
Qed.

Lemma last_opt_none {A} (l : list A) : LogTail.last_opt l = None -> l = [].
Proof. destruct l; [reflexivity|discriminate]. Qed.

Lemma last_opt_in {A} (l : list A) : forall y,
  LogTail.last_opt l = Some y -> In y l.
Proof.
  induction l as [|a l IH]; intros y; [discriminate|].
  rewrite last_opt_cons. destruct (LogTail.last_opt l) as [z|].
  - intros H. inversion H; subst. right. now apply IH.
  - intros H. inversion H; subst. left. reflexivity.
Qed.

Lemma sorted_last {A} (R : A -> A -> Prop) (l : list A) :
  StronglySorted R l ->
  forall y x, LogTail.last_opt l = Some y -> In x l -> x = y \/ R x y.
Proof.
  induction 1 as [|a l Hs IH Hall]; intros y x Hlast Hin; [contradiction|].
  rewrite last_opt_cons in Hlast.
  destruct (LogTail.last_opt l) as [z|] eqn:Hl.
  - inversion Hlast; subst z. destruct Hin as [<-|Hin].
    + right. rewrite Forall_forall in Hall. apply Hall.
      now apply last_opt_in.
    + now apply IH.
  - apply last_opt_none in Hl. subst l. inversion Hlast; subst.
    destruct Hin as [<-|[]]. left. reflexivity.
Qed.

(** Among the matches of one pattern, the last found ends latest. *)
Lemma last_span_ends_latest r log sp :
  LogTail.last_opt (Re.spans r log) = Some sp ->
  Observe.ends_latest_among [r] log r sp.
Proof.
  intros Hlast. split; [now apply last_opt_in|].
  intros q sq [<-|[]] Hsq.
  destruct (spans_from_spec r log None 0 0) as (_ & Hsorted).
  fold (Re.spans r log) in Hsorted.
  destruct (sorted_last Hsorted sq Hlast Hsq) as [->|Hlt];
    unfold Re.span_end in *; lia.
Qed.

(** *** The last error of the log *)

Lemma last_opt_app {A} (l1 l2 : list A) :
  l2 <> [] -> LogTail.last_opt (l1 ++ l2) = LogTail.last_opt l2.
Proof.
  intros Hne. induction l1 as [|a l1 IH]; [reflexivity|].
  simpl app. rewrite last_opt_cons, IH.
  destruct l2 as [|b l2]; [contradiction|reflexivity].
Qed.

Lemma last_opt_flat_map {A B} (f : A -> list B) (l : list A) :
  flat_map f l <> [] ->
  exists x, In x l /\ f x <> []
            /\ LogTail.last_opt (flat_map f l) = LogTail.last_opt (f x).
Proof.
  induction l as [|a l IH]; simpl; [contradiction|].
  destruct (flat_map f l) as [|b bs] eqn:Hrest.
  - rewrite app_nil_r. intros Hne. exists a. auto.
  - intros _. destruct IH as (x & Hin & Hne & Hlast); [discriminate|].
    exists x. split; [auto|]. split; [exact Hne|].
    rewrite last_opt_app by discriminate. exact Hlast.
Qed.

Lemma last_opt_map {A B} (g : A -> B) (l : list A) :
  LogTail.last_opt (map g l) = option_map g (LogTail.last_opt l).
Proof.
  induction l as [|a l IH]; [reflexivity|].
  simpl map. rewrite !last_opt_cons, IH.
  destruct (LogTail.last_opt l); reflexivity.
Qed.

(** A match of an error pattern is never empty. *)
Lemma error_match_not_empty p log sp :
  In p LogTail.error_patterns -> In sp (Re.spans p log) ->
  LogTail.truthy (Re.span_text log sp) = true.
Proof.
  intros Hp Hsp.
  destruct (spans_from_spec p log None 0 0) as (Hsound & _).
  destruct (Hsound sp Hsp) as (_ & prev' & Hm).
  rewrite Nat.sub_0_r in Hm.
  assert (Hfirst : exists s', Py.drop (fst sp) log = String.String
                                (match s' with (a, _) => a end) (snd s')
                              /\ 1 <= snd sp).
  { cbv [In LogTail.error_patterns] in Hp.
    destruct Hp as [<-|[<-|[<-|[<-|[]]]]];
      apply match_here_literal_first in Hm;
      destruct Hm as (s' & Heq & Hle);
      eexists (_, s'); split; try exact Hle; simpl; exact Heq. }
  destruct Hfirst as ((a, s') & Heq & Hle). simpl in Heq.
  unfold Re.span_text, Py.slice. rewrite Heq.
  destruct (snd sp) as [|n]; [lia|reflexivity].
Qed.

Lemma truncate_error_length (e : string) :
  String.length (LogTail.truncate_error e) <= 500.
Proof.
  unfold LogTail.truncate_error.
  destruct (500 <? String.length e) eqn:Hlong.
  - apply Nat.ltb_lt in Hlong.
    rewrite append_length, take_length.
    change (String.length "...") with 3. lia.
  - apply Nat.ltb_ge in Hlong. exact Hlong.
Qed.

(** The last line of the summary is the last element joined. *)
Lemma generate_summary_last_line log last_error elapsed :
  exists prefix,
    LogTail._generate_summary log last_error elapsed
    = (prefix ++ LogTail.last_error_line last_error)%string.
Proof.
  unfold LogTail._generate_summary, Py.join.
  eexists. rewrite <- !append_assoc. reflexivity.
Qed.

(** C3, as stated, fails twice.  In a log whose "Error:" block comes before
    a traceback that names no error, the match that ends latest is the
    traceback, and [_find_last_error] returns the earlier block.  And a
    match of more than 500 characters is returned whole in [last_error]. *)
Lemma last_error_not_latest_nor_truncated :
  map (fun p => Re.spans p Observe.two_errors_log) LogTail.error_patterns
  = [[(10, 52)]; []; []; [(0, 8)]]
  /\ LogTail._find_last_error Observe.two_errors_log = Some "Error: a"%string
  /\ ~ (exists p sp,
          In p LogTail.error_patterns
          /\ Observe.ends_latest_among LogTail.error_patterns
               Observe.two_errors_log p sp
          /\ LogTail._find_last_error Observe.two_errors_log
             = Some (LogTail.truncate_error
                       (Re.span_text Observe.two_errors_log sp)))
  /\ exists out t e,
      LogTail.run (Observe.plain_env Observe.long_error_log) 500 [] = Ok out t
      /\ LogTail.last_error out = Some e
      /\ String.length e = 606.
Proof.
  split; [vm_compute; reflexivity|]. split; [vm_compute; reflexivity|].
  split.
  - intros (p & sp & Hp & (Hsp & Hlatest) & Hlast).
    assert (Htb : Re.span_end (10, 52) <= Re.span_end sp).
    { apply (Hlatest (nth 0 LogTail.error_patterns Re.REps)).
      - simpl. auto.
      - vm_compute. auto. }
    simpl in Hp. destruct Hp as [<-|[<-|[<-|[<-|[]]]]];
      vm_compute in Hsp; try contradiction;
      destruct Hsp as [<-|[]].
    + vm_compute in Hlast. discriminate.
    + vm_compute in Htb. lia.
  - eexists _, _, _. split; [vm_compute; reflexivity|].
    split; [reflexivity|]. vm_compute. reflexivity.
Qed.

(** C3, amended. When some error pattern matches the log that [tail]
    delivered, the log sentinel returns a [last_error]: the text of a match
    of one of the patterns, which ends at least as late as every match of
    that same pattern.  It is the last element collected, whole in the field
    [last_error] whatever its length.  Only its copy in the last line of the
    summary is cut: to its first 497 characters and "..." when it is longer
    than 500 characters, so never more than 500. *)
Theorem last_error_is_last_collected :
  forall (E : Env) (n : Z) (t : Trace) (log : string),
    subprocess_tail E (t ++ [EvLogSentinel n]) n Paths.LOG = TailStdout log ->
    (exists p, In p LogTail.error_patterns /\ Re.spans p log <> []) ->
    exists out p sp prefix,
      LogTail.run E n t = Ok out (t ++ [EvLogSentinel n])
      /\ In p LogTail.error_patterns
      /\ Observe.ends_latest_among [p] log p sp
      /\ LogTail.last_error out = Some (Re.span_text log sp)
      /\ LogTail.last_opt (LogTail.collect_errors log)
         = Some (Re.span_text log sp)
      /\ LogTail.summary out
         = (prefix ++ "- Last error: "
              ++ LogTail.truncate_error (Re.span_text log sp))%string
      /\ String.length (LogTail.truncate_error (Re.span_text log sp)) <= 500
      /\ (String.length (Re.span_text log sp) <= 500 ->
          LogTail.truncate_error (Re.span_text log sp) = Re.span_text log sp)
      /\ (500 < String.length (Re.span_text log sp) ->
          LogTail.truncate_error (Re.span_text log sp)
          = (Py.take 497 (Re.span_text log sp) ++ "...")%string).
Proof.
  intros E n t log Htail (p0 & Hp0 & Hne0).
  assert (Hcollected : flat_map (fun p => Re.findall p log)
                                LogTail.error_patterns <> []).
  { intros Hnil. apply Hne0.
    assert (Hin : forall x, In x (Re.findall p0 log) -> False).
    { intros x Hx.
      assert (In x (flat_map (fun p => Re.findall p log)
                             LogTail.error_patterns))
        by (apply in_flat_map; eauto).
      rewrite Hnil in H. contradiction. }
    unfold Re.findall in Hin.
    destruct (Re.spans p0 log) as [|sp l]; [reflexivity|].
    exfalso. apply (Hin (Re.span_text log sp)). simpl. auto. }
  destruct (last_opt_flat_map _ _ Hcollected) as (p & Hp & Hne & Hlast).
  unfold Re.findall in Hlast at 2. rewrite last_opt_map in Hlast.
  destruct (LogTail.last_opt (Re.spans p log)) as [sp|] eqn:Hsp.
  2:{ apply last_opt_none in Hsp. unfold Re.findall in Hne.
      rewrite Hsp in Hne. contradiction. }
  cbn [option_map] in Hlast.
  assert (Hfind : LogTail._find_last_error log = Some (Re.span_text log sp))
    by exact Hlast.
  destruct (generate_summary_last_line log (Some (Re.span_text log sp))
              (LogTail._compute_runtime log)) as (prefix & Hsummary).
  eexists _, p, sp, prefix.
  split; [apply log_run_stdout; exact Htail|].
  split; [exact Hp|]. split; [now apply last_span_ends_latest|].
  cbn [LogTail.last_error LogTail.summary]. rewrite Hfind.
  split; [reflexivity|]. split; [exact Hlast|].
  split.
  - rewrite Hsummary. unfold LogTail.last_error_line.
    rewrite (@error_match_not_empty p log sp Hp (@last_opt_in _ _ _ Hsp)).
    reflexivity.
  - split; [apply truncate_error_length|].
    unfold LogTail.truncate_error. split; intros Hlen.
    + apply Nat.ltb_ge in Hlen. now rewrite Hlen.
    + apply Nat.ltb_lt in Hlen. now rewrite Hlen.
Qed.

(** The amended property on the log with two blocks: the block of the last
    pattern that matches is returned. *)
Lemma last_error_is_last_collected_witness :
  exists out,
    LogTail.run (Observe.plain_env Observe.two_errors_log) 500 []
    = Ok out [EvLogSentinel 500]
    /\ LogTail.last_error out = Some "Error: a"%string.
Proof.
  destruct (@last_error_is_last_collected
              (Observe.plain_env Observe.two_errors_log) 500 []
              Observe.two_errors_log eq_refl)
    as (out & p & sp & prefix & Hrun & _ & _ & Herr & Hlast & _).
  - exists (nth 3 LogTail.error_patterns Re.REps).
    split; [simpl; auto|]. vm_compute. discriminate.
  - exists out. split; [exact Hrun|].
    rewrite Herr, <- Hlast. vm_compute. reflexivity.
Defined.

(** *** The elapsed time *)

(** C9, as stated, fails on the letter: the value for a log without
    timestamps begins with a capital. *)
Lemma capitalised_elapsed_value :
  Datatypes.length (Re.findall LogTail.timestamp_pattern "no timestamps here") < 2
  /\ LogTail._compute_runtime "no timestamps here"
     <> "unknown (insufficient timestamps)"%string.
Proof.
  split; [vm_compute; lia|]. vm_compute. discriminate.
Qed.

(** C9, amended. On a log that [tail] delivered the log sentinel returns,
    and when fewer than two timestamps of the shape are found in it the field
    [elapsed] is "Unknown (insufficient timestamps)"; when two or more are
    found and the first or the last is not a date and time, [elapsed] is
    "Unknown (invalid timestamps)". *)
Theorem elapsed_unknown :
  forall (E : Env) (n : Z) (t : Trace) (log : string),
    subprocess_tail E (t ++ [EvLogSentinel n]) n Paths.LOG = TailStdout log ->
    exists out,
      LogTail.run E n t = Ok out (t ++ [EvLogSentinel n])
      /\ (Datatypes.length (Re.findall LogTail.timestamp_pattern log) < 2 ->
          LogTail.elapsed out = "Unknown (insufficient timestamps)"%string)
      /\ (forall first second rest,
            Re.findall LogTail.timestamp_pattern log = first :: second :: rest ->
            LogTail.strptime first = None
            \/ LogTail.strptime (last (second :: rest) first) = None ->
            LogTail.elapsed out = "Unknown (invalid timestamps)"%string).
Proof.
  intros E n t log Htail. eexists.
  split; [apply log_run_stdout; exact Htail|].
  cbn [LogTail.elapsed]. unfold LogTail._compute_runtime. split.
  - intros Hlen.
    destruct (Re.findall LogTail.timestamp_pattern log) as [|a [|b l]];
      simpl in Hlen; try reflexivity; lia.
  - intros first second rest -> Hbad.
    destruct (LogTail.strptime first); [|reflexivity].
    destruct Hbad as [Hbad|Hbad]; [discriminate|].
    now rewrite Hbad.
Qed.

(** The amended property on a log without timestamps. *)
Lemma elapsed_unknown_witness :
  exists out,
    LogTail.run (Observe.plain_env "no timestamps here") 500 []
    = Ok out [EvLogSentinel 500]
    /\ LogTail.elapsed out = "Unknown (insufficient timestamps)"%string.
Proof.
  destruct (@elapsed_unknown (Observe.plain_env "no timestamps here") 500 []
              "no timestamps here" eq_refl) as (out & Hrun & Hfew & _).
  exists out. split; [exact Hrun|]. apply Hfew. vm_compute. lia.
Defined.

(** Timestamps of the shape that are no dates, and the other outcomes of
    [_compute_runtime]. *)
Lemma compute_runtime_examples :
  LogTail._compute_runtime "2024-13-01 00:00:00 up 2024-01-01 00:00:45 down"
  = "Unknown (invalid timestamps)"%string
  /\ LogTail._compute_runtime "2024-01-01 00:00:00 up 2024-02-30 00:00:45 down"
     = "Unknown (invalid timestamps)"%string
  /\ LogTail._compute_runtime "2024-01-01 00:00:00 only one"
     = "Unknown (insufficient timestamps)"%string
  /\ LogTail._compute_runtime "2024-01-01 00:00:00 up 2024-01-02 01:00:00 down"
     = "1d 1h 0m 0s"%string
  /\ LogTail._compute_runtime "2024-01-01 00:00:00 up 2024-01-01 00:00:45 down"
     = "45s"%string.
Proof. repeat split; vm_compute; reflexivity. Qed.

(** *** The scan of the creed audit *)

Lemma map_flat_map {A B C} (g : B -> C) (f : A -> list B) (l : list A) :
  map g (flat_map f l) = flat_map (fun x => map g (f x)) l.
Proof.
  induction l as [|a l IH]; simpl; [reflexivity|].
  now rewrite map_app, IH.
Qed.

(** The messages that the tool reports are those of the records. *)
Lemma check_violations_messages (file_path content : string) :
  CreedAudit._check_violations file_path content
  = map CreedAudit.v_message
        (CreedAudit.violation_records file_path content).
Proof.
  unfold CreedAudit._check_violations, CreedAudit.violation_records.
  rewrite map_flat_map. apply flat_map_ext. intros (name, pat).
  rewrite map_flat_map. apply flat_map_ext. intros (i, line).
  destruct (Re.search pat line); [|reflexivity].
  destruct (CreedAudit.is_comment line); reflexivity.
Qed.

Lemma in_combine_seq {A} (l : list A) : forall k i x,
  In (i, x) (combine (List.seq k (Datatypes.length l)) l)
  <-> k <= i /\ nth_error l (i - k) = Some x.
Proof.
  induction l as [|a l IH]; intros k i x; simpl.
  - split; [contradiction|]. intros (_ & H). destruct (i - k); discriminate.
  - rewrite IH. split.
    + intros [H|(Hle & Hnth)].
      * inversion H; subst. rewrite Nat.sub_diag. auto.
      * split; [lia|]. replace (i - k) with (S (i - S k)) by lia. exact Hnth.
    + intros (Hle & Hnth). destruct (i - k) as [|j] eqn:Hj.
      * left. inversion Hnth. f_equal. lia.
      * right. split; [lia|]. replace (i - S k) with j by lia. exact Hnth.
Qed.

Lemma in_enumerate {A} (l : list A) i x :
  In (i, x) (CreedAudit.enumerate l) <-> nth_error l i = Some x.
Proof.
  unfold CreedAudit.enumerate. rewrite in_combine_seq, Nat.sub_0_r.
  split; [tauto|]. split; [lia|assumption].
Qed.

(** A record is emitted exactly for a rule of the table and a line in which
    the pattern of the rule is found and which is not a comment. *)
Lemma in_violation_records file_path content v :
  In v (CreedAudit.violation_records file_path content)
  <-> exists name pat i line,
        In (name, pat) CreedAudit.forbidden_patterns
        /\ nth_error (Py.split CreedAudit.newline content) i = Some line
        /\ Re.search pat line = true
        /\ CreedAudit.is_comment line = false
        /\ v = CreedAudit.mkViolation file_path (i + 1) name
                 (CreedAudit._format_violation file_path (i + 1) line name).
Proof.
  unfold CreedAudit.violation_records. rewrite in_flat_map. split.
  - intros ((name, pat) & Hrule & Hin). rewrite in_flat_map in Hin.
    destruct Hin as ((i, line) & Hline & Hin).
    apply in_enumerate in Hline.
    destruct (Re.search pat line) eqn:Hs; [|contradiction].
    destruct (CreedAudit.is_comment line) eqn:Hc; [contradiction|].
    destruct Hin as [<-|[]]. exists name, pat, i, line. auto.
  - intros (name & pat & i & line & Hrule & Hline & Hs & Hc & ->).
    exists (name, pat). split; [exact Hrule|]. rewrite in_flat_map.
    exists (i, line). split; [now apply in_enumerate|].
    rewrite Hs, Hc. left. reflexivity.
Qed.

Lemma sorted_app {A} (R : A -> A -> Prop) (l1 l2 : list A) :
  StronglySorted R l1 -> StronglySorted R l2 ->
  (forall a b, In a l1 -> In b l2 -> R a b) ->
  StronglySorted R (l1 ++ l2).
Proof.
  induction 1 as [|a l1 Hs IH Hall]; intros H2 Hcross; simpl; [exact H2|].
  constructor.
  - apply IH; [exact H2|]. intros x y Hx Hy. apply Hcross; simpl; auto.
  - apply Forall_app. split; [exact Hall|].
    apply Forall_forall. intros y Hy. apply Hcross; simpl; auto.
Qed.

(** The records of one rule: line-ascending. *)
Lemma rule_block_sorted file_path name pat (lines : list string) : forall k,
  let block :=
    flat_map
      (fun il : nat * string =>
         let (i, line) := il in
         if Re.search pat line then
           if CreedAudit.is_comment line then []
           else [CreedAudit.mkViolation file_path (i + 1) name
                   (CreedAudit._format_violation file_path (i + 1) line name)]
         else [])
      (combine (List.seq k (Datatypes.length lines)) lines) in
  StronglySorted Observe.key_before block
  /\ forall v, In v block ->
               k + 1 <= CreedAudit.v_line v /\ CreedAudit.v_rule v = name.
Proof.
  induction lines as [|line lines IH]; intros k; simpl.
  - split; [constructor|contradiction].
  - destruct (IH (S k)) as (Hsorted & Hall). clear IH.
    set (rest := flat_map _ (combine (List.seq (S k) _) lines)) in *.
    assert (Hhead : forall l0,
               (l0 = [] \/ l0 = [CreedAudit.mkViolation file_path (k + 1) name
                                   (CreedAudit._format_violation file_path
                                      (k + 1) line name)]) ->
               StronglySorted Observe.key_before (l0 ++ rest)
               /\ forall v, In v (l0 ++ rest) ->
                            k + 1 <= CreedAudit.v_line v
                            /\ CreedAudit.v_rule v = name).
    { intros l0 [->| ->]; simpl.
      - split; [exact Hsorted|]. intros v Hv.
        destruct (Hall v Hv). split; [lia|assumption].
      - split.
        + constructor; [exact Hsorted|]. apply Forall_forall. intros v Hv.
          destruct (Hall v Hv) as (Hle & Hrule).
          unfold Observe.key_before, Observe.lex_lt, Observe.record_key.
          simpl. right. rewrite Hrule. split; [reflexivity|lia].
        + intros v [<-|Hv]; [simpl; split; [lia|reflexivity]|].
          destruct (Hall v Hv). split; [lia|assumption]. }
    apply Hhead.
    destruct (Re.search pat line); [|auto].
    destruct (CreedAudit.is_comment line); auto.
Qed.

(** The position of each rule in the table. *)
Lemma rule_index_nth i name pat :
  nth_error CreedAudit.forbidden_patterns i = Some (name, pat) ->
  CreedAudit.rule_index name = i.
Proof.
  intros H.
  do 9 (destruct i as [|i];
        [cbv [nth_error CreedAudit.forbidden_patterns] in H;
         inversion H; vm_compute; reflexivity|]).
  destruct i; discriminate.
Qed.

Lemma flat_map_sorted_by_rank {A B} (R : B -> B -> Prop) (rank : B -> nat)
      (f : A -> list B) (l : list A) : forall base,
  (forall i x, nth_error l i = Some x ->
               StronglySorted R (f x)
               /\ forall b, In b (f x) -> rank b = base + i) ->
  (forall b1 b2, rank b1 < rank b2 -> R b1 b2) ->
  StronglySorted R (flat_map f l).
Proof.
  induction l as [|a l IH]; intros base Hblocks Hrank; simpl; [constructor|].
  destruct (Hblocks 0 a eq_refl) as (Ha & Hranka).
  apply sorted_app.
  - exact Ha.
  - apply (IH (S base)); [|exact Hrank].
    intros i x Hx. destruct (Hblocks (S i) x Hx) as (Hs & Hr).
    split; [exact Hs|]. intros b Hb. rewrite (Hr b Hb). lia.
  - intros b1 b2 H1 H2. apply Hrank. rewrite (Hranka b1 H1).
    apply in_flat_map in H2. destruct H2 as (x & Hx & Hb2).
    apply In_nth_error in Hx. destruct Hx as (i & Hi).
    destruct (Hblocks (S i) x Hi) as (_ & Hr). rewrite (Hr b2 Hb2). lia.
Qed.

(** The records of a file: rule-major, then line-ascending. *)
Lemma violation_records_sorted (file_path content : string) :
  StronglySorted Observe.key_before
    (CreedAudit.violation_records file_path content).
Proof.
  unfold CreedAudit.violation_records.
  apply flat_map_sorted_by_rank
    with (rank := fun v => CreedAudit.rule_index (CreedAudit.v_rule v))
         (base := 0).
  - intros i (name, pat) Hi.
    destruct (rule_block_sorted file_path name pat
                (Py.split CreedAudit.newline content) 0) as (Hs & Hall).
    split; [exact Hs|]. intros v Hv. destruct (Hall v Hv) as (_ & ->).
    now apply rule_index_nth in Hi.
  - intros v w Hlt. left. exact Hlt.
Qed.

Lemma key_before_distinct v w :
  Observe.key_before v w ->
  Observe.same_key (Observe.record_key v) w = false
  /\ Observe.same_key (Observe.record_key w) v = false.
Proof.
  unfold Observe.key_before, Observe.lex_lt, Observe.same_key.
  intros H. split; apply andb_false_iff;
    destruct (Nat.eqb_spec (fst (Observe.record_key w))
                           (fst (Observe.record_key v))) as [He|He];
    rewrite ?(Nat.eqb_sym (fst (Observe.record_key v)));
    destruct (Nat.eqb_spec (fst (Observe.record_key w))
                           (fst (Observe.record_key v))); try contradiction;
    auto; right; apply Nat.eqb_neq; lia.
Qed.

(** In a list in that strict order, each key occurs once. *)
Lemma sorted_key_unique (l : list CreedAudit.ViolationRecord) :
  StronglySorted Observe.key_before l ->
  forall v, In v l -> filter (Observe.same_key (Observe.record_key v)) l = [v].
Proof.
  induction 1 as [|a l Hs IH Hall]; intros v Hin; [contradiction|].
  rewrite Forall_forall in Hall. simpl. destruct Hin as [<-|Hin].
  - assert (Hself : Observe.same_key (Observe.record_key a) a = true)
      by (unfold Observe.same_key; now rewrite !Nat.eqb_refl).
    rewrite Hself. f_equal.
    clear IH Hs Hself. induction l as [|b l IHl]; [reflexivity|]. simpl.
    destruct (key_before_distinct (Hall b (or_introl eq_refl))) as (-> & _).
    apply IHl. intros x Hx. apply Hall. simpl. auto.
  - destruct (key_before_distinct (Hall v Hin)) as (_ & ->).
    now apply IH.
Qed.

(** The result of an audit depends on the environment only through the
    existence and the content of the files audited. *)
Lemma audit_files_unchanged E (files : list string) : forall t t' vs,
  (forall f, In f files ->
             os_path_exists E t f = os_path_exists E t' f
             /\ open_read E t f = open_read E t' f) ->
  CreedAudit.audit_files E files t = Ok vs t ->
  CreedAudit.audit_files E files t' = Ok vs t'.
Proof.
  induction files as [|f files IH]; intros t t' vs Hsame; simpl.
  - unfold_m. intros H; inversion H; reflexivity.
  - unfold_m.
    destruct (audit_file_total E f t) as (v1 & H1).
    destruct (audit_file_total E f t') as (v1' & H1').
    assert (v1 = v1').
    { revert H1 H1'. unfold CreedAudit.audit_file. unfold_m. cbv beta iota.
      destruct (Hsame f (or_introl eq_refl)) as (Hex & Hread).
      rewrite <- Hex.
      destruct (negb (os_path_exists E t f));
        [|destruct (negb (CreedAudit.is_python_file f));
          [|rewrite <- Hread; destruct (open_read E t f)]];
        intros H H'; inversion H; inversion H'; congruence. }
    subst v1'. rewrite H1, H1'.
    destruct (audit_files_total E files t) as (v2 & H2). rewrite H2.
    rewrite (IH t t' v2); [|intros g Hg; apply Hsame; simpl; auto|exact H2].
    intros H; inversion H; reflexivity.
Qed.

(** C7. Auditing the same files twice in a row, the files being unchanged in
    between, returns the same violations in the same order.  The violations
    of a file are the messages of its records; the records are in strictly
    ascending order of rule (by its place in the table) and then of line, so
    that no two of them have the same rule and line; and there is a record
    for each rule and line where the pattern of the rule is found and the
    line is not a comment. *)
Theorem audit_stable_and_ordered :
  forall (E : Env) (files : list string) (t : Trace),
    ((forall f, In f files ->
         os_path_exists E (t ++ [EvCreedAudit files]) f
         = os_path_exists E ((t ++ [EvCreedAudit files]) ++ [EvCreedAudit files]) f
         /\ open_read E (t ++ [EvCreedAudit files]) f
            = open_read E ((t ++ [EvCreedAudit files]) ++ [EvCreedAudit files]) f) ->
     exists vs,
       CreedAudit.run E files t = Ok vs (t ++ [EvCreedAudit files])
       /\ CreedAudit.run E files (t ++ [EvCreedAudit files])
          = Ok vs ((t ++ [EvCreedAudit files]) ++ [EvCreedAudit files]))
    /\ forall (file_path content : string),
        let records := CreedAudit.violation_records file_path content in
        CreedAudit._check_violations file_path content
        = map CreedAudit.v_message records
        /\ StronglySorted Observe.key_before records
        /\ (forall v, In v records ->
              filter (Observe.same_key (Observe.record_key v)) records = [v])
        /\ (forall name pat i line,
              In (name, pat) CreedAudit.forbidden_patterns ->
              nth_error (Py.split CreedAudit.newline content) i = Some line ->
              Re.search pat line = true ->
              CreedAudit.is_comment line = false ->
              In (CreedAudit.mkViolation file_path (i + 1) name
                    (CreedAudit._format_violation file_path (i + 1) line name))
                 records)
        /\ (os_path_exists E (t ++ [EvCreedAudit [file_path]]) file_path = true ->
            CreedAudit.is_python_file file_path = true ->
            open_read E (t ++ [EvCreedAudit [file_path]]) file_path
            = ReadText content ->
            CreedAudit.run E [file_path] t
            = Ok (CreedAudit._check_violations file_path content)
                 (t ++ [EvCreedAudit [file_path]])).
Proof.
  intros E files t. split.
  - intros Hsame. destruct (audit_run_total E files t) as (vs & Hrun).
    exists vs. split; [exact Hrun|].
    revert Hrun. unfold CreedAudit.run, CreedAudit._run. unfold_m.
    apply audit_files_unchanged. exact Hsame.
  - intros file_path content records.
    split; [apply check_violations_messages|].
    split; [apply violation_records_sorted|].
    split; [apply sorted_key_unique, violation_records_sorted|].
    split.
    + intros name pat i line Hrule Hline Hs Hc.
      apply in_violation_records. exists name, pat, i, line. auto.
    + intros Hex Hpy Hread.
      unfold CreedAudit.run, CreedAudit._run. simpl. unfold_m.
      unfold CreedAudit.audit_file. unfold_m.
      rewrite Hex, Hpy. simpl. rewrite Hread. now rewrite app_nil_r.
Qed.

(** An audit at work, twice in a row: a file with violations of two rules on
    one line and of one rule on two lines, in the order of the table. *)
Lemma audit_twice_example :
  let E := Observe.changed_env
             ("x = None" ++ Py.nl ++ "if x is None: y = mock"
                ++ Py.nl ++ "z = y is None")%string in
  exists vs,
    CreedAudit.run E ["changed.py"%string] [] = Ok vs [EvCreedAudit ["changed.py"%string]]
    /\ CreedAudit.run E ["changed.py"%string] [EvCreedAudit ["changed.py"%string]]
       = Ok vs [EvCreedAudit ["changed.py"%string]; EvCreedAudit ["changed.py"%string]]
    /\ map (fun v => (CreedAudit.v_rule v, CreedAudit.v_line v))
           (CreedAudit.violation_records "changed.py"
              ("x = None" ++ Py.nl ++ "if x is None: y = mock"
                 ++ Py.nl ++ "z = y is None")%string)
       = [("is_none", 2); ("is_none", 3); ("mock", 2);
          ("if_none_fallback", 2)]%string
    /\ Datatypes.length vs = 4.
Proof.
  eexists. split; [vm_compute; reflexivity|].
  split; [vm_compute; reflexivity|]. split; vm_compute; reflexivity.
Qed.

(** C8. In a file whose fifth line is [if x is None:], the records for the
    rule "is_none" at line 5 are exactly one.  In a file whose fifth line is
    the comment [# if x is None:], no record of any rule is at line 5.  For a
    record is emitted only for a line in which the pattern of its rule is
    found and whose stripped form does not begin with "#". *)
Theorem is_none_on_line_five :
  forall (file_path content : string),
    let records := CreedAudit.violation_records file_path content in
    let lines := Py.split CreedAudit.newline content in
    (nth_error lines 4 = Some "if x is None:"%string ->
     filter (fun v => String.eqb "is_none" (CreedAudit.v_rule v)
                      && (CreedAudit.v_line v =? 5)) records
     = [CreedAudit.mkViolation file_path 5 "is_none"
          (CreedAudit._format_violation file_path 5 "if x is None:" "is_none")])
    /\ (nth_error lines 4 = Some "# if x is None:"%string ->
        filter (fun v => CreedAudit.v_line v =? 5) records = [])
    /\ (forall v, In v records ->
          exists pat line,
            In (CreedAudit.v_rule v, pat) CreedAudit.forbidden_patterns
            /\ nth_error lines (CreedAudit.v_line v - 1) = Some line
            /\ Re.search pat line = true
            /\ Py.startswith "#" (Py.strip line) = false)
    /\ CreedAudit._check_violations file_path content
       = map CreedAudit.v_message records.
Proof.
  intros file_path content records lines.
  split; [|split; [|split; [|apply check_violations_messages]]].
  - intros Hline.
    set (v := CreedAudit.mkViolation file_path 5 "is_none"
                (CreedAudit._format_violation file_path 5 "if x is None:"
                   "is_none")).
    assert (Hin : In v records).
    { apply in_violation_records.
      exists "is_none"%string,
             (snd (nth 0 CreedAudit.forbidden_patterns (EmptyString, Re.REps))),
             4, "if x is None:"%string.
      split; [cbv [CreedAudit.forbidden_patterns nth snd In]; auto|].
      split; [exact Hline|].
      split; [vm_compute; reflexivity|].
      split; [vm_compute; reflexivity|reflexivity]. }
    rewrite <- (sorted_key_unique
                  (violation_records_sorted file_path content) v Hin).
    apply filter_ext. intros w.
    unfold Observe.same_key, Observe.record_key, CreedAudit.rule_index.
    cbn [fst snd CreedAudit.v_rule CreedAudit.v_line v].
    change (CreedAudit.index_of CreedAudit.forbidden_patterns "is_none") with 0.
    f_equal. unfold CreedAudit.forbidden_patterns. cbn [CreedAudit.index_of].
    destruct (String.eqb "is_none" (CreedAudit.v_rule w)); reflexivity.
  - intros Hline.
    assert (Hnone : forall v, In v records -> (CreedAudit.v_line v =? 5) = false).
    { intros v Hv. apply in_violation_records in Hv.
      destruct Hv as (name & pat & i & line & _ & Hi & _ & Hc & ->).
      cbn [CreedAudit.v_line]. apply Nat.eqb_neq. intros Hfive.
      assert (i = 4) by lia. subst i. fold lines in Hi.
      rewrite Hline in Hi. inversion Hi; subst line.
      vm_compute in Hc. discriminate. }
    clearbody records. induction records as [|v l IH]; [reflexivity|].
    simpl. rewrite (Hnone v (or_introl eq_refl)).
    apply IH. intros w Hw. apply Hnone. simpl. auto.
  - intros v Hv. apply in_violation_records in Hv.
    destruct Hv as (name & pat & i & line & Hrule & Hi & Hs & Hc & ->).
    exists pat, line. cbn [CreedAudit.v_rule CreedAudit.v_line].
    replace (i + 1 - 1) with i by lia. auto.
Qed.

(** The two files of the scenario: one record for "is_none" at line 5 (and
    one for "if_none_fallback", which the same line triggers), and none at
    all for the comment. *)
Lemma is_none_on_line_five_examples :
  map (fun v => (CreedAudit.v_rule v, CreedAudit.v_line v))
      (CreedAudit.violation_records "a.py" (Observe.five_lines "if x is None:"))
  = [("is_none", 5); ("if_none_fallback", 5)]%string
  /\ CreedAudit._check_violations "a.py" (Observe.five_lines "# if x is None:")
     = []
  /\ nth_error (Py.split CreedAudit.newline (Observe.five_lines "if x is None:")) 4
     = Some "if x is None:"%string.
Proof. repeat split; vm_compute; reflexivity. Qed.

(* ===================================================================== *)
(** ** Further properties of the code *)
(* ===================================================================== *)

(** *** The summary of the log *)

Lemma split_not_nil (sep : ascii) (s : string) : Py.split sep s <> [].
Proof.
  induction s as [|a s IH]; simpl; [discriminate|].
  destruct (Ascii.eqb a sep); [discriminate|].
  destruct (Py.split sep s); [contradiction|discriminate].
Qed.

Lemma count_newlines_split (s : string) :
  Py.count Py.nl s + 1 = Datatypes.length (Py.split CreedAudit.newline s).
Proof.
  unfold Py.count, Py.nl, CreedAudit.newline.
  induction s as [|a s IH]; [reflexivity|].
  cbn [Py.count_from Py.startswith Py.split String.length Nat.sub].
  rewrite (Ascii.eqb_sym (ascii_of_nat 10) a), andb_true_r.
  destruct (Ascii.eqb a (ascii_of_nat 10)).
  - cbn [Datatypes.length]. rewrite <- IH. lia.
  - rewrite IH.
    pose proof (split_not_nil (ascii_of_nat 10) s) as Hne.
    destruct (Py.split (ascii_of_nat 10) s); [contradiction|reflexivity].
Qed.

(** X1. The first line of the summary gives as the number of lines the
    number of fields that splitting the log at newlines yields, which is one
    more than the number of newlines: never zero, and one more than the
    lines of a log that ends with a newline. *)
Theorem summary_line_count :
  forall (log : string) (last_error : option string) (elapsed : string),
    exists rest,
      LogTail._generate_summary log last_error elapsed
      = ("Log Summary ("
           ++ Py.str_of_nat (Datatypes.length (Py.split CreedAudit.newline log))
           ++ " lines, runtime: " ++ elapsed ++ "):" ++ rest)%string
      /\ Datatypes.length (Py.split CreedAudit.newline log)
         = Py.count Py.nl log + 1
      /\ Datatypes.length (Py.split CreedAudit.newline (log ++ Py.nl))
         = Datatypes.length (Py.split CreedAudit.newline log) + 1.
Proof.
  intros log last_error elapsed.
  eexists. split; [|split].
  - unfold LogTail._generate_summary, Py.join.
    rewrite count_newlines_split, !append_assoc. reflexivity.
  - now rewrite count_newlines_split.
  - induction log as [|a log IH]; [reflexivity|].
    cbn [String.append Py.split].
    destruct (Ascii.eqb a CreedAudit.newline).
    + cbn [Datatypes.length]. now rewrite IH.
    + pose proof (split_not_nil CreedAudit.newline log) as H1.
      pose proof (split_not_nil CreedAudit.newline (log ++ Py.nl)) as H2.
      destruct (Py.split CreedAudit.newline (log ++ Py.nl));
        [contradiction|].
      destruct (Py.split CreedAudit.newline log); [contradiction|].
      exact IH.
Qed.

(** *** The audit of several files *)

Lemma audit_files_app E (l1 l2 : list string) t v1 v2 :
  CreedAudit.audit_files E l1 t = Ok v1 t ->
  CreedAudit.audit_files E l2 t = Ok v2 t ->
  CreedAudit.audit_files E (l1 ++ l2) t = Ok (v1 ++ v2) t.
Proof.
  revert v1. induction l1 as [|f l1 IH]; intros v1 H1 H2; simpl in *.
  - unfold_m. inversion H1; subst. exact H2.
  - unfold_m. destruct (audit_file_total E f t) as (vf & Hf).
    rewrite Hf in *.
    destruct (audit_files_total E l1 t) as (w1 & Hw1). rewrite Hw1 in H1.
    rewrite (IH w1 Hw1 H2). inversion H1; subst.
    now rewrite app_assoc.
Qed.

(** X5. The violations of a list of files are those of its files, one
    after the other in the order of the list: auditing [l1 ++ l2] gives the
    violations of [l1] followed by those of [l2].  A file that does not
    exist gives the single violation "File not found: ..." whatever its
    extension, and an existing file that is not a Python file gives none. *)
Theorem audit_of_concatenation :
  forall (E : Env) (l1 l2 : list string) (t : Trace),
    (exists v1 v2,
        CreedAudit._run E l1 t = Ok v1 t
        /\ CreedAudit._run E l2 t = Ok v2 t
        /\ CreedAudit._run E (l1 ++ l2) t = Ok (v1 ++ v2) t)
    /\ (forall f, os_path_exists E t f = false ->
                  CreedAudit._run E [f] t
                  = Ok [("File not found: " ++ f)%string] t)
    /\ (forall f, os_path_exists E t f = true ->
                  CreedAudit.is_python_file f = false ->
                  CreedAudit._run E [f] t = Ok [] t).
Proof.
  intros E l1 l2 t. unfold CreedAudit._run. split; [|split].
  - destruct (audit_files_total E l1 t) as (v1 & H1).
    destruct (audit_files_total E l2 t) as (v2 & H2).
    exists v1, v2. split; [exact H1|]. split; [exact H2|].
    now apply audit_files_app.
  - intros f Hex. simpl. unfold CreedAudit.audit_file. unfold_m.
    rewrite Hex. reflexivity.
  - intros f Hex Hpy. simpl. unfold CreedAudit.audit_file. unfold_m.
    rewrite Hex, Hpy. reflexivity.
Qed.

(** *** The size of a scan *)

Lemma flat_map_length_le {A B} (f : A -> list B) (k : nat) (l : list A) :
  (forall x, Datatypes.length (f x) <= k) ->
  Datatypes.length (flat_map f l) <= k * Datatypes.length l.
Proof.
  intros Hf. induction l as [|a l IH]; simpl; [lia|].
  rewrite length_app. specialize (Hf a). lia.
Qed.

(** X6. A file yields at most one violation for each rule of the table and
    each line: at most nine times the number of its lines. *)
Theorem violations_bounded :
  forall (file_path content : string),
    Datatypes.length (CreedAudit._check_violations file_path content)
    <= 9 * Datatypes.length (Py.split CreedAudit.newline content).
Proof.
  intros file_path content. unfold CreedAudit._check_violations.
  set (lines := Py.split CreedAudit.newline content).
  assert (Hblock : forall rule : string * Re.regex,
             Datatypes.length
               ((let (pattern_name, pattern) := rule in
                 flat_map
                   (fun il : nat * string =>
                      let (i, line) := il in
                      if Re.search pattern line then
                        if CreedAudit.is_comment line then []
                        else [CreedAudit._format_violation file_path (i + 1)
                                line pattern_name]
                      else [])
                   (CreedAudit.enumerate lines)))
             <= Datatypes.length lines).
  { intros (name, pat).
    eapply Nat.le_trans; [apply flat_map_length_le with (k := 1)|].
    - intros (i, line). destruct (Re.search pat line); [|simpl; lia].
      destruct (CreedAudit.is_comment line); simpl; lia.
    - unfold CreedAudit.enumerate.
      rewrite length_combine, length_seq. lia. }
  eapply Nat.le_trans; [apply flat_map_length_le, Hblock|].
  change (Datatypes.length CreedAudit.forbidden_patterns) with 9. lia.
Qed.

(** X7. A file all of whose lines are comments, indented or not, yields no
    violation, whatever the comments contain. *)
Theorem comments_yield_no_violation :
  forall (file_path content : string),
    (forall line, In line (Py.split CreedAudit.newline content) ->
                  Py.startswith "#" (Py.strip line) = true) ->
    CreedAudit._check_violations file_path content = [].
Proof.
  intros file_path content Hall.
  rewrite check_violations_messages.
  destruct (CreedAudit.violation_records file_path content) as [|v l] eqn:Hr;
    [reflexivity|].
  assert (Hin : In v (CreedAudit.violation_records file_path content))
    by (rewrite Hr; simpl; auto).
  apply in_violation_records in Hin.
  destruct Hin as (name & pat & i & line & _ & Hi & _ & Hc & _).
  apply nth_error_In in Hi. apply Hall in Hi.
  unfold CreedAudit.is_comment in Hc. congruence.
Qed.

Lemma comments_yield_no_violation_witness :
  CreedAudit._check_violations "a.py"
    ("# if x is None:" ++ Py.nl ++ "    # def f(**kwargs): pass")%string
  = [].
Proof.
  apply comments_yield_no_violation.
  intros line Hin. vm_compute in Hin.
  destruct Hin as [<-|[<-|[]]]; vm_compute; reflexivity.
Defined.

(** *** The changed files *)

(** X13. [_get_changed_files] never raises and has no effect.  Each file it
    returns is a non-empty line of the stripped output of git that ends in
    ".py", ".pyx" or ".pyi"; when git raises or ends with a return code other
    than 0, no file is returned. *)
Theorem changed_files_are_python :
  forall (E : Env) (t : Trace),
  exists files,
    Watchdog._get_changed_files E t = Ok files t
    /\ (forall f, In f files ->
          f <> EmptyString
          /\ CreedAudit.is_python_file f = true
          /\ exists stdout,
              subprocess_git_diff E t = GitCompleted 0 stdout
              /\ In f (Py.split CreedAudit.newline (Py.strip stdout)))
    /\ (subprocess_git_diff E t = GitException -> files = [])
    /\ (forall returncode stdout,
          subprocess_git_diff E t = GitCompleted returncode stdout ->
          returncode <> 0%Z -> files = []).
Proof.
  intros E t. unfold Watchdog._get_changed_files. unfold_m.
  destruct (subprocess_git_diff E t) as [rc out|].
  - destruct (rc =? 0)%Z eqn:Hrc.
    + apply Z.eqb_eq in Hrc. subst rc.
      eexists. split; [reflexivity|]. split; [|split].
      * intros f Hf. apply filter_In in Hf. destruct Hf as (Hin & Hok).
        apply andb_true_iff in Hok. destruct Hok as (Hne & Hpy).
        split; [intros ->; discriminate|]. split; [exact Hpy|].
        exists out. auto.
      * discriminate.
      * intros rc' out' H Hnz. inversion H; subst. contradiction.
    + exists []. split; [reflexivity|]. split; [intros f []|]. auto.
  - exists []. split; [reflexivity|]. split; [intros f []|]. auto.
Qed.

(** *** The latest scroll *)

Lemma sort_desc_nil {A} (key : A -> Z) (l : list A) :
  Watchdog.sort_desc key l = [] -> l = [].
Proof.
  destruct l as [|a l]; [reflexivity|]. simpl.
  destruct (Watchdog.sort_desc key l) as [|b r]; simpl; [discriminate|].
  destruct (key b <=? key a)%Z; discriminate.
Qed.

(** The head of the sorted list is the first element of the list among
    those of the largest key. *)
Lemma sort_desc_head {A} (key : A -> Z) (l : list A) : forall x r,
  Watchdog.sort_desc key l = x :: r ->
  exists pre post,
    l = pre ++ x :: post
    /\ (forall y, In y pre -> (key y < key x)%Z)
    /\ (forall y, In y post -> (key y <= key x)%Z).
Proof.
  induction l as [|a l IH]; intros x r; simpl; [discriminate|].
  destruct (Watchdog.sort_desc key l) as [|b r'] eqn:Hs.
  - apply sort_desc_nil in Hs. subst l. simpl. intros H. inversion H; subst.
    exists [], []. split; [reflexivity|]. split; intros y [].
  - destruct (IH b r' eq_refl) as (pre & post & Hl & Hpre & Hpost).
    simpl. destruct (key b <=? key a)%Z eqn:Hle.
    + apply Z.leb_le in Hle. intros H. inversion H; subst x.
      exists [], l. split; [reflexivity|]. split; [intros y []|].
      intros y Hy. rewrite Hl in Hy. apply in_app_or in Hy.
      destruct Hy as [Hy|[<-|Hy]].
      * specialize (Hpre y Hy). lia.
      * exact Hle.
      * specialize (Hpost y Hy). lia.
    + apply Z.leb_gt in Hle. intros H. inversion H; subst x.
      exists (a :: pre), post. split; [now rewrite Hl|].
      split; [|exact Hpost].
      intros y [<-|Hy]; [exact Hle|now apply Hpre].
Qed.

Lemma with_keys_spec {A} (key : A -> option Z) (l : list A) : forall ks,
  Watchdog.with_keys key l = Some ks ->
  map fst ks = l /\ forall p, In p ks -> key (fst p) = Some (snd p).
Proof.
  induction l as [|a l IH]; intros ks; simpl.
  - intros H; inversion H. split; [reflexivity|intros p []].
  - destruct (key a) as [k|] eqn:Hk; [|discriminate].
    destruct (Watchdog.with_keys key l) as [r|]; [|discriminate].
    intros H; inversion H; subst ks. destruct (IH r eq_refl) as (Hm & Hall).
    split; [simpl; now rewrite Hm|].
    intros p [<-|Hp]; [exact Hk|now apply Hall].
Qed.

Lemma with_keys_none {A} (key : A -> option Z) (l : list A) y :
  In y l -> key y = None -> Watchdog.with_keys key l = None.
Proof.
  induction l as [|a l IH]; intros Hin Hy; [contradiction|]. simpl.
  destruct Hin as [->|Hin]; [now rewrite Hy|].
  rewrite (IH Hin Hy). destruct (key a); reflexivity.
Qed.

(** X14. [_get_latest_scroll] never raises and has no effect.  The scroll it
    returns is one of those that the listing of "./.scrolls/*.md" gave, of
    the latest modification time, and the first of these in the order of the
    listing.  It returns none when the directory does not exist, when the
    listing raises or is empty, and when the modification time of any scroll
    listed cannot be read. *)
Theorem latest_scroll_is_newest :
  forall (E : Env) (t : Trace),
  exists latest,
    Watchdog._get_latest_scroll E t = Ok latest t
    /\ (forall x, latest = Some x ->
          exists pre post m,
            glob_glob E t "./.scrolls/*.md" = Some (pre ++ x :: post)
            /\ os_path_getmtime E t x = Some m
            /\ (forall y, In y pre ->
                  exists k, os_path_getmtime E t y = Some k /\ (k < m)%Z)
            /\ (forall y, In y post ->
                  exists k, os_path_getmtime E t y = Some k /\ (k <= m)%Z))
    /\ (os_path_exists E t "./.scrolls" = false -> latest = None)
    /\ (glob_glob E t "./.scrolls/*.md" = None -> latest = None)
    /\ (glob_glob E t "./.scrolls/*.md" = Some [] -> latest = None)
    /\ (forall scrolls y,
          glob_glob E t "./.scrolls/*.md" = Some scrolls ->
          In y scrolls -> os_path_getmtime E t y = None -> latest = None).
Proof.
  intros E t. unfold Watchdog._get_latest_scroll. unfold_m.
  change (Paths.SCROLLS ++ "/" ++ "*.md")%string with "./.scrolls/*.md"%string.
  change Paths.SCROLLS with "./.scrolls"%string.
  destruct (os_path_exists E t "./.scrolls"); simpl.
  2:{ exists None. split; [reflexivity|]. split; [discriminate|].
      repeat split; reflexivity. }
  destruct (glob_glob E t "./.scrolls/*.md") as [[|s0 scrolls]|] eqn:Hglob.
  3:{ exists None. split; [reflexivity|]. split; [discriminate|].
      repeat split; reflexivity. }
  1:{ exists None. split; [reflexivity|]. split; [discriminate|].
      repeat split; reflexivity. }
  destruct (Watchdog.with_keys (os_path_getmtime E t) (s0 :: scrolls))
    as [ks|] eqn:Hkeys.
  2:{ exists None. split; [reflexivity|]. split; [discriminate|].
      repeat split; reflexivity. }
  destruct (with_keys_spec _ _ Hkeys) as (Hmap & Hall).
  destruct (Watchdog.sort_desc snd ks) as [|(x, m) r] eqn:Hsort.
  { apply sort_desc_nil in Hsort. subst ks. discriminate. }
  exists (Some x). split; [reflexivity|]. split.
  - intros x' Hx'. inversion Hx'; subst x'.
    destruct (sort_desc_head snd ks Hsort) as (pre & post & Hks & Hpre & Hpost).
    exists (map fst pre), (map fst post), m.
    assert (Hin : forall p, In p pre \/ In p post \/ p = (x, m) -> In p ks).
    { intros p Hp. rewrite Hks. apply in_or_app. simpl. intuition. }
    split; [|split; [|split]].
    + rewrite <- Hmap, Hks, map_app. reflexivity.
    + apply (Hall (x, m)). apply Hin. auto.
    + intros y Hy. apply in_map_iff in Hy. destruct Hy as (p & <- & Hp).
      exists (snd p). split; [apply Hall, Hin; auto|].
      apply (Hpre p Hp).
    + intros y Hy. apply in_map_iff in Hy. destruct Hy as (p & <- & Hp).
      exists (snd p). split; [apply Hall, Hin; auto|].
      apply (Hpost p Hp).
  - split; [discriminate|]. split; [discriminate|]. split; [discriminate|].
    intros scrolls' y Hs Hy Hnone. inversion Hs; subst scrolls'.
    rewrite (with_keys_none _ _ _ Hy Hnone) in Hkeys. discriminate.
Qed.

(** Three scrolls, the last two of the same, latest time: the second is
    returned. *)
Lemma latest_scroll_example :
  Watchdog._get_latest_scroll (Effects.scrolls_env "plan") []
  = Ok (Some "./.scrolls/b.md"%string) [].
Proof. vm_compute. reflexivity. Qed.

(** *** The effects of a page *)

Lemma drop_append (s p : string) : Py.drop (String.length s) (s ++ p) = p.
Proof. induction s as [|a s IH]; simpl; auto. Qed.

Lemma endswith_append (s p : string) : Py.endswith p (s ++ p) = true.
Proof.
  unfold Py.endswith. rewrite append_length.
  replace (String.length s + String.length p - String.length p)
    with (String.length s) by lia.
  rewrite drop_append, String.eqb_refl, andb_true_r.
  apply Nat.leb_le. lia.
Qed.

Lemma scroll_path_shape (stamp title : string) :
  let path := (".scrolls/" ++ stamp ++ "-page-" ++ Pager.safe_title title
                 ++ ".md")%string in
  Py.startswith ".scrolls/" path = true /\ Py.endswith ".md" path = true.
Proof.
  split; [apply startswith_refl|].
  rewrite <- !append_assoc. apply endswith_append.
Qed.

(** X12. A call of the pager sends at most one request and writes at most
    one file.  Without both credentials it sends no request.  When it
    returns "pushover" it has sent one request, carrying the title, body and
    priority of the call, and has touched no file; when it returns
    "ninjascroll" it has written one file, a ".md" file under ".scrolls/",
    whose content is made of the title and body alone. *)
Theorem pager_effects :
  forall (E : Env) (i : PagerInput) (t : Trace),
  exists o new,
    Pager.run E i t = Ok o (t ++ new)
    /\ Datatypes.length (Effects.posts new) <= 1
    /\ Datatypes.length (Effects.writes new) <= 1
    /\ ((Pager.missing (os_getenv E t "PUSHOVER_USER_KEY")
         || Pager.missing (os_getenv E t "PUSHOVER_API_TOKEN")) = true ->
        Effects.posts new = [])
    /\ (pager_method o = "pushover"%string ->
        Effects.writes new = [] /\ Effects.makedirs new = []
        /\ exists d,
            Effects.posts new = [d]
            /\ post_title d = title i /\ post_message d = body i
            /\ post_priority d = priority i)
    /\ (pager_method o = "ninjascroll"%string ->
        exists path,
          Effects.writes new = [(path, Pager.scroll_content (title i) (body i))]
          /\ Py.startswith ".scrolls/" path = true
          /\ Py.endswith ".md" path = true).
Proof.
  intros E i t.
  assert (Hfallback : forall u (sent : list PostData),
             Datatypes.length sent <= 1 ->
             exists o new,
               Sys.bind (Pager._create_ninjascroll E (title i) (body i))
                 (fun r : bool =>
                    if r then Sys.ret (mkPagerOutput "success" "ninjascroll")
                    else Sys.ret (mkPagerOutput "failure" "none")) u
               = Ok o (u ++ new)
               /\ Effects.posts new = []
               /\ Datatypes.length (Effects.writes new) <= 1
               /\ pager_method o <> "pushover"%string
               /\ (pager_method o = "ninjascroll"%string ->
                   exists path,
                     Effects.writes new
                     = [(path, Pager.scroll_content (title i) (body i))]
                     /\ Py.startswith ".scrolls/" path = true
                     /\ Py.endswith ".md" path = true)).
  { intros u sent _. unfold Pager._create_ninjascroll. unfold_m.
    destruct (os_makedirs E u ".scrolls"); cbn [negb].
    - cbv beta iota.
      destruct (open_write E (u ++ [EvMakedirs ".scrolls"]) _ _);
        normalise_trace; eexists _, _; (split; [reflexivity|]);
        (split; [reflexivity|]); (split; [simpl; lia|]);
        (split; [discriminate|]); try discriminate.
      intros _. eexists. split; [reflexivity|]. apply scroll_path_shape.
    - cbv beta iota. eexists _, _. split; [reflexivity|].
      split; [reflexivity|]. split; [simpl; lia|].
      split; discriminate. }
  unfold Pager.run.
  assert (Hrun : exists o new,
             Pager._run E i t = Ok o (t ++ new)
             /\ Datatypes.length (Effects.posts new) <= 1
             /\ Datatypes.length (Effects.writes new) <= 1
             /\ ((Pager.missing (os_getenv E t "PUSHOVER_USER_KEY")
                  || Pager.missing (os_getenv E t "PUSHOVER_API_TOKEN")) = true ->
                 Effects.posts new = [])
             /\ (pager_method o = "pushover"%string ->
                 Effects.writes new = [] /\ Effects.makedirs new = []
                 /\ exists d,
                     Effects.posts new = [d]
                     /\ post_title d = title i /\ post_message d = body i
                     /\ post_priority d = priority i)
             /\ (pager_method o = "ninjascroll"%string ->
                 exists path,
                   Effects.writes new
                   = [(path, Pager.scroll_content (title i) (body i))]
                   /\ Py.startswith ".scrolls/" path = true
                   /\ Py.endswith ".md" path = true)).
  { unfold Pager._run, Pager._send_pushover.
    unfold Sys.bind at 1 2 3. unfold Sys.ask at 1 2.
    destruct (Pager.missing (os_getenv E t "PUSHOVER_USER_KEY")
              || Pager.missing (os_getenv E t "PUSHOVER_API_TOKEN")) eqn:Hm.
    - unfold Sys.ret at 1.
      destruct (Hfallback t [] (Nat.le_0_l 1))
        as (o & new & -> & Hposts & Hwrites & Hnot & Hscroll).
      exists o, new. split; [reflexivity|]. rewrite Hposts.
      split; [simpl; lia|]. split; [exact Hwrites|]. split; [reflexivity|].
      split; [intros H; contradiction|exact Hscroll].
    - unfold Sys.bind at 1 2. unfold Sys.ask at 1. unfold Sys.emit at 1.
      match goal with |- context [requests_post E t ?d] =>
        set (data := d); destruct (requests_post E t data) as [code|] end.
      + unfold Sys.ret at 1. destruct (code =? 200)%Z.
        * unfold Sys.ret. eexists _, [EvPost data].
          split; [reflexivity|]. simpl. split; [lia|]. split; [lia|].
          split; [discriminate|]. split; [|discriminate].
          intros _. split; [reflexivity|]. split; [reflexivity|].
          exists data. repeat split.
        * destruct (Hfallback (t ++ [EvPost data]) [data] (Nat.le_refl 1))
            as (o & new & -> & Hposts & Hwrites & Hnot & Hscroll).
          exists o, ([EvPost data] ++ new). rewrite app_assoc.
          split; [reflexivity|]. simpl. rewrite Hposts.
          split; [simpl; lia|]. split; [exact Hwrites|].
          split; [discriminate|].
          split; [intros H; contradiction|exact Hscroll].
      + unfold Sys.ret at 1.
        destruct (Hfallback (t ++ [EvPost data]) [data] (Nat.le_refl 1))
          as (o & new & -> & Hposts & Hwrites & Hnot & Hscroll).
        exists o, ([EvPost data] ++ new). rewrite app_assoc.
        split; [reflexivity|]. simpl. rewrite Hposts.
        split; [simpl; lia|]. split; [exact Hwrites|].
        split; [discriminate|].
        split; [intros H; contradiction|exact Hscroll]. }
  destruct Hrun as (o & new & Hrun & Hp & Hw & Hmiss & Hpush & Hscroll).
  unfold_m. rewrite Hrun.
  exists o, (new ++ [EvPager i o]). rewrite app_assoc.
  split; [reflexivity|].
  assert (Hposts : Effects.posts (new ++ [EvPager i o]) = Effects.posts new).
  { clear. induction new as [|e new IH]; simpl; [reflexivity|].
    destruct e; simpl; now rewrite IH. }
  assert (Hwrites : Effects.writes (new ++ [EvPager i o]) = Effects.writes new).
  { clear. induction new as [|e new IH]; simpl; [reflexivity|].
    destruct e; simpl; now rewrite IH. }
  assert (Hdirs : Effects.makedirs (new ++ [EvPager i o]) = Effects.makedirs new).
  { clear. induction new as [|e new IH]; simpl; [reflexivity|].
    destruct e; simpl; now rewrite IH. }
  rewrite Hposts, Hwrites, Hdirs. auto.
Qed.

(** *** The name of the scroll *)

Lemma chars_append (s u : string) :
  Effects.chars (s ++ u) = Effects.chars s ++ Effects.chars u.
Proof. induction s as [|a s IH]; simpl; [reflexivity|now rewrite IH]. Qed.

Lemma replace_char_chars (a : ascii) (r s : string) (c : ascii) :
  In c (Effects.chars (Py.replace_char a r s)) ->
  (c <> a /\ In c (Effects.chars s)) \/ In c (Effects.chars r).
Proof.
  induction s as [|b s IH]; simpl; [contradiction|].
  rewrite chars_append. intros H. apply in_app_or in H.
  destruct H as [H|H].
  - destruct (Ascii.eqb a b) eqn:Hab; [right; exact H|].
    simpl in H. destruct H as [<-|[]]. left.
    apply Ascii.eqb_neq in Hab. split; [congruence|auto].
  - destruct (IH H) as [(Hne & Hin)|Hin]; [left; auto|right; exact Hin].
Qed.

Lemma lower_char_not_capital (a : ascii) :
  (65 <=? Py.code (Py.lower_char a)) && (Py.code (Py.lower_char a) <=? 90)
  = false.
Proof.
  destruct a as [[] [] [] [] [] [] [] []]; vm_compute; reflexivity.
Qed.

Lemma lower_chars (s : string) (c : ascii) :
  In c (Effects.chars (Py.lower s)) -> exists a, c = Py.lower_char a.
Proof.
  induction s as [|b s IH]; simpl; [contradiction|].
  intros [<-|H]; [eexists; reflexivity|auto].
Qed.

(** X11. The title as it goes into the name of the scroll contains no
    space, colon, slash or backslash, and no capital letter from A to Z: the
    name of the scroll cannot leave the directory through the title. *)
Theorem safe_title_is_safe :
  forall (title : string),
    Forall (fun c : ascii =>
              c <> " "%char /\ c <> ":"%char /\ c <> "/"%char
              /\ c <> "\"%char
              /\ (65 <=? Py.code c) && (Py.code c <=? 90) = false)
           (Effects.chars (Pager.safe_title title)).
Proof.
  intros title. apply Forall_forall. intros c Hc.
  unfold Pager.safe_title in Hc.
  assert (Hdash : In c (Effects.chars "-") ->
                  c <> " "%char /\ c <> ":"%char /\ c <> "/"%char
                  /\ c <> "\"%char
                  /\ (65 <=? Py.code c) && (Py.code c <=? 90) = false).
  { intros [<-|[]]. repeat split; try discriminate. }
  apply replace_char_chars in Hc. destruct Hc as [(H1 & Hc)|Hc]; [|auto].
  apply replace_char_chars in Hc. destruct Hc as [(H2 & Hc)|Hc]; [|auto].
  apply replace_char_chars in Hc. destruct Hc as [(H3 & Hc)|[]].
  apply replace_char_chars in Hc. destruct Hc as [(H4 & Hc)|Hc]; [|auto].
  apply lower_chars in Hc. destruct Hc as (a & ->).
  repeat split; auto. apply lower_char_not_capital.
Qed.

Lemma safe_title_example :
  Pager.safe_title "Plan critique: 45/100" = "plan-critique-45-100"%string.
Proof. vm_compute. reflexivity. Qed.

(** *** Rejected arguments *)

(** X18. When the arguments have no "event", or one that is not a string,
    or a string other than the three event names, or when "scroll_path" is
    neither absent, [None] nor a string, [supervise_cycle] returns the error
    report with the message of the validation and calls no tool: the trace
    is unchanged. *)
Theorem rejected_arguments :
  forall (E : Env) (args : Args) (t : Trace),
    let error_reply :=
      Server.ReplyDict (validation_message E args)
        (Watchdog.mkWatchOutput "error" []
           [("Internal error: " ++ validation_message E args)%string] false) in
    (Server.lookup args "event" = None ->
     Server.supervise_cycle E args t = Ok error_reply t)
    /\ (forall v, Server.lookup args "event" = Some v ->
                  (forall s, v <> PyStr s) ->
                  Server.supervise_cycle E args t = Ok error_reply t)
    /\ (forall s, Server.lookup args "event" = Some (PyStr s) ->
                  s <> "cycle_end"%string -> s <> "manual_check"%string ->
                  s <> "scroll_committed"%string ->
                  Server.supervise_cycle E args t = Ok error_reply t)
    /\ (forall z, Server.lookup args "scroll_path" = Some (PyInt z) ->
                  Server.supervise_cycle E args t = Ok error_reply t)
    /\ (forall b, Server.lookup args "scroll_path" = Some (PyBool b) ->
                  Server.supervise_cycle E args t = Ok error_reply t).
Proof.
  intros E args t error_reply.
  assert (Hev : Server.parse_event args = None ->
                Server.supervise_cycle E args t = Ok error_reply t).
  { intros H. unfold Server.supervise_cycle, Server.supervise_body,
      Server.validate. unfold_m. rewrite H. reflexivity. }
  assert (Hsp : Server.parse_scroll_path args = None ->
                Server.supervise_cycle E args t = Ok error_reply t).
  { intros H. unfold Server.supervise_cycle, Server.supervise_body,
      Server.validate. unfold_m. rewrite H.
    destruct (Server.parse_event args); reflexivity. }
  split; [|split; [|split; [|split]]].
  - intros H. apply Hev. unfold Server.parse_event. now rewrite H.
  - intros v H Hv. apply Hev. unfold Server.parse_event. rewrite H.
    destruct v; try reflexivity. exfalso. eapply Hv. reflexivity.
  - intros s H H1 H2 H3. apply Hev. unfold Server.parse_event. rewrite H.
    apply String.eqb_neq in H1, H2, H3. now rewrite H1, H2, H3.
  - intros z H. apply Hsp. unfold Server.parse_scroll_path. now rewrite H.
  - intros b H. apply Hsp. unfold Server.parse_scroll_path. now rewrite H.
Qed.

(** *** The lint agent *)

(** X19. The lint agent never raises, has no effect and never reports an
    issue.  When the code is handed over, the file is not read: the result
    is the same in every environment.  When it is not, a file that cannot be
    read gives the summary "Error reading file: ...", also for a file that
    is not a Python file.  A file that is not a ".py" file is skipped
    whatever the code. *)
Theorem lint_agent_reports_nothing :
  forall (E : Env) (input_obj : LintAgent.LintInput) (t : Trace),
  exists out,
    LintAgent.run E input_obj t = Ok out t
    /\ LintAgent.issues out = []
    /\ (forall code E' t',
          LintAgent.code input_obj = Some code ->
          LintAgent.run E' input_obj t' = Ok out t')
    /\ (forall msg,
          LintAgent.code input_obj = None ->
          open_read E t (LintAgent.file_path input_obj) = ReadException msg ->
          LintAgent.summary out = ("Error reading file: " ++ msg)%string)
    /\ (forall code,
          (LintAgent.code input_obj = Some code
           \/ (LintAgent.code input_obj = None
               /\ open_read E t (LintAgent.file_path input_obj) = ReadText code)) ->
          Py.endswith ".py" (LintAgent.file_path input_obj) = false ->
          LintAgent.summary out = "Not a Python file, skipping lint"%string).
Proof.
  intros E [path code] t. unfold LintAgent.run. simpl.
  assert (Hnone : forall c, LintAgent.issues (LintAgent.lint_code path c) = []).
  { intros c. unfold LintAgent.lint_code. repeat case_step; reflexivity. }
  assert (Hskip : forall c, Py.endswith ".py" path = false ->
                            LintAgent.summary (LintAgent.lint_code path c)
                            = "Not a Python file, skipping lint"%string).
  { intros c H. unfold LintAgent.lint_code. now rewrite H. }
  destruct code as [code|].
  - eexists. split; [reflexivity|]. split; [apply Hnone|].
    split; [intros c E' t' H; reflexivity|].
    split; [discriminate|].
    intros c [H|(H & _)] Hpy; [|discriminate].
    inversion H; subst. now apply Hskip.
  - unfold_m. destruct (open_read E t path) as [c|msg].
    + eexists. split; [reflexivity|]. split; [apply Hnone|].
      split; [discriminate|]. split; [discriminate|].
      intros c' [H|(_ & H)] Hpy; [discriminate|].
      inversion H; subst. now apply Hskip.
    + eexists. split; [reflexivity|]. split; [reflexivity|].
      split; [discriminate|].
      split; [intros m _ H; inversion H; reflexivity|].
      intros c' [H|(_ & H)] _; discriminate.
Qed.

(** *** How the handlers account for their pages *)

Lemma well_reported_none (actions : list string) (new : Trace) :
  Observe.pager_calls new = [] -> Effects.well_reported actions [] new.
Proof.
  intros H. unfold Effects.well_reported. rewrite H.
  split; [tauto|]. split; intros i o [].
Qed.

Lemma well_reported_after_page actions issue issues i o (new : Trace) :
  Observe.pager_calls new = [(i, o)] ->
  o = mkPagerOutput "success" "pushover"
  \/ o = mkPagerOutput "success" "ninjascroll"
  \/ o = mkPagerOutput "failure" "none" ->
  let h := Watchdog.after_page actions (issue :: issues) o in
  Effects.well_reported (Watchdog.h_actions_taken h)
                        (Watchdog.h_issues_found h) new.
Proof.
  intros Hcalls Ho h. unfold Effects.well_reported. rewrite Hcalls.
  subst h. unfold Watchdog.after_page, Watchdog.snoc, Observe.delivered.
  destruct Ho as [-> | [-> | ->]]; simpl;
    (split; [split; discriminate|]);
    split; intros i' o' [H|[]]; inversion H; subst; simpl;
    try discriminate; intros _;
    first [ apply in_or_app; simpl; now auto
          | right; apply in_or_app; simpl; now auto ].
Qed.

Lemma well_reported_app a1 i1 n1 a2 i2 n2 (mid : list string) :
  Effects.well_reported a1 i1 n1 -> Effects.well_reported a2 i2 n2 ->
  Effects.well_reported (a1 ++ mid ++ a2) (i1 ++ i2) (n1 ++ n2).
Proof.
  unfold Effects.well_reported.
  intros (He1 & Hf1 & Hd1) (He2 & Hf2 & Hd2). rewrite pager_calls_app.
  split; [|split].
  - split; intros H; apply app_eq_nil in H; destruct H as (H1 & H2).
    + apply He1 in H1. apply He2 in H2. now rewrite H1, H2.
    + apply He1 in H1. apply He2 in H2. now rewrite H1, H2.
  - intros i o Hin Hd. apply in_app_or in Hin. apply in_or_app.
    destruct Hin; [left; eapply Hf1|right; eapply Hf2]; eassumption.
  - intros i o Hin Hd. apply in_app_or in Hin. apply in_or_app.
    destruct Hin as [Hin|Hin]; [left; eapply Hd1; eassumption|].
    right. apply in_or_app. right. eapply Hd2; eassumption.
Qed.

Lemma well_reported_more_actions a i (n : Trace) (extra : list string) :
  Effects.well_reported a i n -> Effects.well_reported (a ++ extra) i n.
Proof.
  unfold Effects.well_reported. intros (He & Hf & Hd).
  split; [exact He|]. split; [exact Hf|].
  intros j o Hin Hdel. apply in_or_app. left. eapply Hd; eassumption.
Qed.

Lemma handle_cycle_end_reported E t :
  (exists msg new,
      Watchdog._handle_cycle_end E t = Raise msg (t ++ new)
      /\ Observe.pager_calls new = [])
  \/ (exists h new,
         Watchdog._handle_cycle_end E t = Ok h (t ++ new)
         /\ Effects.well_reported (Watchdog.h_actions_taken h)
                                  (Watchdog.h_issues_found h) new).
Proof.
  pose proof (log_run_trace E 500 t) as Htr.
  unfold Watchdog._handle_cycle_end. unfold_m.
  destruct (LogTail.run E 500 t) as [lr t1|msg t1] eqn:Hlog;
    simpl in Htr; subst t1.
  2:{ left. exists msg, [EvLogSentinel 500]. split; reflexivity. }
  right.
  destruct (LogTail.truthy_opt (LogTail.last_error lr)).
  - match goal with |- context [Pager.run E ?i ?u] =>
      destruct (pager_run_total E i u) as (o & new & Hp & Hcalls & Haud & Ho);
      rewrite Hp
    end.
    eexists _, ([EvLogSentinel 500] ++ new). rewrite <- app_assoc.
    split; [reflexivity|].
    eapply well_reported_after_page; [simpl; exact Hcalls|exact Ho].
  - destruct (get_changed_files_total E (t ++ [EvLogSentinel 500]))
      as (files & Hfiles).
    rewrite Hfiles. destruct files as [|f files].
    + eexists _, [EvLogSentinel 500]. split; [reflexivity|].
      now apply well_reported_none.
    + destruct (audit_run_total E (f :: files) (t ++ [EvLogSentinel 500]))
        as (vs & Hvs).
      rewrite Hvs. destruct vs as [|v vs].
      * eexists _, ([EvLogSentinel 500] ++ [EvCreedAudit (f :: files)]).
        rewrite <- app_assoc. split; [reflexivity|].
        now apply well_reported_none.
      * match goal with |- context [Pager.run E ?i ?u] =>
          destruct (pager_run_total E i u)
            as (o & new & Hp & Hcalls & Haud & Ho);
          rewrite Hp
        end.
        eexists _, ([EvLogSentinel 500] ++ [EvCreedAudit (f :: files)] ++ new).
        rewrite <- !app_assoc. split; [reflexivity|].
        eapply well_reported_after_page; [simpl; exact Hcalls|exact Ho].
Qed.

Lemma handle_scroll_committed_reported E scroll_path t :
  exists h new,
    Watchdog._handle_scroll_committed E scroll_path t = Ok h (t ++ new)
    /\ Effects.well_reported (Watchdog.h_actions_taken h)
                             (Watchdog.h_issues_found h) new.
Proof.
  destruct (plan_critic_run_total E scroll_path t) as (r & Hr & _).
  unfold Watchdog._handle_scroll_committed. unfold_m. rewrite Hr.
  destruct (PlanCritic.score r <? 80)%Z.
  - match goal with |- context [Pager.run E ?i ?u] =>
      destruct (pager_run_total E i u) as (o & new & Hp & Hcalls & Haud & Ho);
      rewrite Hp
    end.
    eexists _, ([EvPlanCritic scroll_path] ++ new). rewrite <- app_assoc.
    split; [reflexivity|].
    eapply well_reported_after_page; [simpl; exact Hcalls|exact Ho].
  - eexists _, [EvPlanCritic scroll_path]. split; [reflexivity|].
    now apply well_reported_none.
Qed.

(** X15. Whatever the event, a run of the agent that returns has recorded an
    issue exactly when it called the pager; for each call of the pager that
    failed, "Failed to page Hayato" is among the issues, and for each call
    that was delivered, "Paged successfully via" and its channel is among
    the actions.  A run that raises has not called the pager. *)
Theorem issues_are_paged :
  forall (E : Env) (input_obj : Watchdog.WatchInput) (t : Trace),
    (exists msg new,
        Watchdog.run E input_obj t = Raise msg (t ++ new)
        /\ Observe.pager_calls new = [])
    \/ (exists out new,
           Watchdog.run E input_obj t = Ok out (t ++ new)
           /\ (Watchdog.issues_found out = []
               <-> Observe.pager_calls new = [])
           /\ (forall i o, In (i, o) (Observe.pager_calls new) ->
                           pager_status o <> "success"%string ->
                           In "Failed to page Hayato"%string
                              (Watchdog.issues_found out))
           /\ (forall i o, In (i, o) (Observe.pager_calls new) ->
                           pager_status o = "success"%string ->
                           In ("Paged successfully via " ++ pager_method o)%string
                              (Watchdog.actions_taken out))).
Proof.
  intros E input_obj t.
  assert (Hwr : forall actions issues new,
             Effects.well_reported actions issues new ->
             (issues = [] <-> Observe.pager_calls new = [])
             /\ (forall i o, In (i, o) (Observe.pager_calls new) ->
                             pager_status o <> "success"%string ->
                             In "Failed to page Hayato"%string issues)
             /\ (forall i o, In (i, o) (Observe.pager_calls new) ->
                             pager_status o = "success"%string ->
                             In ("Paged successfully via " ++ pager_method o)%string
                                actions)).
  { intros actions issues new (He & Hf & Hd). split; [exact He|].
    split; intros i o Hin Hs.
    - apply (Hf i o Hin). unfold Observe.delivered.
      now apply String.eqb_neq.
    - apply (Hd i o Hin). unfold Observe.delivered.
      now apply String.eqb_eq. }
  unfold Watchdog.run. destruct (Watchdog.event input_obj).
  - unfold_m.
    destruct (handle_cycle_end_reported E t)
      as [(msg & new & -> & Hnone) | (h & new & -> & Hrep)].
    + left. exists msg, new. auto.
    + right. eexists _, new. split; [reflexivity|]. apply Hwr, Hrep.
  - unfold Watchdog._handle_manual_check. unfold_m.
    destruct (handle_cycle_end_reported E t)
      as [(msg & new & -> & Hnone) | (h1 & new1 & -> & Hrep1)].
    + left. exists msg, new. auto.
    + right. destruct (get_latest_scroll_total E (t ++ new1)) as (latest & ->).
      destruct (LogTail.truthy_opt latest).
      * destruct (handle_scroll_committed_reported E
                    (Watchdog.fmt_opt latest) (t ++ new1))
          as (h2 & new2 & -> & Hrep2).
        eexists _, (new1 ++ new2). rewrite app_assoc.
        split; [reflexivity|]. apply Hwr. simpl.
        unfold Watchdog.snoc. rewrite <- app_assoc.
        now apply well_reported_app.
      * eexists _, new1. split; [reflexivity|]. apply Hwr. simpl.
        unfold Watchdog.snoc. now apply well_reported_more_actions.
  - right. destruct (LogTail.truthy_opt (Watchdog.scroll_path input_obj)).
    + unfold_m.
      destruct (handle_scroll_committed_reported E
                  (Watchdog.fmt_opt (Watchdog.scroll_path input_obj)) t)
        as (h & new & -> & Hrep).
      eexists _, new. split; [reflexivity|]. apply Hwr, Hrep.
    + unfold_m. eexists _, []. rewrite app_nil_r. split; [reflexivity|].
      apply Hwr. now apply well_reported_none.
Qed.

(** *** The manual check after the cycle end *)

Lemma handle_scroll_committed_actions E scroll_path t :
  exists h t' rest,
    Watchdog._handle_scroll_committed E scroll_path t = Ok h t'
    /\ Watchdog.h_actions_taken h
       = ("Critiquing plan: " ++ scroll_path)%string :: rest.
Proof.
  destruct (plan_critic_run_total E scroll_path t) as (r & Hr & _).
  unfold Watchdog._handle_scroll_committed. unfold_m. rewrite Hr.
  destruct (PlanCritic.score r <? 80)%Z.
  - match goal with |- context [Pager.run E ?i ?u] =>
      destruct (pager_run_total E i u) as (o & new & Hp & _); rewrite Hp
    end.
    unfold Watchdog.after_page, Watchdog.snoc.
    destruct (String.eqb (pager_status o) "success");
      eexists _, _, _; split; reflexivity.
  - eexists _, _, _. split; reflexivity.
Qed.

(** X17. The manual check begins as the cycle end: when [_handle_cycle_end]
    raises, so does [_handle_manual_check], and otherwise its actions and
    issues are those of [_handle_cycle_end] followed by more.  With no latest
    scroll the only addition is the action "No recent scrolls found"; with
    one, the actions go on with "Found latest scroll: ..." and the critique
    of that scroll. *)
Theorem manual_check_extends_cycle_end :
  forall (E : Env) (t : Trace),
    match Watchdog._handle_cycle_end E t with
    | Raise msg t1 => Watchdog._handle_manual_check E t = Raise msg t1
    | Ok h1 t1 =>
        exists h t2 more_actions more_issues latest,
          Watchdog._handle_manual_check E t = Ok h t2
          /\ Watchdog.h_actions_taken h
             = Watchdog.h_actions_taken h1 ++ more_actions
          /\ Watchdog.h_issues_found h
             = Watchdog.h_issues_found h1 ++ more_issues
          /\ Watchdog._get_latest_scroll E t1 = Ok latest t1
          /\ if LogTail.truthy_opt latest then
               exists rest,
                 more_actions
                 = ("Found latest scroll: " ++ Watchdog.fmt_opt latest)%string
                     :: ("Critiquing plan: " ++ Watchdog.fmt_opt latest)%string
                     :: rest
             else
               more_actions = ["No recent scrolls found"%string]
               /\ more_issues = [] /\ t2 = t1
    end.
Proof.
  intros E t. unfold Watchdog._handle_manual_check. unfold_m.
  destruct (Watchdog._handle_cycle_end E t) as [h1 t1|msg t1]; [|reflexivity].
  destruct (get_latest_scroll_total E t1) as (latest & Hlatest).
  rewrite Hlatest.
  destruct (LogTail.truthy_opt latest) eqn:Htruthy.
  - destruct (handle_scroll_committed_actions E (Watchdog.fmt_opt latest) t1)
      as (h2 & t2 & rest & Hh2 & Hact).
    rewrite Hh2.
    eexists _, t2, _, (Watchdog.h_issues_found h2), latest.
    split; [reflexivity|]. rewrite Htruthy. simpl.
    unfold Watchdog.snoc. rewrite <- app_assoc, Hact.
    split; [reflexivity|]. split; [reflexivity|]. split; [reflexivity|].
    exists rest. reflexivity.
  - eexists _, t1, ["No recent scrolls found"%string], [], latest.
    split; [reflexivity|]. rewrite Htruthy.
    simpl. rewrite app_nil_r. repeat split; reflexivity.
Qed.

(** *** Which scrolls are accepted *)

(** X9. A scroll that exists and can be read is accepted without a page
    exactly when its text, in lower case, contains "cuda out of memory" or
    "oom" and contains neither "multiple issues" nor "several issues": the
    actions then end with "Plan score is acceptable: 85/100".  Every other
    readable scroll is paged once, with the score 45 when one of the two
    latter phrases occurs and 70 otherwise. *)
Theorem scroll_accepted_iff_oom :
  forall (E : Env) (scroll_path : string) (t : Trace) (content : string),
    os_path_exists E (t ++ [EvPlanCritic scroll_path]) scroll_path = true ->
    open_read E (t ++ [EvPlanCritic scroll_path]) scroll_path
    = ReadText content ->
    let low := Py.lower content in
    let several :=
      Py.contains "multiple issues" low || Py.contains "several issues" low in
    let oom := Py.contains "cuda out of memory" low || Py.contains "oom" low in
    exists h new,
      Watchdog._handle_scroll_committed E scroll_path t = Ok h (t ++ new)
      /\ if negb several && oom then
           h = Watchdog.mkHandled
                 [("Critiquing plan: " ++ scroll_path)%string;
                  "Plan score is acceptable: 85/100"%string] [] false
           /\ new = [EvPlanCritic scroll_path]
         else
           Datatypes.length (Observe.pager_calls new) = 1
           /\ exists rest,
               Watchdog.h_issues_found h
               = ("Plan score is below threshold: "
                    ++ (if several then "45" else "70") ++ "/100")%string
                   :: rest.
Proof.
  intros E scroll_path t content Hex Hread low several oom.
  unfold Watchdog._handle_scroll_committed, PlanCritic.run, PlanCritic._run.
  unfold_m. cbv beta iota. rewrite Hex. cbn [negb]. cbv beta iota.
  rewrite Hread. cbv beta iota.
  unfold PlanCritic._critique_with_llm. fold low. fold several. fold oom.
  destruct several; cbn [negb andb PlanCritic.score PlanCritic.issues].
  - change (45 <? 80)%Z with true. cbv beta iota.
    match goal with |- context [Pager.run E ?i ?u] =>
      destruct (pager_run_total E i u) as (o & new & Hp & Hcalls & _ & Ho);
      rewrite Hp
    end.
    eexists _, ([EvPlanCritic scroll_path] ++ new). rewrite <- app_assoc.
    split; [reflexivity|]. simpl. rewrite Hcalls. split; [reflexivity|].
    unfold Watchdog.after_page, Watchdog.snoc.
    destruct (String.eqb (pager_status o) "success"); eexists; reflexivity.
  - destruct oom; cbn [negb andb PlanCritic.score PlanCritic.issues].
    + change (85 <? 80)%Z with false. cbv beta iota.
      eexists _, _. split; [reflexivity|]. split; reflexivity.
    + change (70 <? 80)%Z with true. cbv beta iota.
      match goal with |- context [Pager.run E ?i ?u] =>
        destruct (pager_run_total E i u) as (o & new & Hp & Hcalls & _ & Ho);
        rewrite Hp
      end.
      eexists _, ([EvPlanCritic scroll_path] ++ new). rewrite <- app_assoc.
      split; [reflexivity|]. simpl. rewrite Hcalls. split; [reflexivity|].
      unfold Watchdog.after_page, Watchdog.snoc.
      destruct (String.eqb (pager_status o) "success"); eexists; reflexivity.
Qed.

(** A plan that speaks of a room is accepted: "oom" is found in it. *)
Lemma scroll_accepted_iff_oom_witness :
  exists h,
    Watchdog._handle_scroll_committed
      (Effects.scrolls_env "Make more room for the batch") "plan.md" []
    = Ok h [EvPlanCritic "plan.md"%string]
    /\ Watchdog.h_paged h = false
    /\ Watchdog.h_issues_found h = [].
Proof.
  destruct (@scroll_accepted_iff_oom
              (Effects.scrolls_env "Make more room for the batch")
              "plan.md" [] "Make more room for the batch" eq_refl eq_refl)
    as (h & new & Hrun & Hcase).
  vm_compute in Hcase. destruct Hcase as (-> & ->).
  eexists. split; [exact Hrun|]. split; reflexivity.
Defined.

(** *** A log that cannot be tailed *)

(** X3. When [tail] fails with [CalledProcessError] or [FileNotFoundError],
    the message that stands for the log begins with "Error:" and is itself
    found as the last error: [_handle_cycle_end] records it as an issue and
    calls the pager once about it, and neither looks for changed files nor
    runs the audit. *)
Theorem unreadable_log_is_paged :
  forall (E : Env) (t : Trace) (message : string),
    (subprocess_tail E (t ++ [EvLogSentinel 500]) 500 Paths.LOG
     = TailCalledProcessError
     /\ message = "Error: Could not tail log file training.log"%string)
    \/ (subprocess_tail E (t ++ [EvLogSentinel 500]) 500 Paths.LOG
        = TailFileNotFoundError
        /\ message = "Error: Log file training.log not found"%string) ->
    exists h new o rest,
      Watchdog._handle_cycle_end E t = Ok h (t ++ new)
      /\ Observe.pager_calls new
         = [(mkPagerInput "Error detected in training log"
               ("Shihan has detected an error in the training log:"
                  ++ Py.nl ++ Py.nl ++ message) 1, o)]
      /\ Observe.audit_calls new = []
      /\ Watchdog.h_issues_found h
         = ("Error found in log: " ++ message)%string :: rest
      /\ Watchdog.h_paged h = Observe.delivered o.
Proof.
  intros E t message Htail.
  assert (Hrun : exists out,
             LogTail.run E 500 t = Ok out (t ++ [EvLogSentinel 500])
             /\ LogTail.last_error out = Some message).
  { unfold LogTail.run, LogTail._run, LogTail._tail_log. unfold_m.
    destruct Htail as [(-> & ->)|(-> & ->)]; cbv beta iota;
      eexists; (split; [reflexivity|]); vm_compute; reflexivity. }
  destruct Hrun as (out & Hrun & Herr).
  assert (Htruthy : LogTail.truthy_opt (Some message) = true).
  { destruct Htail as [(_ & ->)|(_ & ->)]; reflexivity. }
  unfold Watchdog._handle_cycle_end. unfold_m. rewrite Hrun.
  rewrite Herr, Htruthy. cbn [Watchdog.fmt_opt].
  match goal with |- context [Pager.run E ?i ?u] =>
    destruct (pager_run_total E i u) as (o & new & Hp & Hcalls & Haud & Ho);
    rewrite Hp
  end.
  unfold Watchdog.after_page, Watchdog.snoc, Observe.delivered.
  destruct (String.eqb (pager_status o) "success") eqn:Hs;
    eexists _, ([EvLogSentinel 500] ++ new), o, _;
    rewrite (app_assoc t [EvLogSentinel 500] new);
    (split; [reflexivity|]);
    cbn [Observe.pager_calls Observe.audit_calls app];
    rewrite Hcalls, Haud, Hs; repeat split; reflexivity.
Qed.

Lemma unreadable_log_is_paged_witness :
  exists h t rest,
    Watchdog._handle_cycle_end Effects.no_tail_env [] = Ok h t
    /\ Watchdog.h_issues_found h
       = "Error found in log: Error: Log file training.log not found"%string
           :: rest
    /\ Datatypes.length (Observe.pager_calls t) = 1.
Proof.
  destruct (@unreadable_log_is_paged Effects.no_tail_env []
              "Error: Log file training.log not found"
              (or_intror (conj eq_refl eq_refl)))
    as (h & new & o & rest & Hrun & Hcalls & _ & Hissues & _).
  exists h, new, rest. split; [exact Hrun|]. split; [exact Hissues|].
  now rewrite Hcalls.
Defined.

(** *** When a last error is found *)

Lemma exec_lit_fail (L : string) : forall k prev s n,
  Py.startswith L s = false -> Re.exec (Re.lit L) k prev s n = None.
Proof.
  induction L as [|a L IH]; intros k prev s n; simpl; [discriminate|].
  destruct s as [|b s]; [destruct L; reflexivity|].
  destruct (Ascii.eqb a b) eqn:Hab; simpl.
  - intros H. destruct L as [|c L]; [discriminate|].
    simpl. rewrite Hab. apply IH. exact H.
  - intros _. destruct L; simpl; now rewrite Hab.
Qed.

Lemma exec_lit_success (L : string) : forall k prev s n,
  L <> EmptyString -> Py.startswith L s = true ->
  exists prev',
    Re.exec (Re.lit L) k prev s n
    = k prev' (Py.drop (String.length L) s) (n + String.length L).
Proof.
  induction L as [|a L IH]; intros k prev s n Hne; [contradiction|].
  simpl. destruct s as [|b s]; [discriminate|].
  destruct (Ascii.eqb a b) eqn:Hab; [|discriminate]. simpl. intros H.
  destruct L as [|c L].
  - simpl. rewrite Hab. exists (Some b).
    replace (n + 1) with (S n) by lia. reflexivity.
  - cbn [Re.exec]. cbn [Re.cmatch]. rewrite Hab.
    destruct (IH k (Some b) s (S n)) as (p' & Heq); [discriminate|exact H|].
    exists p'. rewrite Heq.
    replace (S n + String.length (String c L))
      with (n + S (String.length (String c L))) by lia.
    reflexivity.
Qed.

Lemma star_lazy_dotall_matches (K : Re.cont) :
  (forall prev n, exists m, K prev EmptyString n = Some m) ->
  forall s prev n,
    exists m, Re.star_lazy (Re.CDot true) K prev s n = Some m.
Proof.
  intros Hend. induction s as [|a s IH]; intros prev n.
  - cbn [Re.star_lazy]. destruct (Hend prev n) as (m & ->). eauto.
  - cbn [Re.star_lazy]. destruct (K prev (String a s) n) as [r|]; [eauto|].
    cbn [Re.cmatch orb]. apply IH.
Qed.

(** The rest of an error pattern, up to a blank line or the end, matches
    wherever it is tried. *)
Lemma upto_blank_matches : forall s prev n,
  exists m, Re.exec LogTail.upto_blank (fun _ _ m => Some m) prev s n = Some m.
Proof.
  intros s prev n. unfold LogTail.upto_blank.
  change (exists m,
             Re.star_lazy (Re.CDot true)
               (Re.exec (Re.RLook true
                           (Re.RAlt (Re.lit (Py.nl ++ Py.nl)) Re.REndZ))
                        (fun _ _ m => Some m)) prev s n = Some m).
  apply star_lazy_dotall_matches.
  intros p k. exists k. reflexivity.
Qed.

Lemma error_pattern_matches_iff (L : string) prev s :
  L <> EmptyString ->
  (exists m, Re.match_here (Re.RSeq (Re.lit L) LogTail.upto_blank) prev s
             = Some m)
  <-> Py.startswith L s = true.
Proof.
  intros Hne. unfold Re.match_here. cbn [Re.exec]. split.
  - intros (m & Hm). destruct (Py.startswith L s) eqn:Hs; [reflexivity|].
    rewrite exec_lit_fail in Hm by exact Hs. discriminate.
  - intros Hs.
    destruct (@exec_lit_success L
                (Re.exec LogTail.upto_blank (fun _ _ m => Some m))
                prev s 0 Hne Hs) as (p' & ->).
    apply upto_blank_matches.
Qed.

Lemma spans_from_nil_iff (L : string) :
  L <> EmptyString ->
  forall s prev off,
    Re.spans_from (Re.RSeq (Re.lit L) LogTail.upto_blank) prev s 0 off = []
    <-> Py.contains L s = false.
Proof.
  intros Hne. induction s as [|a s IH]; intros prev off.
  - cbn [Re.spans_from Py.contains]. rewrite orb_false_r.
    pose proof (@error_pattern_matches_iff L prev EmptyString Hne) as Hiff.
    destruct (Re.match_here _ prev EmptyString) as [len|].
    + split; [discriminate|]. intros H.
      rewrite (proj1 Hiff (ex_intro _ len eq_refl)) in H. discriminate.
    + split; [|reflexivity]. intros _.
      destruct (Py.startswith L EmptyString) eqn:Hs; [|reflexivity].
      destruct (proj2 Hiff eq_refl); discriminate.
  - cbn [Re.spans_from Py.contains].
    pose proof (@error_pattern_matches_iff L prev (String a s) Hne) as Hiff.
    destruct (Re.match_here _ prev (String a s)) as [len|].
    + rewrite (proj1 Hiff (ex_intro _ len eq_refl)).
      split; discriminate.
    + destruct (Py.startswith L (String a s)) eqn:Hs.
      * destruct (proj2 Hiff eq_refl); discriminate.
      * simpl. apply IH.
Qed.

Lemma contains_iff (q s : string) :
  Py.contains q s = true <-> exists i, Py.startswith q (Py.drop i s) = true.
Proof.
  induction s as [|a s IH].
  - simpl. rewrite orb_false_r. split; [intros H; exists 0; exact H|].
    intros (i & H). destruct i; exact H.
  - cbn [Py.contains]. rewrite orb_true_iff, IH. split.
    + intros [H|(i & H)]; [exists 0; exact H|exists (S i); exact H].
    + intros ([|i] & H); [left; exact H|right; exists i; exact H].
Qed.

Lemma startswith_append_drop (p q s : string) :
  Py.startswith (p ++ q) s = true ->
  Py.startswith q (Py.drop (String.length p) s) = true.
Proof.
  revert s. induction p as [|a p IH]; intros s; simpl; [auto|].
  destruct s as [|b s]; [discriminate|].
  intros H. apply andb_true_iff in H. destruct H as (_ & H). now apply IH.
Qed.

Lemma drop_drop (i j : nat) (s : string) :
  Py.drop i (Py.drop j s) = Py.drop (j + i) s.
Proof.
  revert s. induction j as [|j IH]; intros s; simpl; [reflexivity|].
  destruct s as [|a s]; [destruct i; reflexivity|]. apply IH.
Qed.

Lemma contains_suffix (p q s : string) :
  Py.contains (p ++ q) s = true -> Py.contains q s = true.
Proof.
  rewrite !contains_iff. intros (i & H).
  apply startswith_append_drop in H. rewrite drop_drop in H. eauto.
Qed.

Lemma find_last_error_none_iff_patterns :
  forall (log : string),
    LogTail._find_last_error log = None
    <-> Py.contains "Traceback (most recent call last):" log = false
        /\ Py.contains "RuntimeError:" log = false
        /\ Py.contains "AssertionError:" log = false
        /\ Py.contains "Error:" log = false.
Proof.
  intros log. unfold LogTail._find_last_error, LogTail.collect_errors.
  assert (Hfind : forall L, L <> EmptyString ->
             Re.findall (Re.RSeq (Re.lit L) LogTail.upto_blank) log = []
             <-> Py.contains L log = false).
  { intros L Hne. unfold Re.findall, Re.spans.
    rewrite <- (@spans_from_nil_iff L Hne log None 0).
    destruct (Re.spans_from _ None log 0 0); simpl; split;
      try reflexivity; discriminate. }
  cbv [LogTail.error_patterns flat_map].
  rewrite app_nil_r. split.
  - intros H. apply last_opt_none in H.
    apply app_eq_nil in H. destruct H as (H1 & H).
    apply app_eq_nil in H. destruct H as (H2 & H).
    apply app_eq_nil in H. destruct H as (H3 & H4).
    apply Hfind in H1, H2, H3, H4; try discriminate. auto.
  - intros (H1 & H2 & H3 & H4).
    apply Hfind in H1, H2, H3, H4; try discriminate.
    rewrite H1, H2, H3, H4. reflexivity.
Qed.

(** The patterns for "RuntimeError:" and "AssertionError:" match only where
    the pattern for "Error:" matches too. *)
Lemma error_marker_covers (log : string) :
  Py.contains "Error:" log = false ->
  Py.contains "RuntimeError:" log = false
  /\ Py.contains "AssertionError:" log = false.
Proof.
  intros H. split.
  - destruct (Py.contains "RuntimeError:" log) eqn:Hc; [|reflexivity].
    apply (contains_suffix "Runtime" "Error:") in Hc. congruence.
  - destruct (Py.contains "AssertionError:" log) eqn:Hc; [|reflexivity].
    apply (contains_suffix "Assertion" "Error:") in Hc. congruence.
Qed.

(** X2. [_find_last_error] finds no error exactly in a log that contains
    neither "Error:" nor "Traceback (most recent call last):": every log in
    which "Error:" occurs anywhere, in any line and inside any word, has a
    last error. *)
Theorem last_error_iff_marker :
  forall (log : string),
    LogTail._find_last_error log = None
    <-> Py.contains "Error:" log = false
        /\ Py.contains "Traceback (most recent call last):" log = false.
Proof.
  intros log. rewrite find_last_error_none_iff_patterns. split.
  - intros (Htb & _ & _ & Herr). split; assumption.
  - intros (Herr & Htb).
    destruct (error_marker_covers log Herr) as (Hrt & Has).
    repeat split; assumption.
Qed.

(** A warning that mentions "0 Error: none" counts as an error; an "error"
    in lower case does not. *)
Lemma last_error_iff_marker_examples :
  LogTail._find_last_error "step 7: 0 Error: none" = Some "Error: none"%string
  /\ LogTail._find_last_error "step 7: error in batch" = None.
Proof. split; vm_compute; reflexivity. Qed.

(** *** The message of a violation *)

Lemma lstrip_length (s : string) : String.length (Py.lstrip s) <= String.length s.
Proof.
  induction s as [|a s IH]; simpl; [lia|].
  destruct (Py.isspace a); simpl; lia.
Qed.

Lemma rstrip_length (s : string) : String.length (Py.rstrip s) <= String.length s.
Proof.
  induction s as [|a s IH]; simpl; [lia|].
  destruct (Py.rstrip s) as [|b r].
  - destruct (Py.isspace a); simpl; lia.
  - simpl in *. lia.
Qed.

Lemma strip_length (s : string) : String.length (Py.strip s) <= String.length s.
Proof.
  unfold Py.strip.
  eapply Nat.le_trans; [apply rstrip_length|apply lstrip_length].
Qed.

(** X8. The message of a violation is the path, the line number, the
    description of the rule and, on a second line after two spaces, the line
    itself, stripped and never longer than 50 characters: whole when the
    line has at most 50 characters, and otherwise its first 47 characters
    and "...", stripped.  Every rule of the table has a description of its
    own, which ends with "(forbidden by Creed)". *)
Theorem violation_message_shape :
  forall (file_path : string) (line_num : nat) (line pattern_name : string),
    (exists shown,
        CreedAudit._format_violation file_path line_num line pattern_name
        = (file_path ++ ":" ++ Py.str_of_nat line_num ++ ": "
             ++ CreedAudit.dict_get CreedAudit.pattern_descriptions pattern_name
                  ("Violation of " ++ pattern_name)
             ++ Py.nl ++ "  " ++ shown)%string
        /\ String.length shown <= 50
        /\ (String.length line <= 50 -> shown = Py.strip line)
        /\ (50 < String.length line ->
            shown = Py.strip (Py.take 47 line ++ "...")))
    /\ (forall pat,
          In (pattern_name, pat) CreedAudit.forbidden_patterns ->
          Py.endswith "(forbidden by Creed)"
            (CreedAudit.dict_get CreedAudit.pattern_descriptions pattern_name
               ("Violation of " ++ pattern_name)%string) = true).
Proof.
  intros file_path line_num line pattern_name. split.
  - unfold CreedAudit._format_violation.
    destruct (50 <? String.length line) eqn:Hlong.
    + apply Nat.ltb_lt in Hlong. eexists. split; [reflexivity|].
      split; [|split; [lia|reflexivity]].
      eapply Nat.le_trans; [apply strip_length|].
      rewrite append_length, take_length.
      change (String.length "...") with 3. lia.
    + apply Nat.ltb_ge in Hlong. eexists. split; [reflexivity|].
      split; [|split; [reflexivity|lia]].
      eapply Nat.le_trans; [apply strip_length|exact Hlong].
  - intros pat Hin. cbv [In CreedAudit.forbidden_patterns] in Hin.
    repeat (destruct Hin as [Hin|Hin];
            [inversion Hin; vm_compute; reflexivity|]).
    contradiction.
Qed.

(** *** The elapsed time as a function of the difference *)

(** X4. When the first and the last timestamp of the log are dates and times
    that differ by [d] seconds, [_compute_runtime] writes days, hours,
    minutes and seconds for a difference of a day or more, and the time
    without days, from the coarsest unit that is not zero, for a shorter
    one.  When the last timestamp is the earlier one, it writes the
    difference modulo one day, without a sign or a count of days. *)
Theorem runtime_of_difference :
  forall (log first second : string) (rest : list string)
         (first_time last_time : LogTail.datetime),
    Re.findall LogTail.timestamp_pattern log = first :: second :: rest ->
    LogTail.strptime first = Some first_time ->
    LogTail.strptime (last (second :: rest) first) = Some last_time ->
    let d := (LogTail.total_seconds last_time
              - LogTail.total_seconds first_time)%Z in
    ((0 <= d < 86400)%Z -> LogTail._compute_runtime log = Effects.hms d)
    /\ ((0 <= d < 60)%Z ->
        LogTail._compute_runtime log = (Py.str_of_Z d ++ "s")%string)
    /\ ((86400 <= d)%Z ->
        LogTail._compute_runtime log
        = (Py.str_of_Z (d / 86400) ++ "d "
             ++ Py.str_of_Z ((d mod 86400) / 3600) ++ "h "
             ++ Py.str_of_Z (((d mod 86400) mod 3600) / 60) ++ "m "
             ++ Py.str_of_Z (((d mod 86400) mod 3600) mod 60) ++ "s")%string)
    /\ ((d < 0)%Z ->
        LogTail._compute_runtime log = Effects.hms (d mod 86400)).
Proof.
  intros log first second rest first_time last_time Hfind Hfirst Hlast d.
  unfold LogTail._compute_runtime. rewrite Hfind, Hfirst, Hlast.
  unfold LogTail.timedelta. fold d. cbv beta iota zeta.
  assert (Hsmall : (0 <= d < 86400)%Z ->
                   (if (0 <? d / 86400)%Z
                    then (Py.str_of_Z (d / 86400) ++ "d "
                            ++ Py.str_of_Z (d mod 86400 / 3600) ++ "h "
                            ++ Py.str_of_Z ((d mod 86400) mod 3600 / 60) ++ "m "
                            ++ Py.str_of_Z (((d mod 86400) mod 3600) mod 60)
                            ++ "s")%string
                    else Effects.hms (d mod 86400))
                   = Effects.hms d).
  { intros Hd. rewrite (Z.div_small d 86400), (Z.mod_small d 86400) by lia.
    reflexivity. }
  split; [exact Hsmall|]. split; [|split].
  - intros Hd. unfold Effects.hms in Hsmall. rewrite Hsmall by lia.
    unfold Effects.hms.
    rewrite (Z.div_small d 3600), (Z.mod_small d 3600) by lia.
    rewrite (Z.div_small d 60), (Z.mod_small d 60) by lia.
    reflexivity.
  - intros Hd.
    assert (H : (0 <? d / 86400)%Z = true).
    { apply Z.ltb_lt. apply Z.div_str_pos. lia. }
    now rewrite H.
  - intros Hd.
    assert (H : (0 <? d / 86400)%Z = false).
    { apply Z.ltb_ge. assert (d / 86400 < 0)%Z; [|lia].
      apply Z.div_lt_upper_bound; lia. }
    now rewrite H.
Qed.

(** A log that goes back in time by five seconds. *)
Lemma runtime_of_difference_witness :
  LogTail._compute_runtime "2024-01-01 00:00:00 up 2023-12-31 23:59:55 down"
  = "23h 59m 55s"%string.
Proof.
  destruct (@runtime_of_difference
              "2024-01-01 00:00:00 up 2023-12-31 23:59:55 down"
              "2024-01-01 00:00:00" "2023-12-31 23:59:55" []
              (LogTail.mkDatetime 2024 1 1 0 0 0)
              (LogTail.mkDatetime 2023 12 31 23 59 55)
              ltac:(vm_compute; reflexivity)
              ltac:(vm_compute; reflexivity)
              ltac:(vm_compute; reflexivity))
    as (_ & _ & _ & Hneg).
  rewrite Hneg; vm_compute; reflexivity.
Defined.

(** *** From the log to the page *)

Lemma find_last_error_truthy (log e : string) :
  LogTail._find_last_error log = Some e -> LogTail.truthy e = true.
Proof.
  unfold LogTail._find_last_error, LogTail.collect_errors. intros Hlast.
  assert (Hne : flat_map (fun p => Re.findall p log) LogTail.error_patterns
                <> []).
  { intros Hnil. rewrite Hnil in Hlast. discriminate. }
  destruct (last_opt_flat_map _ _ Hne) as (p & Hp & _ & Heq).
  rewrite Heq in Hlast. unfold Re.findall in Hlast.
  rewrite last_opt_map in Hlast.
  destruct (LogTail.last_opt (Re.spans p log)) as [sp|] eqn:Hsp;
    [|discriminate].
  inversion Hlast; subst e.
  apply (@error_match_not_empty p log sp Hp (@last_opt_in _ _ _ Hsp)).
Qed.

(** X10. When the log that [tail] delivers contains "Error:" or the header
    of a traceback, [_handle_cycle_end] calls the pager exactly once, with
    priority 1, and does not run the audit.  When it contains neither, the
    pager is called only after an audit: a page without an audit is always
    about the log. *)
Theorem marker_in_log_is_paged :
  forall (E : Env) (t : Trace) (log : string),
    subprocess_tail E (t ++ [EvLogSentinel 500]) 500 Paths.LOG
    = TailStdout log ->
    exists h new,
      Watchdog._handle_cycle_end E t = Ok h (t ++ new)
      /\ (Py.contains "Error:" log = true
          \/ Py.contains "Traceback (most recent call last):" log = true ->
          Observe.audit_calls new = []
          /\ exists i o,
              Observe.pager_calls new = [(i, o)]
              /\ priority i = 1%Z
              /\ title i = "Error detected in training log"%string)
      /\ (Py.contains "Error:" log = false ->
          Py.contains "Traceback (most recent call last):" log = false ->
          Observe.pager_calls new <> [] ->
          exists files,
            Observe.audit_calls new = [files] /\ files <> []).
Proof.
  intros E t log Htail.
  pose proof (handle_cycle_end_cases E t) as H. simpl in H.
  rewrite (log_run_stdout E 500 t Htail) in H.
  destruct H as (h & new & Hrun & _ & _ & Hcase).
  cbn [LogTail.last_error] in Hcase.
  exists h, new. split; [exact Hrun|].
  assert (Hnone : LogTail._find_last_error log = None
                  <-> Py.contains "Error:" log = false
                      /\ Py.contains "Traceback (most recent call last):" log
                         = false).
  { rewrite find_last_error_none_iff_patterns. split.
    - intros (Htb & _ & _ & Herr). split; assumption.
    - intros (Herr & Htb).
      destruct (error_marker_covers log Herr) as (Hrt & Has).
      repeat split; assumption. }
  destruct (LogTail._find_last_error log) as [e|] eqn:Hfind.
  - assert (Htruthy : LogTail.truthy_opt (Some e) = true)
      by (simpl; now apply find_last_error_truthy with (log := log)).
    rewrite Htruthy in Hcase. destruct Hcase as (Haud & o & Hcalls).
    split.
    + intros _. split; [exact Haud|]. eexists _, o.
      split; [exact Hcalls|]. split; reflexivity.
    + intros H1 H2. destruct Hnone as (_ & Hn).
      specialize (Hn (conj H1 H2)). discriminate.
  - cbn [LogTail.truthy_opt] in Hcase.
    destruct Hcase as (files & _ & Hfiles).
    destruct (proj1 Hnone eq_refl) as (H1 & H2). split.
    + intros [H|H]; congruence.
    + intros _ _ Hpaged. destruct files as [|f files].
      * destruct Hfiles as (Hp & _). contradiction.
      * destruct Hfiles as (vs & _ & Haud & _). exists (f :: files).
        split; [exact Haud|discriminate].
Qed.

Lemma marker_in_log_is_paged_witness :
  exists h new,
    Watchdog._handle_cycle_end (Observe.plain_env "loss nan, ValueError: bad input") []
    = Ok h new
    /\ Datatypes.length (Observe.pager_calls new) = 1
    /\ Observe.audit_calls new = [].
Proof.
  destruct (@marker_in_log_is_paged
              (Observe.plain_env "loss nan, ValueError: bad input") []
              "loss nan, ValueError: bad input" eq_refl)
    as (h & new & Hrun & Herr & _).
  exists h, new. split; [exact Hrun|].
  destruct Herr as (Haud & i & o & Hcalls & _).
  - left. vm_compute. reflexivity.
  - rewrite Hcalls. split; [reflexivity|exact Haud].
Defined.

(** *** A changed file that is gone *)

Lemma audit_files_missing E (files : list string) t :
  (forall f, In f files -> os_path_exists E t f = false) ->
  CreedAudit.audit_files E files t
  = Ok (map (fun f => ("File not found: " ++ f)%string) files) t.
Proof.
  induction files as [|f files IH]; intros Hall; [reflexivity|].
  simpl. unfold_m. unfold CreedAudit.audit_file at 1. unfold_m.
  rewrite (Hall f (or_introl eq_refl)). cbn [negb]. cbv beta iota.
  rewrite IH; [reflexivity|]. intros g Hg. apply Hall. simpl. auto.
Qed.

(** X16. When the log shows no error and none of the changed files that git
    names exists any more, [_handle_cycle_end] reports "File not found: ..."
    for each of them, in their order, as the issues, and calls the pager
    once about them: a deleted Python file is paged as a creed violation. *)
Theorem deleted_files_are_paged :
  forall (E : Env) (t : Trace) (log : string) (files : list string),
    subprocess_tail E (t ++ [EvLogSentinel 500]) 500 Paths.LOG
    = TailStdout log ->
    LogTail._find_last_error log = None ->
    Watchdog._get_changed_files E (t ++ [EvLogSentinel 500])
    = Ok files (t ++ [EvLogSentinel 500]) ->
    files <> [] ->
    (forall f, In f files ->
               os_path_exists E
                 ((t ++ [EvLogSentinel 500]) ++ [EvCreedAudit files]) f
               = false) ->
    let violations := map (fun f => ("File not found: " ++ f)%string) files in
    exists h new o,
      Watchdog._handle_cycle_end E t = Ok h (t ++ new)
      /\ Observe.pager_calls new
         = [(mkPagerInput "Creed violations detected"
               ("Shihan has detected "
                  ++ Py.str_of_nat (Datatypes.length files)
                  ++ " creed violations:" ++ Py.nl ++ Py.nl
                  ++ Py.join Py.nl violations) 1, o)]
      /\ Watchdog.h_issues_found h
         = violations
             ++ (if Watchdog.h_paged h then []
                 else ["Failed to page Hayato"%string]).
Proof.
  intros E t log files Htail Hfind Hfiles Hne Hgone violations.
  pose proof (handle_cycle_end_cases E t) as H. simpl in H.
  rewrite (log_run_stdout E 500 t Htail) in H.
  destruct H as (h & new & Hrun & _ & _ & Hcase).
  cbn [LogTail.last_error] in Hcase. rewrite Hfind in Hcase.
  cbn [LogTail.truthy_opt] in Hcase.
  destruct Hcase as (files' & Hfiles' & Hcase).
  rewrite Hfiles in Hfiles'. inversion Hfiles'; subst files'.
  destruct files as [|f files]; [contradiction|].
  destruct Hcase as (vs & Hvs & _ & Hissues & Hpages).
  assert (Hvs' : vs = violations).
  { revert Hvs. unfold CreedAudit.run, CreedAudit._run. unfold_m.
    rewrite (audit_files_missing E (f :: files) _ Hgone).
    intros Heq. inversion Heq. reflexivity. }
  subst vs. unfold violations in *. cbn [map] in Hpages, Hissues.
  destruct Hpages as (o & Hcalls).
  exists h, new, o. split; [exact Hrun|]. split.
  - rewrite Hcalls. cbn [map Datatypes.length]. rewrite length_map.
    reflexivity.
  - exact Hissues.
Qed.

Lemma deleted_files_are_paged_witness :
  exists h new,
    Watchdog._handle_cycle_end (Effects.scrolls_env "plan") [] = Ok h new
    /\ Watchdog.h_issues_found h = ["File not found: gone.py"%string]
    /\ Watchdog.h_paged h = true.
Proof.
  destruct (@deleted_files_are_paged (Effects.scrolls_env "plan") []
              "all good" ["gone.py"%string]
              eq_refl
              ltac:(vm_compute; reflexivity)
              ltac:(vm_compute; reflexivity)
              ltac:(discriminate))
    as (h & new & o & Hrun & Hcalls & Hissues).
  - intros f [<-|[]]. reflexivity.
  - assert (Hh : Watchdog.h_paged h = true).
    { revert Hrun. vm_compute. intros Heq. inversion Heq. reflexivity. }
    exists h, new. split; [exact Hrun|]. rewrite Hh in Hissues.
    split; [exact Hissues|exact Hh].
Defined.
